(** * Study Focus bot: the focus-timer state machine and the statistics aggregator

    A shallow embedding of the core of [src/index.js]: the in-memory user
    store with the task list, the timer store with the jobs handed to the
    scheduler, the operations [startFocusTimer], [pauseFocusTimer],
    [resumeFocusTimer], [stopFocusTimer], the two scheduler callbacks
    (minute update and [handleTimerComplete]), the periodic
    [cleanupTimers], the statistics functions [addCompletedSession] and
    [calculateProductivityScore], and the numbers and bars of the timer
    message and of the statistics message.

    Modelling conventions.
    - A [Date] is its millisecond timestamp, a [Z]; [null] is [None].  A
      [Date] object is truthy whatever its value, so [if (session.x)] on a
      nullable date is a test for [Some].
    - A JavaScript number that holds an integer (a timestamp, a number
      of milliseconds, a counter, the minutes of a session) is a [Z].  A
      quotient or a product that need not be an integer is a binary64
      number, computed with the operations of [SpecFloat] as the
      processor computes it, rounding included.
    - The two JavaScript [Map]s and the per-user timer object are [gmap]s.
    - Every function body runs atomically and reads the clock once: the
      argument [now].  What the Telegram API answers is an argument too
      (the message id of a sent message, or [None] when the call rejects).
    - [moment().format('YYYY-MM-DD')] is modelled by the number of the
      local calendar day; the process runs at a fixed offset from UTC.
    - Texts and keyboards are left out; of a message the model keeps the
      numbers and the bars.  The two input flags that the command layer
      keeps on the session object ([awaitingCustomDuration],
      [awaitingTaskInput]) are left out: no function of the model reads
      them. *)

From Stdlib Require Import ZArith QArith Qround Qpower Lia SpecFloat.
From stdpp Require Import gmap strings list fin_maps.

Local Open Scope Z_scope.

(** ** Numbers *)

(** A JavaScript number: an IEEE 754 double, with 53 bits of precision and
    the exponent range of binary64.  The four operations round to the
    nearest number, ties to even. *)
Definition number : Type := spec_float.

Definition prec : Z := 53.
Definition emax : Z := 1024.

Definition fadd : number → number → number := SFadd prec emax.
Definition fsub : number → number → number := SFsub prec emax.
Definition fmul : number → number → number := SFmul prec emax.
Definition fdiv : number → number → number := SFdiv prec emax.

(** The number that holds an integer; exact below [2^53]. *)
Definition ofZ (z : Z) : number := binary_normalize prec emax z 0 false.

(** The JavaScript comparison [x > y] on numbers. *)
Definition fgt (x y : number) : bool := SFltb y x.

(** The rational a finite number stands for.  An infinity or NaN stands
    for none; they come up only where an integer is beyond the range of
    binary64 or a division is by zero, and count as 0 where the model
    needs an integer of them. *)
Definition valueOf (x : number) : Q :=
  match x with
  | S754_finite s m e => (inject_Z (cond_Zopp s (Zpos m)) * (2 # 1) ^ e)%Q
  | _ => 0%Q
  end.

(** [Math.round] on the value of a number: the nearest integer, halves
    towards plus infinity.  [Math.round] is exact, it does not add a half
    in binary64. *)
Definition Math_round (x : Q) : Z := Qfloor (x + (1 # 2)).

(** [Math.floor]. *)
Definition Math_floor (x : Q) : Z := Qfloor x.

(** The comparison [x > y] on exact quotients. *)
Definition Qgtb (x y : Q) : bool := negb (Qle_bool x y).

(** ** The data model ([initializeUserData]) *)

Record Task := {
  task_id : Z;
  task_text : string;
  task_completed : bool;
  task_createdAt : Z
}.

Record Session := {
  isStudying : bool;
  studyStartTime : option Z;
  pauseStartTime : option Z;
  totalPausedTime : Z;      (* milliseconds *)
  pausedDuration : number;  (* minutes *)
  messageId : option Z;
  plannedDuration : Z
}.

Record Stats := {
  totalStudyTime : Z;       (* minutes *)
  totalSessions : Z;
  longestSession : Z;       (* minutes *)
  totalCompletedTasks : Z;
  streak : Z;
  lastStudyDate : option Z;
  dailyStudyTime : gmap Z Z (* calendar day -> minutes *)
}.

Record UserData := {
  tasks : list Task;
  session : Session;
  stats : Stats
}.

(** The object literal of [initializeUserData]. *)
Definition newSession : Session :=
  {| isStudying := false; studyStartTime := None; pauseStartTime := None;
     totalPausedTime := 0; pausedDuration := ofZ 0; messageId := None;
     plannedDuration := 0 |}.

Definition newStats : Stats :=
  {| totalStudyTime := 0; totalSessions := 0; longestSession := 0;
     totalCompletedTasks := 0; streak := 0; lastStudyDate := None;
     dailyStudyTime := ∅ |}.

Definition newUserData : UserData :=
  {| tasks := []; session := newSession; stats := newStats |}.

(** ** The scheduler

    [schedule.scheduleJob] returns a job object; the model names it by a
    handle and keeps, for every job that has not been cancelled, the
    closure it will call.  A closure is the callback together with the
    variables it captured. *)

Inductive Callback :=
| UpdateTick (chatId startTime endTime : Z)      (* every minute *)
| TimerEnd (fireAt chatId duration : Z)          (* once, at [endTime] *)
| BreakReminder (fireAt chatId : Z).             (* once, five minutes later *)

Record World := {
  userStore : gmap Z UserData;
  timerStore : gmap Z (gmap string nat);
  scheduled : gmap nat Callback;
  nextJob : nat;
  utcOffset : Z             (* milliseconds east of UTC *)
}.

Definition emptyWorld (tz : Z) : World :=
  {| userStore := ∅; timerStore := ∅; scheduled := ∅; nextJob := 0%nat;
     utcOffset := tz |}.

Definition setUserStore (m : gmap Z UserData) (w : World) : World :=
  {| userStore := m; timerStore := timerStore w; scheduled := scheduled w;
     nextJob := nextJob w; utcOffset := utcOffset w |}.

Definition setTimerStore (m : gmap Z (gmap string nat)) (w : World) : World :=
  {| userStore := userStore w; timerStore := m; scheduled := scheduled w;
     nextJob := nextJob w; utcOffset := utcOffset w |}.

(** [schedule.scheduleJob(when, callback)]. *)
Definition scheduleJob (cb : Callback) (w : World) : nat * World :=
  (nextJob w,
   {| userStore := userStore w; timerStore := timerStore w;
      scheduled := <[nextJob w := cb]> (scheduled w);
      nextJob := S (nextJob w); utcOffset := utcOffset w |}).

(** [job.cancel()]. *)
Definition cancel (job : nat) (w : World) : World :=
  {| userStore := userStore w; timerStore := timerStore w;
     scheduled := delete job (scheduled w);
     nextJob := nextJob w; utcOffset := utcOffset w |}.

(** ** The user store *)

Definition initializeUserData (userId : Z) (w : World) : World :=
  match userStore w !! userId with
  | Some _ => w
  | None => setUserStore (<[userId := newUserData]> (userStore w)) w
  end.

(** [userStore.get(userId)] once [initializeUserData(userId)] has run. *)
Definition userDataOf (userId : Z) (w : World) : UserData :=
  default newUserData (userStore w !! userId).

Definition sessionOf (userId : Z) (w : World) : Session :=
  session (userDataOf userId w).

Definition statsOf (userId : Z) (w : World) : Stats :=
  stats (userDataOf userId w).

Definition getUserSession (userId : Z) (w : World) : World * Session :=
  let w := initializeUserData userId w in
  (w, sessionOf userId w).

Definition getUserStats (userId : Z) (w : World) : World * Stats :=
  let w := initializeUserData userId w in
  (w, statsOf userId w).

(** The partial object passed to [updateUserSession]: a field that the
    literal does not mention is [None]. *)
Record SessionPatch := {
  p_isStudying : option bool;
  p_studyStartTime : option (option Z);
  p_pauseStartTime : option (option Z);
  p_totalPausedTime : option Z;
  p_pausedDuration : option number;
  p_messageId : option (option Z);
  p_plannedDuration : option Z
}.

(** [{ ...session, ...sessionData }]. *)
Definition spread (s : Session) (p : SessionPatch) : Session :=
  {| isStudying := default (isStudying s) (p_isStudying p);
     studyStartTime := default (studyStartTime s) (p_studyStartTime p);
     pauseStartTime := default (pauseStartTime s) (p_pauseStartTime p);
     totalPausedTime := default (totalPausedTime s) (p_totalPausedTime p);
     pausedDuration := default (pausedDuration s) (p_pausedDuration p);
     messageId := default (messageId s) (p_messageId p);
     plannedDuration := default (plannedDuration s) (p_plannedDuration p) |}.

Definition updateUserSession (userId : Z) (sessionData : SessionPatch)
    (w : World) : World :=
  let w := initializeUserData userId w in
  let userData := userDataOf userId w in
  let userData :=
    {| tasks := tasks userData;
       session := spread (session userData) sessionData;
       stats := stats userData |} in
  setUserStore (<[userId := userData]> (userStore w)) w.

(** ** The statistics aggregator *)

Definition msPerDay : Z := 86400000.

(** The calendar day of a timestamp, as [format('YYYY-MM-DD')] names it. *)
Definition formatDay (w : World) (t : Z) : Z := (t + utcOffset w) / msPerDay.

(** [moment(a).diff(moment(b), 'days')] on two calendar days. *)
Definition diffDays (a b : Z) : Z := a - b.

(** The assignments [addCompletedSession] makes to the fields of
    [userData.stats], in the order of the source. *)
Definition completedStats (w : World) (st : Stats)
    (durationMinutes now : Z) : Stats :=
  let totalStudyTime' := totalStudyTime st + durationMinutes in
  let totalSessions' := totalSessions st + 1 in
  let longestSession' :=
    if longestSession st <? durationMinutes then durationMinutes
    else longestSession st in
  let today := formatDay w now in
  let dailyStudyTime' :=
    <[today := default 0 (dailyStudyTime st !! today) + durationMinutes]>
      (dailyStudyTime st) in
  let lastDay := formatDay w <$> lastStudyDate st in
  let streak' :=
    match lastDay with
    | Some lastDay =>
        if diffDays today lastDay =? 1 then streak st + 1
        else if today =? lastDay then streak st
        else 1
    | None => 1
    end in
  {| totalStudyTime := totalStudyTime'; totalSessions := totalSessions';
     longestSession := longestSession';
     totalCompletedTasks := totalCompletedTasks st;
     streak := streak'; lastStudyDate := Some now;
     dailyStudyTime := dailyStudyTime' |}.

Definition addCompletedSession (userId durationMinutes now : Z)
    (w : World) : World :=
  let w := initializeUserData userId w in
  let userData := userDataOf userId w in
  let userData :=
    {| tasks := tasks userData; session := session userData;
       stats := completedStats w (stats userData) durationMinutes now |} in
  setUserStore (<[userId := userData]> (userStore w)) w.

(** ** The timer store *)

Definition storeTimer (userId : Z) (timerType : string) (timer : nat)
    (w : World) : World :=
  let userTimers := default ∅ (timerStore w !! userId) in
  setTimerStore (<[userId := <[timerType := timer]> userTimers]> (timerStore w)) w.

Definition removeTimer (userId : Z) (timerType : string) (w : World) : World :=
  match timerStore w !! userId with
  | None => w
  | Some userTimers =>
      match userTimers !! timerType with
      | Some _ =>
          setTimerStore (<[userId := delete timerType userTimers]> (timerStore w)) w
      | None => w
      end
  end.

(** ** The timer service *)

Definition isSome {A} (o : option A) : bool :=
  match o with Some _ => true | None => false end.

(** The literal with which [stopFocusTimer] resets the session;
    [plannedDuration] is not part of it. *)
Definition resetPatch : SessionPatch :=
  {| p_isStudying := Some false; p_studyStartTime := Some None;
     p_pauseStartTime := Some None; p_totalPausedTime := Some 0;
     p_pausedDuration := Some (ofZ 0); p_messageId := Some None;
     p_plannedDuration := None |}.

(** [timers.<type>.cancel(); removeTimer(chatId, '<type>')] when the timer
    object has the entry. *)
Definition cancelStored (chatId : Z) (timers : gmap string nat)
    (timerType : string) (w : World) : World :=
  match timers !! timerType with
  | Some job => removeTimer chatId timerType (cancel job w)
  | None => w
  end.

(** The local [studyDuration] of [stopFocusTimer], in minutes.  The code
    compares this quotient with 1 and rounds it to the nearest integer.
    The dividend is an integer of milliseconds; below [2^53] the binary64
    quotient is on the same side of 1 and of every half as the exact
    quotient, so the model keeps the exact one. *)
Definition studyDuration (s : Session) (startTime endTime : Z) : Q :=
  (inject_Z (endTime - startTime - totalPausedTime s) / 60000)%Q.

Definition stopFocusTimer (chatId now : Z) (w : World) : World :=
  let '(w, session) := getUserSession chatId w in
  let timers := default ∅ (timerStore w !! chatId) in
  let w := cancelStored chatId timers "update" w in
  let w := cancelStored chatId timers "end" w in
  let w :=
    match isStudying session, studyStartTime session with
    | true, Some startTime =>
        let studyDuration := studyDuration session startTime now in
        if Qgtb studyDuration 1
        then addCompletedSession chatId (Math_round studyDuration) now w
        else w
    | _, _ => w
    end in
  updateUserSession chatId resetPatch w.

Record TimerInfo := {
  info_messageId : Z;
  info_startTime : Z;
  info_endTime : Z
}.

(** [startFocusTimer].  [sent] is the id of the timer message, or [None]
    when sending it rejects; the function then throws after the session
    update and before any job is scheduled.  A thrown error is the result
    [None]. *)
Definition startFocusTimer (chatId duration now : Z) (sent : option Z)
    (w : World) : World * option TimerInfo :=
  if (chatId =? 0) || (duration =? 0) || (duration <=? 0) then (w, None)
  else
    let w := stopFocusTimer chatId now w in
    let '(w, _) := getUserSession chatId w in
    let startTime := now in
    let endTime := startTime + duration * 60000 in
    let w :=
      updateUserSession chatId
        {| p_isStudying := Some true; p_studyStartTime := Some (Some startTime);
           p_pauseStartTime := Some None; p_totalPausedTime := Some 0;
           p_pausedDuration := Some (ofZ 0); p_messageId := None;
           p_plannedDuration := Some duration |} w in
    match sent with
    | None => (w, None)
    | Some message_id =>
        let w :=
          updateUserSession chatId
            {| p_isStudying := None; p_studyStartTime := None;
               p_pauseStartTime := None; p_totalPausedTime := None;
               p_pausedDuration := None; p_messageId := Some (Some message_id);
               p_plannedDuration := None |} w in
        let '(updateJob, w) := scheduleJob (UpdateTick chatId startTime endTime) w in
        let '(endJob, w) := scheduleJob (TimerEnd endTime chatId duration) w in
        let w := storeTimer chatId "update" updateJob w in
        let w := storeTimer chatId "end" endJob w in
        (w, Some {| info_messageId := message_id; info_startTime := startTime;
                    info_endTime := endTime |})
    end.

Definition pauseFocusTimer (chatId now : Z) (w : World) : World * bool :=
  let '(w, session) := getUserSession chatId w in
  if negb (isStudying session) || isSome (pauseStartTime session) then (w, false)
  else
    (updateUserSession chatId
       {| p_isStudying := None; p_studyStartTime := None;
          p_pauseStartTime := Some (Some now); p_totalPausedTime := None;
          p_pausedDuration := None; p_messageId := None;
          p_plannedDuration := None |} w,
     true).

Definition resumeFocusTimer (chatId now : Z) (w : World) : World * bool :=
  let '(w, session) := getUserSession chatId w in
  match isStudying session, pauseStartTime session with
  | true, Some pauseStart =>
      let pauseDuration := now - pauseStart in
      (updateUserSession chatId
         {| p_isStudying := None; p_studyStartTime := None;
            p_pauseStartTime := Some None;
            p_totalPausedTime := Some (totalPausedTime session + pauseDuration);
            p_pausedDuration :=
              Some (fadd (pausedDuration session)
                      (fdiv (ofZ pauseDuration) (ofZ 60000)));
            p_messageId := None; p_plannedDuration := None |} w,
       true)
  | _, _ => (w, false)
  end.

(** The numbers shown by [generateTimerMessage]: the remaining
    milliseconds and the progress in percent.  [startFocusTimer] refuses a
    duration that is not positive, so [totalDuration] is never 0 and the
    quotient is finite. *)
Definition generateTimerMessage (startTime endTime pausedTime now : Z) : Z * Z :=
  let adjustedNow := now - pausedTime in
  let remainingTime := endTime - adjustedNow in
  let remaining := Z.max 0 remainingTime in
  let totalDuration := endTime - startTime in
  let elapsed := now - startTime - pausedTime in
  let progressPercent :=
    Z.min 100 (Z.max 0
      (Math_floor
         (valueOf (fmul (fdiv (ofZ elapsed) (ofZ totalDuration))
                     (ofZ 100))))) in
  (remaining, progressPercent).

(** The callback of [scheduleTimerUpdates]: the edit of the timer message
    it asks for, if any.  Telegram message ids are positive, so a stored
    id is truthy. *)
Definition timerUpdate (chatId startTime endTime now : Z) (w : World)
    : World * option (Z * (Z * Z)) :=
  let '(w, session) := getUserSession chatId w in
  if isSome (pauseStartTime session) then (w, None)
  else
    match isStudying session, messageId session with
    | true, Some message_id =>
        (w, Some (message_id,
                  generateTimerMessage startTime endTime
                    (totalPausedTime session) now))
    | _, _ => (w, None)
    end.

(** The local [actualDuration] of [handleTimerComplete], in minutes. *)
Definition actualDuration (s : Session) (duration : Z) : number :=
  if fgt (pausedDuration s) (ofZ 0)
  then fsub (ofZ duration) (fdiv (pausedDuration s) (ofZ 60))
  else ofZ duration.

(** [handleTimerComplete].  [delivered] is the clock reading after the
    completion message went out, or [None] when sending it rejects; the
    catch block then skips the break reminder. *)
Definition handleTimerComplete (chatId duration now : Z)
    (delivered : option Z) (w : World) : World :=
  let '(w, session) := getUserSession chatId w in
  if negb (isStudying session) then w
  else
    let actualDuration := actualDuration session duration in
    let w :=
      addCompletedSession chatId (Math_round (valueOf actualDuration)) now w in
    let w := stopFocusTimer chatId now w in
    match delivered with
    | None => w
    | Some later =>
        let breakEndTime := later + 5 * 60000 in
        let '(breakReminder, w) := scheduleJob (BreakReminder breakEndTime chatId) w in
        storeTimer chatId "break" breakReminder w
    end.

(** What the scheduler runs when a job fires: the closures passed to
    [schedule.scheduleJob] by [scheduleTimerUpdates], [startFocusTimer]
    and [handleTimerComplete]. *)
Definition fire (cb : Callback) (now : Z) (delivered : option Z)
    (w : World) : World :=
  match cb with
  | UpdateTick chatId startTime endTime =>
      (timerUpdate chatId startTime endTime now w).1
  | TimerEnd _ chatId duration =>
      handleTimerComplete chatId duration now delivered w
  | BreakReminder _ chatId => removeTimer chatId "break" w
  end.

(** ** The statistics view *)

Record DayStat := {
  day_date : Z;
  day_minutes : Z
}.

(** [getDailyStudyStats]: the last [days] calendar days, oldest first. *)
Fixpoint getDailyStudyStats (dailyData : gmap Z Z) (today : Z) (days : nat)
    : list DayStat :=
  match days with
  | O => []
  | S i =>
      {| day_date := today - Z.of_nat i;
         day_minutes := default 0 (dailyData !! (today - Z.of_nat i)) |}
      :: getDailyStudyStats dailyData today i
  end.

Definition maxDailyTime : Z := 120.
Definition maxStreak : Z := 7.
Definition maxSessions : Z := 30.
Definition maxCompletedTasks : Z := 50.

(** [dailyStats.reduce((sum, day) => sum + day.minutes, 0)]. *)
Definition weeklyTotal (dailyStats : list DayStat) : Z :=
  fold_left (fun sum day => sum + day_minutes day) dailyStats 0.

(** [Math.min(25, Math.round(x))], an integer when [x] is finite.
    [Math.round] returns an infinity or NaN as it is: of plus infinity the
    minimum is 25, and of minus infinity or NaN it is no integer, which is
    the result [None]. *)
Definition capped (x : number) : option Z :=
  match x with
  | S754_nan | S754_infinity true => None
  | S754_infinity false => Some 25
  | _ => Some (Z.min 25 (Math_round (valueOf x)))
  end.

(** One component of the score: [Math.min(25, Math.round((value / cap) * 25))]. *)
Definition component (value : number) (cap : Z) : option Z :=
  capped (fmul (fdiv value (ofZ cap)) (ofZ 25)).

Definition activeScore (dailyStats : list DayStat) : option Z :=
  let weeklyAvg := fdiv (ofZ (weeklyTotal dailyStats)) (ofZ 7) in
  component weeklyAvg maxDailyTime.

Definition streakScore (stats : Stats) : option Z :=
  component (ofZ (streak stats)) maxStreak.

Definition sessionScore (stats : Stats) : option Z :=
  component (ofZ (totalSessions stats)) maxSessions.

Definition taskScore (stats : Stats) : option Z :=
  component (ofZ (totalCompletedTasks stats)) maxCompletedTasks.

(** The sum of the four components.  They are integers of at most 25;
    above [-2^53] the sum of such integers is exact. *)
Definition calculateProductivityScore (stats : Stats)
    (dailyStats : list DayStat) : option Z :=
  activeScore ← activeScore dailyStats;
  streakScore ← streakScore stats;
  sessionScore ← sessionScore stats;
  taskScore ← taskScore stats;
  Some (activeScore + streakScore + sessionScore + taskScore).

(** ** Session states

    The session record has no state field.  The guards of
    [pauseFocusTimer] and [resumeFocusTimer] read the state off two
    fields: not studying is Idle, studying with a pause start is Paused,
    studying without one is Running. *)

Inductive SessionState := Idle | Running | Paused.

Definition stateOf (s : Session) : SessionState :=
  if negb (isStudying s) then Idle
  else if isSome (pauseStartTime s) then Paused
  else Running.

(** ** Events

    What can happen to the world: a command of the user or a job of the
    scheduler calling back. *)

Inductive Event :=
| Start (chatId duration now : Z) (sent : option Z)
| Pause (chatId now : Z)
| Resume (chatId now : Z)
| Stop (chatId now : Z)
| Tick (chatId startTime endTime now : Z)
| Complete (chatId duration now : Z) (delivered : option Z).

Definition step (e : Event) (w : World) : World :=
  match e with
  | Start chatId duration now sent => (startFocusTimer chatId duration now sent w).1
  | Pause chatId now => (pauseFocusTimer chatId now w).1
  | Resume chatId now => (resumeFocusTimer chatId now w).1
  | Stop chatId now => stopFocusTimer chatId now w
  | Tick chatId startTime endTime now => (timerUpdate chatId startTime endTime now w).1
  | Complete chatId duration now delivered =>
      handleTimerComplete chatId duration now delivered w
  end.

(** The events of a list, the oldest first. *)
Definition run (events : list Event) (w : World) : World :=
  fold_left (fun w e => step e w) events w.

(** A world the process can be in: some events after an empty start. *)
Definition reachable (w : World) : Prop :=
  ∃ tz events, w = run events (emptyWorld tz).

(** ** What the operations leave

    Closed forms of the sessions, statistics and worlds that the
    operations above produce; the lemmas of [Effect] relate them to the
    functions. *)

(** The statistics [stopFocusTimer] leaves for a session it finds. *)
Definition stoppedStats (w : World) (s : Session) (st : Stats) (now : Z)
    : Stats :=
  match isStudying s, studyStartTime s with
  | true, Some startTime =>
      if Qgtb (studyDuration s startTime now) 1
      then completedStats w st (Math_round (studyDuration s startTime now)) now
      else st
  | _, _ => st
  end.

(** The session a successful or failed send leaves after a valid start. *)
Definition startedSession (duration now : Z) (sent : option Z) : Session :=
  {| isStudying := true; studyStartTime := Some now; pauseStartTime := None;
     totalPausedTime := 0; pausedDuration := ofZ 0; messageId := sent;
     plannedDuration := duration |}.

(** The two patches of [startFocusTimer]. *)
Definition startPatch (duration now : Z) : SessionPatch :=
  {| p_isStudying := Some true; p_studyStartTime := Some (Some now);
     p_pauseStartTime := Some None; p_totalPausedTime := Some 0;
     p_pausedDuration := Some (ofZ 0); p_messageId := None;
     p_plannedDuration := Some duration |}.

Definition messagePatch (message_id : Z) : SessionPatch :=
  {| p_isStudying := None; p_studyStartTime := None;
     p_pauseStartTime := None; p_totalPausedTime := None;
     p_pausedDuration := None; p_messageId := Some (Some message_id);
     p_plannedDuration := None |}.

(** The world before the jobs are scheduled. *)
Definition startedWorld (c d now : Z) (sent : option Z) (w : World) : World :=
  let w1 :=
    updateUserSession c (startPatch d now)
      (initializeUserData c (stopFocusTimer c now w)) in
  match sent with
  | None => w1
  | Some m => updateUserSession c (messagePatch m) w1
  end.

(** The sessions [pauseFocusTimer] and [resumeFocusTimer] leave when
    they accept. *)
Definition pausedSession (s : Session) (now : Z) : Session :=
  {| isStudying := isStudying s; studyStartTime := studyStartTime s;
     pauseStartTime := Some now; totalPausedTime := totalPausedTime s;
     pausedDuration := pausedDuration s; messageId := messageId s;
     plannedDuration := plannedDuration s |}.

Definition resumedSession (s : Session) (pauseStart now : Z) : Session :=
  {| isStudying := isStudying s; studyStartTime := studyStartTime s;
     pauseStartTime := None;
     totalPausedTime := totalPausedTime s + (now - pauseStart);
     pausedDuration :=
       fadd (pausedDuration s) (fdiv (ofZ (now - pauseStart)) (ofZ 60000));
     messageId := messageId s; plannedDuration := plannedDuration s |}.

(** The world after the handler's own commit and its call of
    [stopFocusTimer]. *)
Definition completedWorld (c d now : Z) (w : World) : World :=
  stopFocusTimer c now
    (addCompletedSession c
       (Math_round (valueOf (actualDuration (sessionOf c w) d))) now
       (initializeUserData c w)).

(** ** The session record as a transition system

    Every write to a session is one of five updates; each event is a finite
    sequence of them on every user's session. *)

Inductive session_step : Session → Session → Prop :=
| step_reset s :
    session_step s (spread s resetPatch)
| step_start s d now :
    session_step s (spread s (startPatch d now))
| step_message s m :
    session_step s (spread s (messagePatch m))
| step_pause s now :
    isStudying s = true → pauseStartTime s = None →
    session_step s (pausedSession s now)
| step_resume s pauseStart now :
    isStudying s = true → pauseStartTime s = Some pauseStart →
    session_step s (resumedSession s pauseStart now).

(** A pause start is recorded only on a session that is studying. *)
Definition pause_inv (s : Session) : Prop :=
  pauseStartTime s ≠ None ↔ stateOf s = Paused.

(** The two pause accumulators over the pauses of a session, the oldest
    first: the milliseconds add up exactly, the minutes in binary64. *)
Definition pausedTime (pauses : list Z) : Z :=
  fold_left (λ totalPausedTime pauseDuration, totalPausedTime + pauseDuration)
    pauses 0.

Definition pausedMinutes (pauses : list Z) : number :=
  fold_left
    (λ pausedDuration pauseDuration,
       fadd pausedDuration (fdiv (ofZ pauseDuration) (ofZ 60000)))
    pauses (ofZ 0).

(** Both accumulators hold the same pauses. *)
Definition accumulator_inv (s : Session) : Prop :=
  ∃ pauses,
    totalPausedTime s = pausedTime pauses
    ∧ pausedDuration s = pausedMinutes pauses.

(** The minute accumulator is the millisecond accumulator over 60000, as
    the specification reads. *)
Definition accumulators_agree (s : Session) : Prop :=
  pausedDuration s = fdiv (ofZ (totalPausedTime s)) (ofZ 60000).

(** A number with the sign [s]; NaN has none. *)
Definition signed (s : bool) (x : number) : Prop :=
  match x with
  | S754_zero s' | S754_infinity s' | S754_finite s' _ _ => s' = s
  | S754_nan => False
  end.

(** A positive number that is not infinite. *)
Definition finite_positive (x : number) : Prop :=
  match x with
  | S754_finite false _ _ => True
  | _ => False
  end.

(** The closure the scheduler still holds for a timer of the timer store. *)
Definition storedJob (chatId : Z) (timerType : string) (w : World)
    : option Callback :=
  match default ∅ (timerStore w !! chatId) !! timerType with
  | Some job => scheduled w !! job
  | None => None
  end.

(** The streak rule in the words of the specification: no previous day
    gives 1, the day after the previous one adds 1, the same day changes
    nothing, anything else gives 1. *)
Definition streakRule (previous : option Z) (today streak : Z) : Z :=
  match previous with
  | None => 1
  | Some previous =>
      if decide (today - previous = 1) then streak + 1
      else if decide (today = previous) then streak
      else 1
  end.

(** ** The task store *)

Definition tasksOf (userId : Z) (w : World) : list Task :=
  tasks (userDataOf userId w).

(** [Math.max(...ids) + 1], or 1 for a user without tasks. *)
Definition nextTaskId (tasks : list Task) : Z :=
  match task_id <$> tasks with
  | [] => 1
  | id :: ids => fold_left Z.max ids id + 1
  end.

Definition addUserTask (userId : Z) (taskText : string) (now : Z)
    (w : World) : World * Task :=
  let w := initializeUserData userId w in
  let userData := userDataOf userId w in
  let taskId := nextTaskId (tasks userData) in
  let newTask :=
    {| task_id := taskId; task_text := taskText; task_completed := false;
       task_createdAt := now |} in
  let userData :=
    {| tasks := tasks userData ++ [newTask]; session := session userData;
       stats := stats userData |} in
  (setUserStore (<[userId := userData]> (userStore w)) w, newTask).

(** [tasks.findIndex(t => t.id === taskId)] with the task it finds. *)
Definition findTask (taskId : Z) (tasks : list Task) : option (nat * Task) :=
  list_find (λ t, task_id t = taskId) tasks.

Definition setCompletedTasks (n : Z) (st : Stats) : Stats :=
  {| totalStudyTime := totalStudyTime st; totalSessions := totalSessions st;
     longestSession := longestSession st; totalCompletedTasks := n;
     streak := streak st; lastStudyDate := lastStudyDate st;
     dailyStudyTime := dailyStudyTime st |}.

(** A task with its completion flag negated. *)
Definition toggled (t : Task) : Task :=
  {| task_id := task_id t; task_text := task_text t;
     task_completed := negb (task_completed t);
     task_createdAt := task_createdAt t |}.

Definition toggleTaskComplete (userId taskId : Z) (w : World)
    : World * option Task :=
  let w := initializeUserData userId w in
  let userData := userDataOf userId w in
  match findTask taskId (tasks userData) with
  | None => (w, None)
  | Some (taskIndex, task) =>
      let task :=
        {| task_id := task_id task; task_text := task_text task;
           task_completed := negb (task_completed task);
           task_createdAt := task_createdAt task |} in
      let st := stats userData in
      let completedTasks :=
        if task_completed task then totalCompletedTasks st + 1
        else Z.max 0 (totalCompletedTasks st - 1) in
      let userData :=
        {| tasks := <[taskIndex := task]> (tasks userData);
           session := session userData;
           stats := setCompletedTasks completedTasks st |} in
      (setUserStore (<[userId := userData]> (userStore w)) w, Some task)
  end.

Definition deleteUserTask (userId taskId : Z) (w : World) : World * bool :=
  let w := initializeUserData userId w in
  let userData := userDataOf userId w in
  match findTask taskId (tasks userData) with
  | None => (w, false)
  | Some (taskIndex, task) =>
      let st := stats userData in
      let st :=
        if task_completed task
        then setCompletedTasks (Z.max 0 (totalCompletedTasks st - 1)) st
        else st in
      let userData :=
        {| tasks := delete taskIndex (tasks userData);
           session := session userData; stats := st |} in
      (setUserStore (<[userId := userData]> (userStore w)) w, true)
  end.

(** The number of completed tasks of a list. *)
Definition completedCount (tasks : list Task) : Z :=
  Z.of_nat (length (filter (λ t, task_completed t = true) tasks)).

(** ** The periodic cleanup *)

(** The inner loop of [cleanupTimers]: every timer of the object is
    cancelled and removed from the store. *)
Definition cancelAll (userId : Z) (entries : list (string * nat))
    (w : World) : World :=
  fold_left
    (λ w entry, removeTimer userId entry.1 (cancel entry.2 w)) entries w.

(** The body of its outer loop, for one entry of the timer store. *)
Definition cleanupEntry (w : World) (entry : Z * gmap string nat) : World :=
  let '(w, session) := getUserSession entry.1 w in
  if negb (isStudying session)
  then cancelAll entry.1 (map_to_list entry.2) w
  else w.

(** The outer loop over the entries in a given order. *)
Definition cleanupOver (entries : list (Z * gmap string nat)) (w : World)
    : World :=
  fold_left cleanupEntry entries w.

(** [cleanupTimers].  A [gmap] does not keep the insertion order in which
    a JavaScript [Map] is iterated; the order of the entries is shown
    not to matter. *)
Definition cleanupTimers (w : World) : World :=
  cleanupOver (map_to_list (timerStore w)) w.

(** The handle stored for a timer of a user. *)
Definition storedTimer (userId : Z) (timerType : string) (w : World)
    : option nat :=
  default ∅ (timerStore w !! userId) !! timerType.

(** ** Everything that can happen

    The timer events, the break reminder calling back, the three task
    operations and the periodic cleanup. *)

Inductive Action :=
| Timer (e : Event)
| BreakOver (chatId : Z)
| AddTask (userId : Z) (taskText : string) (now : Z)
| ToggleTask (userId taskId : Z)
| DeleteTask (userId taskId : Z)
| CleanupTimers.

Definition act (a : Action) (w : World) : World :=
  match a with
  | Timer e => step e w
  | BreakOver chatId => removeTimer chatId "break" w
  | AddTask userId taskText now => (addUserTask userId taskText now w).1
  | ToggleTask userId taskId => (toggleTaskComplete userId taskId w).1
  | DeleteTask userId taskId => (deleteUserTask userId taskId w).1
  | CleanupTimers => cleanupTimers w
  end.

Definition runAll (actions : list Action) (w : World) : World :=
  fold_left (λ w a, act a w) actions w.

(** A world the process can be in, whatever its users and jobs did. *)
Definition reachableAll (w : World) : Prop :=
  ∃ tz actions, w = runAll actions (emptyWorld tz).

(** The statistics after zero or more commits. *)
Definition commits : Stats → Stats → Prop :=
  rtc (λ st st', ∃ w m now, st' = completedStats w st m now).

(** What one action can do to the data of a user. *)
Inductive data_step : UserData → UserData → Prop :=
| data_session ud s :
    data_step ud {| tasks := tasks ud; session := s; stats := stats ud |}
| data_commit ud w minutes now :
    data_step ud
      {| tasks := tasks ud; session := session ud;
         stats := completedStats w (stats ud) minutes now |}
| data_add ud text now :
    data_step ud
      {| tasks :=
           tasks ud ++
           [{| task_id := nextTaskId (tasks ud); task_text := text;
               task_completed := false; task_createdAt := now |}];
         session := session ud; stats := stats ud |}
| data_toggle ud taskId i t :
    findTask taskId (tasks ud) = Some (i, t) →
    data_step ud
      {| tasks :=
           <[i := toggled t]> (tasks ud);
         session := session ud;
         stats :=
           setCompletedTasks
             (if negb (task_completed t)
              then totalCompletedTasks (stats ud) + 1
              else Z.max 0 (totalCompletedTasks (stats ud) - 1))
             (stats ud) |}
| data_delete ud taskId i t :
    findTask taskId (tasks ud) = Some (i, t) →
    data_step ud
      {| tasks := delete i (tasks ud); session := session ud;
         stats :=
           if task_completed t
           then setCompletedTasks
                  (Z.max 0 (totalCompletedTasks (stats ud) - 1)) (stats ud)
           else stats ud |}.

(** The task identifiers of a user are positive and pairwise distinct. *)
Definition ids_inv (ud : UserData) : Prop :=
  NoDup (task_id <$> tasks ud) ∧ Forall (λ t, 1 <= task_id t) (tasks ud).

(** The counter of completed tasks counts the completed tasks. *)
Definition count_inv (ud : UserData) : Prop :=
  totalCompletedTasks (stats ud) = completedCount (tasks ud).

(** The handles of the timer store are below the next handle, no handle is
    stored twice, and every job of the scheduler is below the next
    handle. *)
Definition handles_inv (w : World) : Prop :=
  (∀ u k j, storedTimer u k w = Some j → (j < nextJob w)%nat)
  ∧ (∀ u1 k1 u2 k2 j,
       storedTimer u1 k1 w = Some j → storedTimer u2 k2 w = Some j →
       u1 = u2 ∧ k1 = k2)
  ∧ (∀ j cb, scheduled w !! j = Some cb → (j < nextJob w)%nat).

(** [job.cancel()] on a handle that may be missing. *)
Definition cancelOpt (job : option nat) (jobs : gmap nat Callback)
    : gmap nat Callback :=
  match job with
  | Some j => delete j jobs
  | None => jobs
  end.

(** The minutes of all days of a daily map. *)
Definition dailyTotal (daily : gmap Z Z) : Z :=
  map_fold (λ _ minutes sum, minutes + sum) 0 daily.

(** The statistics are consistent: the daily minutes add up to the total,
    the streak is between 0 and the number of sessions and at least 1 once
    a session was committed, and the last study date is set exactly when a
    session was committed. *)
Definition stats_inv (ud : UserData) : Prop :=
  totalStudyTime (stats ud) = dailyTotal (dailyStudyTime (stats ud))
  ∧ 0 <= streak (stats ud) <= totalSessions (stats ud)
  ∧ (0 < totalSessions (stats ud) → 1 <= streak (stats ud))
  ∧ (lastStudyDate (stats ud) = None ↔ totalSessions (stats ud) = 0).

(** ** Bars and charts

    Of the texts the bot sends the model keeps the numbers and the bars.
    A bar is the list of the block characters it is drawn with. *)

Inductive Block :=
| Full        (* █ *)
| Dark        (* ▓ *)
| Medium      (* ▒ *)
| Light.      (* ░ *)

#[global] Instance Block_eq_dec : EqDecision Block.
Proof. solve_decision. Defined.

(** [String.prototype.repeat] on a string of one character: a negative
    count throws a [RangeError]. *)
Definition String_repeat (c : Block) (count : Z) : option (list Block) :=
  if count <? 0 then None else Some (replicate (Z.to_nat count) c).

(** The JavaScript comparisons [x < y] and [x >= y] on numbers. *)
Definition flt (x y : number) : bool := SFltb x y.
Definition fge (x y : number) : bool := SFleb y x.

(** The literals [0.2], [0.3], ..., [0.8]: the number nearest to so many
    tenths. *)
Definition tenths (n : Z) : number := fdiv (ofZ n) (ofZ 10).

Definition fillChars : list Block := [Full; Full; Full; Full; Dark].

(** The index into [fillChars] for the cell at position [i]. *)
Definition charIndex (i filledLength : Z) : nat :=
  let i := ofZ i in
  let filledLength := ofZ filledLength in
  if flt i (fmul filledLength (tenths 2)) then 0
  else if flt i (fmul filledLength (tenths 4)) then 1
  else if flt i (fmul filledLength (tenths 6)) then 2
  else if flt i (fmul filledLength (tenths 8)) then 3
  else 4.

(** [generateAnimatedProgressBar]; the loop runs over the positions below
    [filledLength], none when that is not positive.  [charIndex] is an
    index of [fillChars], so the default of the lookup is never used. *)
Definition generateAnimatedProgressBar (percent length : Z)
    : option (list Block) :=
  let filledLength :=
    Math_floor (valueOf (fmul (fdiv (ofZ percent) (ofZ 100)) (ofZ length))) in
  let emptyLength := length - filledLength in
  let progressBar :=
    (λ i, default Full (fillChars !! charIndex i filledLength))
      <$> seqZ 0 filledLength in
  empty ← String_repeat Light emptyLength;
  Some (progressBar ++ empty).

Inductive Milestone := Quarter | Halfway | ThreeQuarters | SessionComplete.

Definition getMilestoneMessage (percent : Z) : option Milestone :=
  if percent =? 25 then Some Quarter
  else if percent =? 50 then Some Halfway
  else if percent =? 75 then Some ThreeQuarters
  else if percent =? 100 then Some SessionComplete
  else None.

(** ** The statistics message ([getFormattedStats]) *)

Definition generateProductivityBar (score : Z) : option (list Block) :=
  let totalLength := 20 in
  let filledLength :=
    Math_round
      (valueOf (fmul (fdiv (ofZ score) (ofZ 100)) (ofZ totalLength))) in
  let barChar :=
    if 80 <=? score then Full
    else if 50 <=? score then Dark
    else if 20 <=? score then Medium
    else Light in
  filled ← String_repeat barChar filledLength;
  empty ← String_repeat Light (totalLength - filledLength);
  Some (filled ++ empty).

Inductive Achievement :=
| MasterScholar | DedicatedStudent | StudyStarter
| SessionChampion | ConsistentLearner
| StreakMaster | RegularStudent.

Definition generateAchievements (stats : Stats) : list Achievement :=
  (if 600 <=? totalStudyTime stats then [MasterScholar]
   else if 300 <=? totalStudyTime stats then [DedicatedStudent]
   else if 60 <=? totalStudyTime stats then [StudyStarter]
   else [])
  ++ (if 20 <=? totalSessions stats then [SessionChampion]
      else if 10 <=? totalSessions stats then [ConsistentLearner]
      else [])
  ++ (if 5 <=? streak stats then [StreakMaster]
      else if 3 <=? streak stats then [RegularStudent]
      else []).

Inductive TimeIndicator := TwoHours | OneHour | HalfHour | SomeStudy | NoStudy.

Record ChartLine := {
  line_day : Z;
  line_indicator : TimeIndicator;
  line_bar : list Block;
  line_minutes : Z
}.

(** [Math.max(...dailyStats.map(d => d.minutes), 30)]. *)
Definition maxMinutes (dailyStats : list DayStat) : Z :=
  foldr Z.max 30 (day_minutes <$> dailyStats).

(** One line of [generateStudyChart]. *)
Definition chartLine (maxMinutes : Z) (day : DayStat) : option ChartLine :=
  let percentOfMax := fdiv (ofZ (day_minutes day)) (ofZ maxMinutes) in
  let barLength :=
    if 0 <? day_minutes day
    then Z.max 1 (Math_round (valueOf (fmul percentOfMax (ofZ 15))))
    else 0 in
  let barChar :=
    if fge percentOfMax (tenths 8) then Full
    else if fge percentOfMax (tenths 6) then Dark
    else if fge percentOfMax (tenths 3) then Medium
    else if fgt percentOfMax (ofZ 0) then Light
    else Light in
  let timeIndicator :=
    if 120 <=? day_minutes day then TwoHours
    else if 60 <=? day_minutes day then OneHour
    else if 30 <=? day_minutes day then HalfHour
    else if 0 <? day_minutes day then SomeStudy
    else NoStudy in
  bar ← String_repeat barChar barLength;
  Some {| line_day := day_date day; line_indicator := timeIndicator;
          line_bar := bar; line_minutes := day_minutes day |}.

Definition generateStudyChart (dailyStats : list DayStat)
    : option (list ChartLine) :=
  mapM (chartLine (maxMinutes dailyStats)) dailyStats.

Record StatsMessage := {
  sm_totalHours : Z;
  sm_totalMinutes : Z;
  sm_avgSessionTime : Z;
  sm_weeklyTotal : Z;
  sm_chart : list ChartLine;
  sm_achievements : list Achievement;
  sm_productivityScore : Z;
  sm_productivityBar : list Block;
  sm_streak : option Z
}.

(** [getFormattedStats]; [None] when the score is no integer or drawing a
    bar throws. *)
Definition getFormattedStats (userId now : Z) (w : World)
    : World * option StatsMessage :=
  let '(w, stats) := getUserStats userId w in
  let totalHours :=
    Math_floor (valueOf (fdiv (ofZ (totalStudyTime stats)) (ofZ 60))) in
  let totalMinutes := Z.rem (totalStudyTime stats) 60 in
  let avgSessionTime :=
    if 0 <? totalSessions stats
    then Math_round (valueOf (fdiv (ofZ (totalStudyTime stats))
                                (ofZ (totalSessions stats))))
    else 0 in
  let dailyStats :=
    getDailyStudyStats (dailyStudyTime stats) (formatDay w now) 7 in
  let weeklyTotal := weeklyTotal dailyStats in
  (w,
   chart ← generateStudyChart dailyStats;
   productivityScore ← calculateProductivityScore stats dailyStats;
   productivityBar ← generateProductivityBar productivityScore;
   Some {| sm_totalHours := totalHours; sm_totalMinutes := totalMinutes;
           sm_avgSessionTime := avgSessionTime;
           sm_weeklyTotal := weeklyTotal; sm_chart := chart;
           sm_achievements := generateAchievements stats;
           sm_productivityScore := productivityScore;
           sm_productivityBar := productivityBar;
           sm_streak :=
             if 1 <? streak stats then Some (streak stats) else None |}).

(** The cells of the animated bar at [percent], for a bar of 20: the
    filled cells, of which the last fifth is dark, then light cells. *)
Definition progressCells (percent : Z) : list Block :=
  let filled := percent / 5 in
  let full := (4 * filled + 4) / 5 in
  replicate (Z.to_nat full) Full
  ++ replicate (Z.to_nat (filled - full)) Dark
  ++ replicate (Z.to_nat (20 - filled)) Light.

(** The cells of the productivity bar at [score]. *)
Definition productivityCells (score : Z) : list Block :=
  let filled := (2 * score + 5) / 10 in
  replicate (Z.to_nat filled)
    (if 80 <=? score then Full
     else if 50 <=? score then Dark
     else if 20 <=? score then Medium
     else Light)
  ++ replicate (Z.to_nat (20 - filled)) Light.

(** * What each function leaves alone *)

Module Frame.

Lemma userDataOf_ext u w1 w2 :
  userStore w1 = userStore w2 → userDataOf u w1 = userDataOf u w2.
Proof. unfold userDataOf. by intros ->. Qed.

Lemma userDataOf_initialize u c w :
  userDataOf u (initializeUserData c w) = userDataOf u w.
Proof.
  unfold userDataOf, initializeUserData.
  destruct (userStore w !! c) eqn:E; [done|]. simpl.
  destruct (decide (c = u)) as [->|Hne].
  - by rewrite lookup_insert_eq, E.
  - by rewrite lookup_insert_ne.
Qed.

Lemma lookup_initialize c w :
  userStore (initializeUserData c w) !! c = Some (userDataOf c w).
Proof.
  unfold userDataOf, initializeUserData.
  destruct (userStore w !! c) eqn:E; simpl; [done|].
  by rewrite lookup_insert_eq.
Qed.

Lemma timerStore_initialize c w :
  timerStore (initializeUserData c w) = timerStore w.
Proof. unfold initializeUserData. by destruct (userStore w !! c). Qed.

Lemma scheduled_initialize c w :
  scheduled (initializeUserData c w) = scheduled w.
Proof. unfold initializeUserData. by destruct (userStore w !! c). Qed.

Lemma nextJob_initialize c w :
  nextJob (initializeUserData c w) = nextJob w.
Proof. unfold initializeUserData. by destruct (userStore w !! c). Qed.

Lemma utcOffset_initialize c w :
  utcOffset (initializeUserData c w) = utcOffset w.
Proof. unfold initializeUserData. by destruct (userStore w !! c). Qed.

Lemma initialize_idem c w :
  initializeUserData c (initializeUserData c w) = initializeUserData c w.
Proof.
  unfold initializeUserData at 1. by rewrite lookup_initialize.
Qed.

Lemma userDataOf_update u c p w :
  userDataOf u (updateUserSession c p w) =
  if decide (u = c)
  then {| tasks := tasks (userDataOf u w);
          session := spread (session (userDataOf u w)) p;
          stats := stats (userDataOf u w) |}
  else userDataOf u w.
Proof.
  unfold updateUserSession. unfold userDataOf at 1. simpl.
  case_decide as Hu.
  - subst. by rewrite lookup_insert_eq, userDataOf_initialize.
  - rewrite lookup_insert_ne by done.
    fold (userDataOf u (initializeUserData c w)).
    apply userDataOf_initialize.
Qed.

Lemma sessionOf_update u c p w :
  sessionOf u (updateUserSession c p w) =
  if decide (u = c) then spread (sessionOf u w) p else sessionOf u w.
Proof. unfold sessionOf. rewrite userDataOf_update. by case_decide. Qed.

Lemma statsOf_update u c p w :
  statsOf u (updateUserSession c p w) = statsOf u w.
Proof. unfold statsOf. rewrite userDataOf_update. by case_decide. Qed.

Lemma timerStore_update c p w :
  timerStore (updateUserSession c p w) = timerStore w.
Proof. unfold updateUserSession. simpl. apply timerStore_initialize. Qed.

Lemma scheduled_update c p w :
  scheduled (updateUserSession c p w) = scheduled w.
Proof. unfold updateUserSession. simpl. apply scheduled_initialize. Qed.

Lemma nextJob_update c p w :
  nextJob (updateUserSession c p w) = nextJob w.
Proof. unfold updateUserSession. simpl. apply nextJob_initialize. Qed.

Lemma utcOffset_update c p w :
  utcOffset (updateUserSession c p w) = utcOffset w.
Proof. unfold updateUserSession. simpl. apply utcOffset_initialize. Qed.

Lemma sessionOf_add u c m now w :
  sessionOf u (addCompletedSession c m now w) = sessionOf u w.
Proof.
  unfold sessionOf, addCompletedSession. unfold userDataOf at 1. simpl.
  destruct (decide (c = u)) as [->|Hne].
  - by rewrite lookup_insert_eq, userDataOf_initialize.
  - rewrite lookup_insert_ne by done.
    fold (userDataOf u (initializeUserData c w)).
    by rewrite userDataOf_initialize.
Qed.

Lemma statsOf_add_other u c m now w :
  u ≠ c → statsOf u (addCompletedSession c m now w) = statsOf u w.
Proof.
  intros Hne. unfold statsOf, addCompletedSession. unfold userDataOf at 1.
  simpl. rewrite lookup_insert_ne by done.
  fold (userDataOf u (initializeUserData c w)).
  by rewrite userDataOf_initialize.
Qed.

Lemma timerStore_add c m now w :
  timerStore (addCompletedSession c m now w) = timerStore w.
Proof. unfold addCompletedSession. simpl. apply timerStore_initialize. Qed.

Lemma scheduled_add c m now w :
  scheduled (addCompletedSession c m now w) = scheduled w.
Proof. unfold addCompletedSession. simpl. apply scheduled_initialize. Qed.

Lemma nextJob_add c m now w :
  nextJob (addCompletedSession c m now w) = nextJob w.
Proof. unfold addCompletedSession. simpl. apply nextJob_initialize. Qed.

Lemma utcOffset_add c m now w :
  utcOffset (addCompletedSession c m now w) = utcOffset w.
Proof. unfold addCompletedSession. simpl. apply utcOffset_initialize. Qed.

Lemma completedStats_ext w1 w2 st m now :
  utcOffset w1 = utcOffset w2 →
  completedStats w1 st m now = completedStats w2 st m now.
Proof. intros H. unfold completedStats, formatDay. by rewrite H. Qed.

Lemma statsOf_add c m now w :
  statsOf c (addCompletedSession c m now w) =
  completedStats w (statsOf c w) m now.
Proof.
  unfold statsOf, addCompletedSession. unfold userDataOf at 1. simpl.
  rewrite lookup_insert_eq. simpl. rewrite userDataOf_initialize.
  apply completedStats_ext, utcOffset_initialize.
Qed.

Lemma userStore_storeTimer c k j w :
  userStore (storeTimer c k j w) = userStore w.
Proof. done. Qed.

Lemma userStore_removeTimer c k w :
  userStore (removeTimer c k w) = userStore w.
Proof.
  unfold removeTimer. destruct (timerStore w !! c) as [t|]; [|done].
  by destruct (t !! k).
Qed.

Lemma scheduled_removeTimer c k w :
  scheduled (removeTimer c k w) = scheduled w.
Proof.
  unfold removeTimer. destruct (timerStore w !! c) as [t|]; [|done].
  by destruct (t !! k).
Qed.

Lemma nextJob_removeTimer c k w :
  nextJob (removeTimer c k w) = nextJob w.
Proof.
  unfold removeTimer. destruct (timerStore w !! c) as [t|]; [|done].
  by destruct (t !! k).
Qed.

Lemma utcOffset_removeTimer c k w :
  utcOffset (removeTimer c k w) = utcOffset w.
Proof.
  unfold removeTimer. destruct (timerStore w !! c) as [t|]; [|done].
  by destruct (t !! k).
Qed.

Lemma userStore_cancelStored c t k w :
  userStore (cancelStored c t k w) = userStore w.
Proof.
  unfold cancelStored. destruct (t !! k); [|done].
  by rewrite userStore_removeTimer.
Qed.

Lemma nextJob_cancelStored c t k w :
  nextJob (cancelStored c t k w) = nextJob w.
Proof.
  unfold cancelStored. destruct (t !! k); [|done].
  by rewrite nextJob_removeTimer.
Qed.

Lemma utcOffset_cancelStored c t k w :
  utcOffset (cancelStored c t k w) = utcOffset w.
Proof.
  unfold cancelStored. destruct (t !! k); [|done].
  by rewrite utcOffset_removeTimer.
Qed.

Lemma sessionOf_ext u w1 w2 :
  userStore w1 = userStore w2 → sessionOf u w1 = sessionOf u w2.
Proof. unfold sessionOf. by intros ->%(userDataOf_ext u). Qed.

Lemma statsOf_ext u w1 w2 :
  userStore w1 = userStore w2 → statsOf u w1 = statsOf u w2.
Proof. unfold statsOf. by intros ->%(userDataOf_ext u). Qed.

Lemma sessionOf_initialize u c w :
  sessionOf u (initializeUserData c w) = sessionOf u w.
Proof. unfold sessionOf. by rewrite userDataOf_initialize. Qed.

Lemma statsOf_initialize u c w :
  statsOf u (initializeUserData c w) = statsOf u w.
Proof. unfold statsOf. by rewrite userDataOf_initialize. Qed.

Lemma sessionOf_cancelStored u c t k w :
  sessionOf u (cancelStored c t k w) = sessionOf u w.
Proof. apply sessionOf_ext, userStore_cancelStored. Qed.

Lemma statsOf_cancelStored u c t k w :
  statsOf u (cancelStored c t k w) = statsOf u w.
Proof. apply statsOf_ext, userStore_cancelStored. Qed.

Lemma sessionOf_storeTimer u c k j w :
  sessionOf u (storeTimer c k j w) = sessionOf u w.
Proof. done. Qed.

Lemma statsOf_storeTimer u c k j w :
  statsOf u (storeTimer c k j w) = statsOf u w.
Proof. done. Qed.

Lemma sessionOf_scheduleJob u cb w :
  sessionOf u (scheduleJob cb w).2 = sessionOf u w.
Proof. done. Qed.

Lemma statsOf_scheduleJob u cb w :
  statsOf u (scheduleJob cb w).2 = statsOf u w.
Proof. done. Qed.

Lemma utcOffset_storeTimer c k j w :
  utcOffset (storeTimer c k j w) = utcOffset w.
Proof. done. Qed.

Lemma utcOffset_scheduleJob cb w :
  utcOffset (scheduleJob cb w).2 = utcOffset w.
Proof. done. Qed.

End Frame.

Create Rewrite HintDb frame.

#[export] Hint Rewrite
  Frame.sessionOf_initialize Frame.statsOf_initialize
  Frame.sessionOf_update Frame.statsOf_update
  Frame.sessionOf_add Frame.statsOf_add
  Frame.sessionOf_cancelStored Frame.statsOf_cancelStored
  Frame.sessionOf_storeTimer Frame.statsOf_storeTimer
  Frame.sessionOf_scheduleJob Frame.statsOf_scheduleJob
  Frame.timerStore_initialize Frame.scheduled_initialize
  Frame.nextJob_initialize Frame.utcOffset_initialize
  Frame.timerStore_update Frame.scheduled_update
  Frame.nextJob_update Frame.utcOffset_update
  Frame.timerStore_add Frame.scheduled_add
  Frame.nextJob_add Frame.utcOffset_add
  Frame.utcOffset_cancelStored Frame.nextJob_cancelStored
  Frame.utcOffset_storeTimer Frame.utcOffset_scheduleJob : frame.

(** * The effect of each operation on a user's session and statistics *)

Module Effect.

Lemma sessionOf_stop u c now w :
  sessionOf u (stopFocusTimer c now w) =
  if decide (u = c) then spread (sessionOf u w) resetPatch else sessionOf u w.
Proof.
  unfold stopFocusTimer, getUserSession.
  rewrite Frame.sessionOf_update.
  set (s := sessionOf c (initializeUserData c w)).
  destruct (isStudying s), (studyStartTime s) as [startTime|];
    try by autorewrite with frame.
  destruct (Qgtb (studyDuration s startTime now) 1);
    by autorewrite with frame.
Qed.

Lemma statsOf_stop u c now w :
  statsOf u (stopFocusTimer c now w) =
  if decide (u = c) then stoppedStats w (sessionOf c w) (statsOf c w) now
  else statsOf u w.
Proof.
  unfold stopFocusTimer, getUserSession, stoppedStats.
  rewrite Frame.statsOf_update, Frame.sessionOf_initialize.
  destruct (isStudying (sessionOf c w)), (studyStartTime (sessionOf c w));
    autorewrite with frame; try by case_decide; subst.
  destruct (Qgtb _ _); autorewrite with frame; [|by case_decide; subst].
  case_decide as Hu.
  - subst. autorewrite with frame.
    apply Frame.completedStats_ext. by autorewrite with frame.
  - rewrite Frame.statsOf_add_other by done. by autorewrite with frame.
Qed.

Lemma utcOffset_stop c now w : utcOffset (stopFocusTimer c now w) = utcOffset w.
Proof.
  unfold stopFocusTimer, getUserSession.
  set (s := sessionOf c (initializeUserData c w)).
  destruct (isStudying s), (studyStartTime s) as [startTime|];
    try by autorewrite with frame.
  destruct (Qgtb (studyDuration s startTime now) 1);
    by autorewrite with frame.
Qed.

Lemma start_guard c d :
  c ≠ 0 → 0 < d → (c =? 0) || (d =? 0) || (d <=? 0) = false.
Proof.
  intros Hc Hd. rewrite !orb_false_iff.
  repeat split; [apply Z.eqb_neq | apply Z.eqb_neq | apply Z.leb_gt]; lia.
Qed.

Lemma start_rejected c d now sent w :
  (c =? 0) || (d =? 0) || (d <=? 0) = true →
  startFocusTimer c d now sent w = (w, None).
Proof. intros H. unfold startFocusTimer. by rewrite H. Qed.

Lemma start_world c d now sent w :
  c ≠ 0 → 0 < d →
  (startFocusTimer c d now sent w).1 =
  let w1 := startedWorld c d now sent w in
  match sent with
  | None => w1
  | Some _ =>
      storeTimer c "end" (S (nextJob w1))
        (storeTimer c "update" (nextJob w1)
           (scheduleJob (TimerEnd (now + d * 60000) c d)
              (scheduleJob (UpdateTick c now (now + d * 60000)) w1).2).2)
  end.
Proof.
  intros Hc Hd. unfold startFocusTimer. rewrite start_guard by done.
  by destruct sent.
Qed.

Lemma sessionOf_started u c d now sent w :
  sessionOf u (startedWorld c d now sent w) =
  if decide (u = c) then startedSession d now sent else sessionOf u w.
Proof.
  unfold startedWorld.
  destruct sent as [m|]; cbv zeta; autorewrite with frame;
    rewrite sessionOf_stop; by case_decide.
Qed.

Lemma sessionOf_start u c d now sent w :
  c ≠ 0 → 0 < d →
  sessionOf u (startFocusTimer c d now sent w).1 =
  if decide (u = c) then startedSession d now sent else sessionOf u w.
Proof.
  intros Hc Hd. rewrite start_world by done. cbv zeta.
  rewrite <- sessionOf_started.
  destruct sent; [|done]. by autorewrite with frame.
Qed.

Lemma statsOf_start u c d now sent w :
  c ≠ 0 → 0 < d →
  statsOf u (startFocusTimer c d now sent w).1 =
  statsOf u (stopFocusTimer c now w).
Proof.
  intros Hc Hd. rewrite start_world by done. cbv zeta.
  transitivity (statsOf u (startedWorld c d now sent w)).
  - destruct sent; [|done]. by autorewrite with frame.
  - unfold startedWorld. destruct sent; by autorewrite with frame.
Qed.

Lemma utcOffset_start c d now sent w :
  utcOffset (startFocusTimer c d now sent w).1 = utcOffset w.
Proof.
  unfold startFocusTimer.
  destruct (_ || _); [done|].
  transitivity (utcOffset (startedWorld c d now sent w)).
  - by destruct sent.
  - unfold startedWorld.
    destruct sent; cbv zeta; autorewrite with frame; apply utcOffset_stop.
Qed.

(** [pauseFocusTimer] and [resumeFocusTimer]. *)

Lemma pause_result c now w :
  (pauseFocusTimer c now w).2 =
  isStudying (sessionOf c w) && negb (isSome (pauseStartTime (sessionOf c w))).
Proof.
  unfold pauseFocusTimer, getUserSession. rewrite Frame.sessionOf_initialize.
  by destruct (isStudying (sessionOf c w)), (pauseStartTime (sessionOf c w)).
Qed.

Lemma resume_result c now w :
  (resumeFocusTimer c now w).2 =
  isStudying (sessionOf c w) && isSome (pauseStartTime (sessionOf c w)).
Proof.
  unfold resumeFocusTimer, getUserSession. rewrite Frame.sessionOf_initialize.
  by destruct (isStudying (sessionOf c w)), (pauseStartTime (sessionOf c w)).
Qed.

Lemma sessionOf_pause u c now w :
  sessionOf u (pauseFocusTimer c now w).1 =
  if decide (u = c)
  then if (pauseFocusTimer c now w).2 then pausedSession (sessionOf c w) now
       else sessionOf c w
  else sessionOf u w.
Proof.
  unfold pauseFocusTimer, getUserSession. rewrite Frame.sessionOf_initialize.
  destruct (negb (isStudying (sessionOf c w)) || _); cbn [fst snd]; autorewrite with frame;
    by case_decide; subst.
Qed.

Lemma sessionOf_resume u c now w :
  sessionOf u (resumeFocusTimer c now w).1 =
  if decide (u = c)
  then match isStudying (sessionOf c w), pauseStartTime (sessionOf c w) with
       | true, Some pauseStart => resumedSession (sessionOf c w) pauseStart now
       | _, _ => sessionOf c w
       end
  else sessionOf u w.
Proof.
  unfold resumeFocusTimer, getUserSession. rewrite Frame.sessionOf_initialize.
  destruct (isStudying (sessionOf c w)), (pauseStartTime (sessionOf c w)); cbn [fst snd]; autorewrite with frame;
    by case_decide; subst.
Qed.

Lemma statsOf_pause u c now w :
  statsOf u (pauseFocusTimer c now w).1 = statsOf u w.
Proof.
  unfold pauseFocusTimer, getUserSession. rewrite Frame.sessionOf_initialize.
  destruct (negb (isStudying (sessionOf c w)) || _); cbn [fst snd];
    by autorewrite with frame.
Qed.

Lemma statsOf_resume u c now w :
  statsOf u (resumeFocusTimer c now w).1 = statsOf u w.
Proof.
  unfold resumeFocusTimer, getUserSession. rewrite Frame.sessionOf_initialize.
  destruct (isStudying (sessionOf c w)), (pauseStartTime (sessionOf c w)); cbn [fst snd];
    by autorewrite with frame.
Qed.

(** Neither touches the timer store or the scheduler. *)
Lemma timers_pause c now w :
  timerStore (pauseFocusTimer c now w).1 = timerStore w
  ∧ scheduled (pauseFocusTimer c now w).1 = scheduled w
  ∧ nextJob (pauseFocusTimer c now w).1 = nextJob w.
Proof.
  unfold pauseFocusTimer, getUserSession. rewrite Frame.sessionOf_initialize.
  destruct (negb (isStudying (sessionOf c w)) || _); cbn [fst snd];
    by autorewrite with frame.
Qed.

Lemma timers_resume c now w :
  timerStore (resumeFocusTimer c now w).1 = timerStore w
  ∧ scheduled (resumeFocusTimer c now w).1 = scheduled w
  ∧ nextJob (resumeFocusTimer c now w).1 = nextJob w.
Proof.
  unfold resumeFocusTimer, getUserSession. rewrite Frame.sessionOf_initialize.
  destruct (isStudying (sessionOf c w)), (pauseStartTime (sessionOf c w)); cbn [fst snd];
    by autorewrite with frame.
Qed.

(** The minute update only initialises the user. *)
Lemma tick_world c startTime endTime now w :
  (timerUpdate c startTime endTime now w).1 = initializeUserData c w.
Proof.
  unfold timerUpdate, getUserSession.
  set (s := sessionOf c (initializeUserData c w)).
  destruct (isSome (pauseStartTime s)); [done|].
  by destruct (isStudying s), (messageId s).
Qed.

(** [handleTimerComplete]. *)

Lemma complete_idle c d now delivered w :
  isStudying (sessionOf c w) = false →
  handleTimerComplete c d now delivered w = initializeUserData c w.
Proof.
  intros H. unfold handleTimerComplete, getUserSession.
  by rewrite Frame.sessionOf_initialize, H.
Qed.

Lemma complete_studying c d now delivered w :
  isStudying (sessionOf c w) = true →
  handleTimerComplete c d now delivered w =
  let w1 := completedWorld c d now w in
  match delivered with
  | None => w1
  | Some later =>
      storeTimer c "break" (nextJob w1)
        (scheduleJob (BreakReminder (later + 5 * 60000) c) w1).2
  end.
Proof.
  intros H. unfold handleTimerComplete, getUserSession.
  rewrite Frame.sessionOf_initialize, H. by destruct delivered.
Qed.

Lemma sessionOf_completedWorld u c d now w :
  sessionOf u (completedWorld c d now w) =
  if decide (u = c) then spread (sessionOf c w) resetPatch else sessionOf u w.
Proof.
  unfold completedWorld. rewrite sessionOf_stop. autorewrite with frame.
  by case_decide; subst.
Qed.

Lemma statsOf_completedWorld u c d now w :
  statsOf u (completedWorld c d now w) =
  if decide (u = c)
  then stoppedStats w (sessionOf c w)
         (completedStats w (statsOf c w)
            (Math_round (valueOf (actualDuration (sessionOf c w) d))) now) now
  else statsOf u w.
Proof.
  unfold completedWorld. rewrite statsOf_stop. autorewrite with frame.
  case_decide as Hu.
  - rewrite (Frame.completedStats_ext _ w) by by autorewrite with frame.
    unfold stoppedStats.
    destruct (isStudying (sessionOf c w)), (studyStartTime (sessionOf c w));
      try done.
    destruct (Qgtb _ _); [|done].
    apply Frame.completedStats_ext. by autorewrite with frame.
  - rewrite Frame.statsOf_add_other by done. by autorewrite with frame.
Qed.

Lemma sessionOf_complete u c d now delivered w :
  sessionOf u (handleTimerComplete c d now delivered w) =
  if decide (u = c)
  then if isStudying (sessionOf c w) then spread (sessionOf c w) resetPatch
       else sessionOf c w
  else sessionOf u w.
Proof.
  destruct (isStudying (sessionOf c w)) eqn:Hst.
  - rewrite complete_studying by done. cbv zeta.
    destruct delivered; autorewrite with frame;
      apply sessionOf_completedWorld.
  - rewrite complete_idle by done. autorewrite with frame.
    by case_decide; subst.
Qed.

Lemma statsOf_complete u c d now delivered w :
  statsOf u (handleTimerComplete c d now delivered w) =
  if decide (u = c)
  then if isStudying (sessionOf c w)
       then stoppedStats w (sessionOf c w)
              (completedStats w (statsOf c w)
                 (Math_round (valueOf (actualDuration (sessionOf c w) d))) now) now
       else statsOf c w
  else statsOf u w.
Proof.
  destruct (isStudying (sessionOf c w)) eqn:Hst.
  - rewrite complete_studying by done. cbv zeta.
    destruct delivered; autorewrite with frame;
      apply statsOf_completedWorld.
  - rewrite complete_idle by done. autorewrite with frame.
    by case_decide; subst.
Qed.

End Effect.

(** * Arithmetic of minutes *)

Module Minutes.

Lemma Qgtb_lt x y : Qgtb x y = true ↔ (y < x)%Q.
Proof.
  unfold Qgtb. rewrite negb_true_iff. split.
  - intros H. apply Qnot_le_lt. intros Hle.
    apply Qle_bool_iff in Hle. congruence.
  - intros H. destruct (Qle_bool x y) eqn:E; [|done].
    apply Qle_bool_iff in E. by apply Qlt_not_le in H.
Qed.

Lemma Qgtb_le x y : Qgtb x y = false ↔ (x <= y)%Q.
Proof.
  unfold Qgtb. rewrite negb_false_iff. apply Qle_bool_iff.
Qed.

(** Milliseconds as minutes: the quotient by 60000. *)
Lemma minutes_lt (ms : Z) : (1 < inject_Z ms / 60000)%Q ↔ 60000 < ms.
Proof. unfold Qlt, Qdiv, Qmult, Qinv, inject_Z. simpl. lia. Qed.

Lemma minutes_pos (ms : Z) : (0 < inject_Z ms / 60000)%Q ↔ 0 < ms.
Proof. unfold Qlt, Qdiv, Qmult, Qinv, inject_Z. simpl. lia. Qed.

(** Rounding a number of milliseconds to minutes is an integer division. *)
Lemma round_minutes (ms : Z) :
  Math_round (inject_Z ms / 60000) = (ms + 30000) / 60000.
Proof.
  unfold Math_round.
  assert (inject_Z ms / 60000 + (1 # 2) == (ms + 30000) # 60000)%Q as ->.
  { unfold Qeq, Qdiv, Qmult, Qinv, Qplus, inject_Z. simpl. lia. }
  done.
Qed.

Lemma round_nonneg (x : Q) : (0 <= x)%Q → 0 <= Math_round x.
Proof.
  intros H. unfold Math_round.
  change 0 with (Qfloor 0). apply Qfloor_resp_le.
  apply Qle_trans with x; [done|].
  rewrite <- (Qplus_0_r x) at 1. by apply Qplus_le_r.
Qed.

Lemma studyDuration_gt s startTime now :
  Qgtb (studyDuration s startTime now) 1 = true
  ↔ 60000 < now - startTime - totalPausedTime s.
Proof. unfold studyDuration. rewrite Qgtb_lt. apply minutes_lt. Qed.

Lemma studyDuration_round s startTime now :
  Math_round (studyDuration s startTime now) =
  (now - startTime - totalPausedTime s + 30000) / 60000.
Proof. apply round_minutes. Qed.

End Minutes.

(** * Binary64 numbers that are not negative *)

Module Binary64.

Lemma shr_1_nonneg (mrs : shr_record) :
  0 <= shr_m mrs → 0 <= shr_m (shr_1 mrs).
Proof.
  destruct mrs as [m r s]. cbn [shr_m]. intros H. unfold shr_1.
  destruct m as [|[p|p|]|p]; cbn [shr_m]; lia.
Qed.

Lemma iter_pos_nonneg (p : positive) (mrs : shr_record) :
  0 <= shr_m mrs → 0 <= shr_m (SpecFloat.iter_pos shr_1 p mrs).
Proof.
  revert mrs. induction p as [p IH|p IH|]; intros mrs H; cbn [SpecFloat.iter_pos].
  - by apply IH, IH, shr_1_nonneg.
  - by apply IH, IH.
  - by apply shr_1_nonneg.
Qed.

Lemma shr_fexp_nonneg (m e : Z) (l : location) :
  0 <= m → 0 <= shr_m (shr_fexp prec emax m e l).1.
Proof.
  intros H. unfold shr_fexp, shr.
  assert (0 <= shr_m (shr_record_of_loc m l)) as Hm
    by (by destruct l as [|[]]).
  destruct (fexp prec emax (Zdigits2 m + e) - e) as [|p|p]; cbn [fst]; try done.
  by apply iter_pos_nonneg.
Qed.

Lemma round_nearest_even_nonneg (m : Z) (l : location) :
  0 <= m → 0 <= round_nearest_even m l.
Proof.
  intros H. unfold round_nearest_even.
  destruct l as [|[]]; try done; [destruct (Z.even m)|]; lia.
Qed.

(** Rounding a mantissa that is not negative keeps the sign. *)
Lemma round_signed (s : bool) (m e : Z) (l : location) :
  0 <= m → signed s (binary_round_aux prec emax s m e l).
Proof.
  intros H. unfold binary_round_aux.
  pose proof (shr_fexp_nonneg m e l H) as H1.
  destruct (shr_fexp prec emax m e l) as [mrs' e']. cbn [fst] in H1.
  pose proof (shr_fexp_nonneg _ e' loc_Exact
                (round_nearest_even_nonneg _ (loc_of_shr_record mrs') H1))
    as H2.
  destruct (shr_fexp prec emax _ e' loc_Exact) as [mrs'' e''].
  cbn [fst] in H2.
  destruct (shr_m mrs'') as [|p|p]; [done| |lia].
  by destruct (e'' <=? emax - prec).
Qed.

Lemma ofZ_signed (z : Z) : 0 <= z → signed false (ofZ z).
Proof.
  intros H. unfold ofZ, binary_normalize.
  destruct z as [|p|p]; [done| |lia].
  unfold binary_round. destruct (shl_align _ _ _) as [mz ez].
  by apply round_signed.
Qed.

Lemma fmul_signed (x y : number) :
  signed false x → finite_positive y → signed false (fmul x y).
Proof.
  destruct y as [| | |[] m e]; try done. intros Hx _. revert Hx.
  destruct x as [s|s| |s mx ex]; cbn [signed]; try done; intros ->;
    cbn [fmul SFmul xorb]; try done.
  by apply round_signed.
Qed.

Lemma fdiv_signed (x y : number) :
  signed false x → finite_positive y → signed false (fdiv x y).
Proof.
  destruct y as [| | |[] m e]; try done. intros Hx _. revert Hx.
  destruct x as [s|s| |s mx ex]; cbn [signed]; try done; intros ->;
    cbn [fdiv SFdiv xorb]; try done.
  unfold SFdiv_core_binary.
  set (m' := match _ - _ with Z0 => _ | Zpos _ => _ | Zneg _ => _ end).
  assert (0 <= m') as Hm.
  { unfold m'. destruct (_ - _) as [|p|p]; [lia| |lia].
    apply Z.shiftl_nonneg. lia. }
  pose proof (Z.div_eucl_eq m' (Zpos m) ltac:(lia)) as Heq.
  pose proof (Z.mod_pos_bound m' (Zpos m) ltac:(lia)) as Hr.
  unfold Z.modulo in Hr.
  destruct (Z.div_eucl m' (Zpos m)) as [q r].
  apply round_signed. nia.
Qed.

Lemma valueOf_nonneg (x : number) : signed false x → (0 <= valueOf x)%Q.
Proof.
  destruct x as [s|s| |s m e]; cbn [signed valueOf]; try done.
  intros ->. cbn [cond_Zopp]. apply Qmult_le_0_compat; [done|].
  by apply Qpower_0_le.
Qed.

(** The cap of a number that is not negative. *)
Lemma capped_range (x : number) :
  signed false x → ∃ c, capped x = Some c ∧ 0 <= c <= 25.
Proof.
  intros H. pose proof (Minutes.round_nonneg _ (valueOf_nonneg x H)) as Hr.
  destruct x as [s|s| |s m e]; cbn [signed] in H; try done; subst;
    cbn [capped]; eexists; (split; [done|]); lia.
Qed.

Lemma fadd_zero (x : number) : signed false x → fadd (ofZ 0) x = x.
Proof.
  destruct x as [s|s| |s m e]; cbn [signed]; try done; by intros ->.
Qed.

End Binary64.

Module Trace.

Lemma run_snoc events e w : run (events ++ [e]) w = step e (run events w).
Proof. unfold run. by rewrite fold_left_app. Qed.

Lemma started_steps s d now sent :
  rtc session_step s (startedSession d now sent).
Proof.
  eapply rtc_l; [apply step_reset|].
  eapply rtc_l; [apply (step_start _ d now)|].
  destruct sent as [m|].
  - eapply rtc_l; [apply (step_message _ m)|]. apply rtc_refl.
  - apply rtc_refl.
Qed.

Lemma step_sessions e w u :
  rtc session_step (sessionOf u w) (sessionOf u (step e w)).
Proof.
  destruct e as [c d now sent|c now|c now|c now|c t0 t1 now|c d now dl];
    cbn [step].
  - destruct ((c =? 0) || (d =? 0) || (d <=? 0)) eqn:G.
    + rewrite Effect.start_rejected by done. apply rtc_refl.
    + apply orb_false_iff in G as [G Hd]. apply orb_false_iff in G as [Hc _].
      apply Z.eqb_neq in Hc. apply Z.leb_gt in Hd.
      rewrite Effect.sessionOf_start by done.
      case_decide; [apply started_steps | apply rtc_refl].
  - rewrite Effect.sessionOf_pause, Effect.pause_result.
    case_decide; [subst|apply rtc_refl].
    destruct (isStudying (sessionOf c w)) eqn:Hs,
      (pauseStartTime (sessionOf c w)) eqn:Hp; cbn; try apply rtc_refl.
    by apply rtc_once, step_pause.
  - rewrite Effect.sessionOf_resume.
    case_decide; [subst|apply rtc_refl].
    destruct (isStudying (sessionOf c w)) eqn:Hs,
      (pauseStartTime (sessionOf c w)) eqn:Hp; try apply rtc_refl.
    by apply rtc_once, step_resume.
  - rewrite Effect.sessionOf_stop.
    case_decide; [apply rtc_once, step_reset | apply rtc_refl].
  - rewrite Effect.tick_world, Frame.sessionOf_initialize. apply rtc_refl.
  - rewrite Effect.sessionOf_complete.
    case_decide; [subst|apply rtc_refl].
    destruct (isStudying (sessionOf c w));
      [apply rtc_once, step_reset | apply rtc_refl].
Qed.

Section Invariant.
Variable P : Session → Prop.
Hypothesis P_new : P newSession.
Hypothesis P_step : ∀ s s', session_step s s' → P s → P s'.

Lemma invariant_rtc s s' : rtc session_step s s' → P s → P s'.
Proof. induction 1; eauto. Qed.

Lemma invariant_step e w :
  (∀ u, P (sessionOf u w)) → ∀ u, P (sessionOf u (step e w)).
Proof. intros H u. eapply invariant_rtc; [apply step_sessions | apply H]. Qed.

Lemma invariant_run events w :
  (∀ u, P (sessionOf u w)) → ∀ u, P (sessionOf u (run events w)).
Proof.
  induction events as [|e events IH] using rev_ind; [done|].
  intros H u. rewrite run_snoc. by apply invariant_step, IH.
Qed.

Lemma invariant_reachable w : reachable w → ∀ u, P (sessionOf u w).
Proof.
  intros (tz & events & ->). apply invariant_run. intros u. apply P_new.
Qed.
End Invariant.

Lemma pause_inv_alt s :
  pause_inv s ↔ (isSome (pauseStartTime s) = true → isStudying s = true).
Proof.
  unfold pause_inv, stateOf.
  destruct (isStudying s), (pauseStartTime s); cbn;
    intuition (discriminate || congruence).
Qed.

Lemma pause_inv_step s s' : session_step s s' → pause_inv s → pause_inv s'.
Proof.
  rewrite !pause_inv_alt.
  destruct 1 as [s|s d now|s m|s now Hs Hp|s p now Hs Hp]; cbn; try done.
Qed.

Lemma accumulator_inv_step s s' :
  session_step s s' → accumulator_inv s → accumulator_inv s'.
Proof.
  unfold accumulator_inv.
  destruct 1 as [s|s d now|s m|s now Hs Hp|s p now Hs Hp];
    cbn [spread resetPatch startPatch messagePatch pausedSession
         resumedSession totalPausedTime pausedDuration
         p_totalPausedTime p_pausedDuration from_option];
    try done.
  - intros _. by exists [].
  - intros _. by exists [].
  - intros (pauses & -> & ->). exists (pauses ++ [now - p]).
    unfold pausedTime, pausedMinutes. by rewrite !fold_left_app.
Qed.

End Trace.

(** * Stopping *)

Module Stopping.

Lemma sessionOf_empty u tz : sessionOf u (emptyWorld tz) = newSession.
Proof. unfold sessionOf, userDataOf. cbn. by rewrite lookup_empty. Qed.

Lemma statsOf_empty u tz : statsOf u (emptyWorld tz) = newStats.
Proof. unfold statsOf, userDataOf. cbn. by rewrite lookup_empty. Qed.

Lemma stoppedStats_over w s st now startTime :
  isStudying s = true → studyStartTime s = Some startTime →
  60000 < now - startTime - totalPausedTime s →
  stoppedStats w s st now =
  completedStats w st ((now - startTime - totalPausedTime s + 30000) / 60000) now.
Proof.
  intros Hs Ht Hlt. unfold stoppedStats. rewrite Hs, Ht.
  apply Minutes.studyDuration_gt in Hlt as ->.
  by rewrite Minutes.studyDuration_round.
Qed.

Lemma stoppedStats_under w s st now startTime :
  studyStartTime s = Some startTime →
  now - startTime - totalPausedTime s <= 60000 →
  stoppedStats w s st now = st.
Proof.
  intros Ht Hle. unfold stoppedStats. rewrite Ht.
  destruct (isStudying s); [|done].
  destruct (Qgtb _ _) eqn:E; [|done].
  apply Minutes.studyDuration_gt in E. lia.
Qed.

Lemma stoppedStats_idle w s st now :
  isStudying s = false → stoppedStats w s st now = st.
Proof. intros H. unfold stoppedStats. by rewrite H. Qed.

(** A first start in an empty world commits nothing. *)
Lemma statsOf_first_start tz c d now sent :
  c ≠ 0 → 0 < d →
  statsOf c (startFocusTimer c d now sent (emptyWorld tz)).1 = newStats.
Proof.
  intros Hc Hd. rewrite Effect.statsOf_start, Effect.statsOf_stop by done.
  rewrite decide_True by done.
  rewrite stoppedStats_idle; [apply statsOf_empty|].
  by rewrite sessionOf_empty.
Qed.

Lemma sessionOf_first_start tz c d now sent :
  c ≠ 0 → 0 < d →
  sessionOf c (startFocusTimer c d now sent (emptyWorld tz)).1 =
  startedSession d now sent.
Proof.
  intros Hc Hd. rewrite Effect.sessionOf_start by done.
  by rewrite decide_True.
Qed.

End Stopping.

(** * The deadline and the pause *)

Module Deadline.

Lemma storedJob_ext c k w1 w2 :
  timerStore w1 = timerStore w2 → scheduled w1 = scheduled w2 →
  storedJob c k w1 = storedJob c k w2.
Proof. unfold storedJob. by intros -> ->. Qed.

Lemma stateOf_running s :
  stateOf s = Running ↔ isStudying s = true ∧ pauseStartTime s = None.
Proof.
  unfold stateOf. destruct (isStudying s), (pauseStartTime s); cbn;
    intuition (discriminate || congruence).
Qed.

Lemma stateOf_paused s :
  stateOf s = Paused ↔ isStudying s = true ∧ pauseStartTime s ≠ None.
Proof.
  unfold stateOf. destruct (isStudying s), (pauseStartTime s); cbn;
    intuition (discriminate || congruence).
Qed.

Lemma stateOf_idle s : stateOf s = Idle ↔ isStudying s = false.
Proof.
  unfold stateOf. destruct (isStudying s), (pauseStartTime s); cbn;
    intuition (discriminate || congruence).
Qed.

(** The end job a start stores fires at the planned end. *)
Lemma start_end_job c d now mid w :
  c ≠ 0 → 0 < d →
  storedJob c "end" (startFocusTimer c d now (Some mid) w).1 =
  Some (TimerEnd (now + d * 60000) c d).
Proof.
  intros Hc Hd. rewrite Effect.start_world by done. cbv zeta.
  generalize (startedWorld c d now (Some mid) w). intros w1.
  unfold storedJob, storeTimer, setTimerStore, scheduleJob.
  cbn [timerStore scheduled nextJob fst snd].
  rewrite lookup_insert_eq. cbn [from_option]. unfold id at 1.
  rewrite lookup_insert_eq. by rewrite lookup_insert_eq.
Qed.

Lemma pause_running c now w :
  stateOf (sessionOf c w) = Running →
  (pauseFocusTimer c now w).2 = true
  ∧ sessionOf c (pauseFocusTimer c now w).1 =
    pausedSession (sessionOf c w) now.
Proof.
  intros [Hs Hp]%stateOf_running.
  rewrite Effect.sessionOf_pause, Effect.pause_result, decide_True by done.
  by rewrite Hs, Hp.
Qed.

Lemma resume_paused c now w pauseStart :
  isStudying (sessionOf c w) = true →
  pauseStartTime (sessionOf c w) = Some pauseStart →
  (resumeFocusTimer c now w).2 = true
  ∧ sessionOf c (resumeFocusTimer c now w).1 =
    resumedSession (sessionOf c w) pauseStart now.
Proof.
  intros Hs Hp.
  rewrite Effect.sessionOf_resume, Effect.resume_result, decide_True by done.
  by rewrite Hs, Hp.
Qed.

End Deadline.

(** * The streak *)

Module Streak.

Lemma formatDay_add c m now w t :
  formatDay (addCompletedSession c m now w) t = formatDay w t.
Proof. unfold formatDay. by rewrite Frame.utcOffset_add. Qed.

Lemma streak_add c m now w :
  streak (statsOf c (addCompletedSession c m now w)) =
  streakRule (formatDay w <$> lastStudyDate (statsOf c w)) (formatDay w now)
    (streak (statsOf c w)).
Proof.
  rewrite Frame.statsOf_add. unfold completedStats, streakRule, diffDays.
  cbn [streak]. destruct (lastStudyDate (statsOf c w)) as [last|]; [|done].
  cbn [fmap option_fmap option_map].
  destruct (Z.eqb_spec (formatDay w now - formatDay w last) 1);
    [by rewrite decide_True | rewrite decide_False by done].
  destruct (Z.eqb_spec (formatDay w now) (formatDay w last));
    [by rewrite decide_True | by rewrite decide_False].
Qed.

Lemma last_add c m now w :
  lastStudyDate (statsOf c (addCompletedSession c m now w)) = Some now.
Proof. by rewrite Frame.statsOf_add. Qed.

(** The streak after a commit on the day [gap] days after the last one. *)
Lemma streak_after c m now w last :
  lastStudyDate (statsOf c w) = Some last →
  streak (statsOf c (addCompletedSession c m now w)) =
  streakRule (Some (formatDay w last)) (formatDay w now) (streak (statsOf c w)).
Proof. intros H. by rewrite streak_add, H. Qed.

End Streak.

(** * The productivity score *)

Module Score.

Lemma weeklyTotal_from (dailyStats : list DayStat) (acc : Z) :
  Forall (λ day, 0 <= day_minutes day) dailyStats → 0 <= acc →
  0 <= fold_left (λ sum day, sum + day_minutes day) dailyStats acc.
Proof.
  intros H. revert acc.
  induction H as [|day rest Hday _ IH]; intros acc Hacc; cbn; [done|].
  apply IH. lia.
Qed.

Lemma weeklyTotal_nonneg (dailyStats : list DayStat) :
  Forall (λ day, 0 <= day_minutes day) dailyStats →
  0 <= weeklyTotal dailyStats.
Proof. intros H. by apply weeklyTotal_from. Qed.

(** The list [getFormattedStats] passes on has non-negative minutes when
    the daily map has. *)
Lemma dailyStats_nonneg (dailyData : gmap Z Z) (today : Z) (days : nat) :
  map_Forall (λ _ minutes, 0 <= minutes) dailyData →
  Forall (λ day, 0 <= day_minutes day)
    (getDailyStudyStats dailyData today days).
Proof.
  intros H. induction days as [|i IH]; cbn [getDailyStudyStats]; [done|].
  constructor; [|done]. cbn [day_minutes].
  destruct (dailyData !! (today - Z.of_nat i)) as [m|] eqn:E; cbn; [|done].
  by apply (H _ _ E).
Qed.

(** A component of a value that is not negative, for a cap that binary64
    holds as a positive number. *)
Lemma component_range (value : number) (cap : Z) :
  signed false value → finite_positive (ofZ cap) →
  ∃ c, component value cap = Some c ∧ 0 <= c <= 25.
Proof.
  intros Hv Hc. unfold component.
  apply Binary64.capped_range, Binary64.fmul_signed; [|done].
  by apply Binary64.fdiv_signed.
Qed.

Lemma activeScore_range (dailyStats : list DayStat) :
  Forall (λ day, 0 <= day_minutes day) dailyStats →
  ∃ c, activeScore dailyStats = Some c ∧ 0 <= c <= 25.
Proof.
  intros Hd. unfold activeScore. cbv zeta.
  apply component_range; [|done].
  apply Binary64.fdiv_signed; [|done].
  by apply Binary64.ofZ_signed, weeklyTotal_nonneg.
Qed.

End Score.

(** * Completion *)

Module Completion.

Lemma initialize_present c w :
  is_Some (userStore w !! c) → initializeUserData c w = w.
Proof. intros [ud H]. unfold initializeUserData. by rewrite H. Qed.

Lemma update_present c p w :
  is_Some (userStore (updateUserSession c p w) !! c).
Proof. unfold updateUserSession. cbn. rewrite lookup_insert_eq. eauto. Qed.

Lemma stop_present c now w : is_Some (userStore (stopFocusTimer c now w) !! c).
Proof. unfold stopFocusTimer, getUserSession. apply update_present. Qed.

Lemma complete_present c d now delivered w :
  isStudying (sessionOf c w) = true →
  is_Some (userStore (handleTimerComplete c d now delivered w) !! c).
Proof.
  intros H. rewrite Effect.complete_studying by done. cbv zeta.
  destruct delivered; apply stop_present.
Qed.

Lemma complete_resets c d now delivered w :
  isStudying (sessionOf c w) = true →
  isStudying (sessionOf c (handleTimerComplete c d now delivered w)) = false.
Proof.
  intros H. by rewrite Effect.sessionOf_complete, decide_True, H.
Qed.

(** A second call after a completion finds the world as it is. *)
Lemma complete_again c d now delivered d' now' delivered' w :
  isStudying (sessionOf c w) = true →
  handleTimerComplete c d' now' delivered'
    (handleTimerComplete c d now delivered w) =
  handleTimerComplete c d now delivered w.
Proof.
  intros H. rewrite Effect.complete_idle by by apply complete_resets.
  by apply initialize_present, complete_present.
Qed.

Lemma sessions_completed w st m now :
  totalSessions (completedStats w st m now) = totalSessions st + 1.
Proof. done. Qed.

Lemma time_completed w st m now :
  totalStudyTime (completedStats w st m now) = totalStudyTime st + m.
Proof. done. Qed.

End Completion.

(** * The claims *)

(** C1.  The code at the scenario of the claim: a 60-minute session with
    one pause of ten minutes, completed at the planned end.  The handler
    divides the paused minutes by 60 before it subtracts them, so its own
    commit is 60 minutes and not 50; the [stopFocusTimer] it then calls
    commits the 50 elapsed minutes as a second session. *)
Theorem completion_after_ten_minute_pause :
  let w :=
    run [Start 1 60 0 (Some 7); Pause 1 300000; Resume 1 900000]
      (emptyWorld 0) in
  let committed := Math_round (valueOf (actualDuration (sessionOf 1 w) 60)) in
  let w' := handleTimerComplete 1 60 3600000 (Some 3601000) w in
  stateOf (sessionOf 1 w) = Running
  ∧ plannedDuration (sessionOf 1 w) = 60
  ∧ pausedDuration (sessionOf 1 w) = ofZ 10
  ∧ actualDuration (sessionOf 1 w) 60 = fsub (ofZ 60) (fdiv (ofZ 10) (ofZ 60))
  ∧ (59 < valueOf (actualDuration (sessionOf 1 w) 60) < 60)%Q
  ∧ committed = 60
  ∧ totalStudyTime (statsOf 1 (addCompletedSession 1 committed 3600000 w)) = 60
  ∧ totalSessions (statsOf 1 w') = 2
  ∧ totalStudyTime (statsOf 1 w') = 60 + 50
  ∧ longestSession (statsOf 1 w') = 60.
Proof. vm_compute. repeat split; congruence. Qed.

(** C2.  A completion that finds a session studying for more than a minute
    of elapsed time commits twice: once in the handler and once in the
    [stopFocusTimer] it calls, so [totalSessions] grows by two.  A second
    call of the handler finds the session Idle and changes nothing. *)
Theorem completion_commits_twice c d now delivered w startTime :
  isStudying (sessionOf c w) = true →
  studyStartTime (sessionOf c w) = Some startTime →
  60000 < now - startTime - totalPausedTime (sessionOf c w) →
  let w' := handleTimerComplete c d now delivered w in
  totalSessions (statsOf c w') = totalSessions (statsOf c w) + 2
  ∧ totalStudyTime (statsOf c w') =
    totalStudyTime (statsOf c w)
    + Math_round (valueOf (actualDuration (sessionOf c w) d))
    + (now - startTime - totalPausedTime (sessionOf c w) + 30000) / 60000
  ∧ (∀ d' now' delivered',
       handleTimerComplete c d' now' delivered' w' = w').
Proof.
  intros Hs Ht Hlt w'. subst w'.
  rewrite Effect.statsOf_complete, decide_True, Hs by done.
  rewrite (Stopping.stoppedStats_over _ _ _ _ startTime) by done.
  rewrite !Completion.sessions_completed, !Completion.time_completed.
  repeat split; [lia|]. intros. by apply Completion.complete_again.
Qed.

(** C2 at a first session of 25 minutes completed at its planned end. *)
Lemma completion_commits_twice_witness :
  let w := (startFocusTimer 1 25 0 (Some 7) (emptyWorld 0)).1 in
  let w' := handleTimerComplete 1 25 1500000 None w in
  stateOf (sessionOf 1 w) = Running
  ∧ totalSessions (statsOf 1 w) = 0
  ∧ totalSessions (statsOf 1 w') = 2
  ∧ handleTimerComplete 1 25 1500000 None w' = w'.
Proof.
  split; [vm_compute; reflexivity|]. split; [vm_compute; reflexivity|].
  pose proof (completion_commits_twice 1 25 1500000 None
                (startFocusTimer 1 25 0 (Some 7) (emptyWorld 0)).1 0
                eq_refl eq_refl eq_refl) as (H2 & _ & Hagain).
  split; [rewrite H2; vm_compute; reflexivity | apply Hagain].
Defined.

(** C3.  On a session that is studying and has its start time,
    [stopFocusTimer] commits the rounded minutes
    [(now - studyStartTime - totalPausedTime) / 60000] if and only if that
    quotient exceeds one minute, and leaves the session Idle.  A 25-minute
    session stopped after 30 seconds leaves [totalSessions] at 0; a
    30-minute session stopped after 20 minutes gives [totalSessions = 1]
    and [totalStudyTime = 20]. *)
Theorem stop_commits_iff_over_one_minute :
  (∀ c now w startTime,
     isStudying (sessionOf c w) = true →
     studyStartTime (sessionOf c w) = Some startTime →
     let elapsed :=
       (inject_Z (now - startTime - totalPausedTime (sessionOf c w)) / 60000)%Q in
     let w' := stopFocusTimer c now w in
     ((1 < elapsed)%Q →
        statsOf c w' =
        statsOf c (addCompletedSession c (Math_round elapsed) now w))
     ∧ (¬ (1 < elapsed)%Q → statsOf c w' = statsOf c w)
     ∧ (totalSessions (statsOf c w') = totalSessions (statsOf c w) + 1
        ↔ (1 < elapsed)%Q)
     ∧ stateOf (sessionOf c w') = Idle)
  ∧ (∀ tz t0 mid,
       let w := (startFocusTimer 1 25 t0 (Some mid) (emptyWorld tz)).1 in
       totalSessions (statsOf 1 (stopFocusTimer 1 (t0 + 30 * 1000) w)) = 0)
  ∧ (∀ tz t0 mid,
       let w := (startFocusTimer 1 30 t0 (Some mid) (emptyWorld tz)).1 in
       let w' := stopFocusTimer 1 (t0 + 20 * 60000) w in
       totalSessions (statsOf 1 w') = 1 ∧ totalStudyTime (statsOf 1 w') = 20).
Proof.
  split; [|split].
  - intros c now w startTime Hs Ht elapsed w'. subst elapsed w'.
    rewrite Minutes.minutes_lt.
    rewrite Effect.statsOf_stop, decide_True by done.
    rewrite Effect.sessionOf_stop, decide_True by done.
    destruct (Z_lt_le_dec 60000
      (now - startTime - totalPausedTime (sessionOf c w))) as [Hlt|Hle].
    + rewrite (Stopping.stoppedStats_over _ _ _ _ startTime) by done.
      repeat split; try done.
      intros _. by rewrite Frame.statsOf_add, Minutes.round_minutes.
    + rewrite (Stopping.stoppedStats_under _ _ _ _ startTime) by done.
      repeat split; try done; intros; lia.
  - intros tz t0 mid w. subst w.
    rewrite Effect.statsOf_stop, decide_True by done.
    rewrite Stopping.sessionOf_first_start, Stopping.statsOf_first_start by done.
    rewrite (Stopping.stoppedStats_under _ _ _ _ t0); [done..|]. cbn. lia.
  - intros tz t0 mid w w'. subst w w'.
    rewrite Effect.statsOf_stop, decide_True by done.
    rewrite Stopping.sessionOf_first_start, Stopping.statsOf_first_start by done.
    rewrite (Stopping.stoppedStats_over _ _ _ _ t0); [|done..|cbn; lia].
    cbn [startedSession totalPausedTime completedStats totalSessions
         totalStudyTime newStats].
    replace (t0 + 20 * 60000 - t0 - 0 + 30000) with 1230000 by lia.
    done.
Qed.

(** The hypotheses of C3 at a 30-minute session stopped after 20 minutes. *)
Lemma stop_commits_iff_over_one_minute_witness :
  let w := (startFocusTimer 1 30 0 (Some 7) (emptyWorld 0)).1 in
  isStudying (sessionOf 1 w) = true
  ∧ studyStartTime (sessionOf 1 w) = Some 0
  ∧ stateOf (sessionOf 1 (stopFocusTimer 1 1200000 w)) = Idle.
Proof.
  split; [vm_compute; reflexivity|]. split; [vm_compute; reflexivity|].
  refine (proj2 (proj2 (proj2
    (proj1 stop_commits_iff_over_one_minute 1 1200000 _ 0 _ _))));
    vm_compute; reflexivity.
Defined.

(** C4, as stated, fails.  Two starts in a row, the second 30 seconds
    after the first; the end job of the first start is the closure
    [TimerEnd _ 1 25].  Fired at its time, while the second session is
    Running, it is not dropped: it commits two sessions and resets the
    session of the second start. *)
Lemma superseded_completion_is_not_dropped :
  ¬ (∀ c d1 d2 t1 t2 m1 m2 cb now delivered,
       c ≠ 0 → 0 < d1 → 0 < d2 →
       let w1 := (startFocusTimer c d1 t1 (Some m1) (emptyWorld 0)).1 in
       let w2 := (startFocusTimer c d2 t2 (Some m2) w1).1 in
       storedJob c "end" w1 = Some cb →
       statsOf c (fire cb now delivered w2) = statsOf c w2
       ∧ sessionOf c (fire cb now delivered w2) = sessionOf c w2).
Proof.
  intros H.
  destruct (H 1 25 30 0 30000 7 8 (TimerEnd 1500000 1 25) 1500000 None)
    as [Hstats _]; [done..|].
  apply (f_equal totalSessions) in Hstats. vm_compute in Hstats. discriminate.
Qed.

(** C4, amended.  A start keeps no counter: the session it leaves depends
    on its arguments alone.  The minute update never changes a session or
    the statistics.  The completion handler is a no-op exactly when the
    session is not studying; when it is studying, whichever start
    scheduled the callback, the handler commits and leaves it Idle. *)
Theorem completion_dropped_iff_idle c d now delivered w :
  (∀ d0 sent w0, c ≠ 0 → 0 < d0 →
     sessionOf c (startFocusTimer c d0 now sent w).1 =
     sessionOf c (startFocusTimer c d0 now sent w0).1)
  ∧ (∀ startTime endTime u,
       sessionOf u (timerUpdate c startTime endTime now w).1 = sessionOf u w
       ∧ statsOf u (timerUpdate c startTime endTime now w).1 = statsOf u w)
  ∧ (isStudying (sessionOf c w) = false →
       handleTimerComplete c d now delivered w = initializeUserData c w
       ∧ ∀ u, sessionOf u (handleTimerComplete c d now delivered w)
              = sessionOf u w
              ∧ statsOf u (handleTimerComplete c d now delivered w)
                = statsOf u w)
  ∧ (isStudying (sessionOf c w) = true →
       totalSessions (statsOf c w)
       < totalSessions (statsOf c (handleTimerComplete c d now delivered w))
       ∧ stateOf (sessionOf c (handleTimerComplete c d now delivered w))
         = Idle).
Proof.
  split; [|split; [|split]].
  - intros d0 sent w0 Hc Hd. by rewrite !Effect.sessionOf_start, !decide_True.
  - intros startTime endTime u. rewrite Effect.tick_world.
    by autorewrite with frame.
  - intros Hs. rewrite Effect.complete_idle by done.
    split; [done|]. intros u. by autorewrite with frame.
  - intros Hs. split.
    + rewrite Effect.statsOf_complete, decide_True, Hs by done.
      unfold stoppedStats. rewrite Hs.
      destruct (studyStartTime (sessionOf c w)); [destruct (Qgtb _ _)|];
        rewrite ?Completion.sessions_completed; lia.
    + apply Deadline.stateOf_idle. by apply Completion.complete_resets.
Qed.

(** C4, amended, at a completion that fires after the session was stopped
    and at one that fires while it is Running. *)
Lemma completion_dropped_iff_idle_witness :
  let w := (startFocusTimer 1 25 0 (Some 7) (emptyWorld 0)).1 in
  let stopped := stopFocusTimer 1 30000 w in
  isStudying (sessionOf 1 stopped) = false
  ∧ handleTimerComplete 1 25 1500000 None stopped = stopped
  ∧ isStudying (sessionOf 1 w) = true
  ∧ stateOf (sessionOf 1 (handleTimerComplete 1 25 1500000 None w)) = Idle.
Proof.
  split; [vm_compute; reflexivity|].
  split.
  - rewrite (proj1 (proj1 (proj2 (proj2
      (completion_dropped_iff_idle 1 25 1500000 None
         (stopFocusTimer 1 30000
            (startFocusTimer 1 25 0 (Some 7) (emptyWorld 0)).1))))
      eq_refl)).
    vm_compute. reflexivity.
  - split; [vm_compute; reflexivity|].
    apply (proj2 (proj2 (proj2 (completion_dropped_iff_idle 1 25 1500000 None
      (startFocusTimer 1 25 0 (Some 7) (emptyWorld 0)).1)))).
    vm_compute. reflexivity.
Defined.

(** C5.  In every reachable world a session has a pause start exactly when
    it is Paused, and every event keeps it so. *)
Theorem pause_start_iff_paused :
  (∀ w, reachable w →
     ∀ u, pauseStartTime (sessionOf u w) ≠ None
          ↔ stateOf (sessionOf u w) = Paused)
  ∧ (∀ e w,
       (∀ u, pauseStartTime (sessionOf u w) ≠ None
             ↔ stateOf (sessionOf u w) = Paused) →
       ∀ u, pauseStartTime (sessionOf u (step e w)) ≠ None
            ↔ stateOf (sessionOf u (step e w)) = Paused).
Proof.
  split.
  - intros w Hw.
    apply (Trace.invariant_reachable pause_inv);
      [by apply Trace.pause_inv_alt | apply Trace.pause_inv_step | done].
  - intros e w. apply (Trace.invariant_step pause_inv), Trace.pause_inv_step.
Qed.

(** C5 at a session that was started, paused, resumed and paused again. *)
Lemma pause_start_iff_paused_witness :
  let w :=
    run [Start 1 25 0 (Some 7); Pause 1 60000; Resume 1 90000; Pause 1 120000]
      (emptyWorld 0) in
  reachable w
  ∧ (pauseStartTime (sessionOf 1 w) ≠ None ↔ stateOf (sessionOf 1 w) = Paused)
  ∧ stateOf (sessionOf 1 w) = Paused.
Proof.
  split; [eexists 0, _; reflexivity|].
  split; [|vm_compute; reflexivity].
  apply (proj1 pause_start_iff_paused). eexists 0, _; reflexivity.
Defined.



(** C7.  The streak after [addCompletedSession] is the streak rule applied
    to the day of the previous [lastStudyDate], which is then overwritten.
    Commits on three consecutive days after none give 1, 2 and 3; a commit
    two days after the last one gives 1; a second commit on the day of the
    last one leaves the streak as it is. *)
Theorem streak_follows_the_day_rule :
  (∀ c m now w,
     streak (statsOf c (addCompletedSession c m now w)) =
     streakRule (formatDay w <$> lastStudyDate (statsOf c w))
       (formatDay w now) (streak (statsOf c w))
     ∧ lastStudyDate (statsOf c (addCompletedSession c m now w)) = Some now)
  ∧ (∀ c w m1 m2 m3 m5 t1 t2 t3 t5,
       lastStudyDate (statsOf c w) = None →
       formatDay w t2 = formatDay w t1 + 1 →
       formatDay w t3 = formatDay w t2 + 1 →
       formatDay w t5 = formatDay w t3 + 2 →
       let w1 := addCompletedSession c m1 t1 w in
       let w2 := addCompletedSession c m2 t2 w1 in
       let w3 := addCompletedSession c m3 t3 w2 in
       let w5 := addCompletedSession c m5 t5 w3 in
       streak (statsOf c w1) = 1 ∧ streak (statsOf c w2) = 2
       ∧ streak (statsOf c w3) = 3 ∧ streak (statsOf c w5) = 1)
  ∧ (∀ c m now w last,
       lastStudyDate (statsOf c w) = Some last →
       formatDay w now = formatDay w last →
       streak (statsOf c (addCompletedSession c m now w)) =
       streak (statsOf c w)).
Proof.
  split; [|split].
  - intros. split; [apply Streak.streak_add | apply Streak.last_add].
  - intros c w m1 m2 m3 m5 t1 t2 t3 t5 Hnone H2 H3 H5 w1 w2 w3 w5.
    assert (streak (statsOf c w1) = 1) as S1.
    { subst w1. by rewrite Streak.streak_add, Hnone. }
    assert (streak (statsOf c w2) = 2) as S2.
    { subst w2. rewrite (Streak.streak_after _ _ _ _ t1), S1
        by apply Streak.last_add.
      subst w1. rewrite !Streak.formatDay_add. unfold streakRule.
      rewrite decide_True by lia. done. }
    assert (streak (statsOf c w3) = 3) as S3.
    { subst w3. rewrite (Streak.streak_after _ _ _ _ t2), S2
        by apply Streak.last_add.
      subst w2 w1. rewrite !Streak.formatDay_add. unfold streakRule.
      rewrite decide_True by lia. done. }
    repeat split; try done.
    subst w5. rewrite (Streak.streak_after _ _ _ _ t3) by apply Streak.last_add.
    subst w3 w2 w1. rewrite !Streak.formatDay_add. unfold streakRule.
    rewrite !decide_False by lia. done.
  - intros c m now w last Hlast Hday.
    rewrite (Streak.streak_after _ _ _ _ last) by done. unfold streakRule.
    rewrite decide_False by lia. by rewrite decide_True.
Qed.

(** C7 on the days 1, 2, 3 and 5 of the epoch, at noon, in UTC. *)
Lemma streak_follows_the_day_rule_witness :
  let w3 :=
    addCompletedSession 1 25 216000000
      (addCompletedSession 1 25 129600000
         (addCompletedSession 1 25 43200000 (emptyWorld 0))) in
  streak (statsOf 1 w3) = 3
  ∧ streak (statsOf 1 (addCompletedSession 1 25 388800000 w3)) = 1.
Proof.
  pose proof (proj1 (proj2 streak_follows_the_day_rule) 1 (emptyWorld 0)
                25 25 25 25 43200000 129600000 216000000 388800000
                eq_refl eq_refl eq_refl eq_refl) as (_ & _ & H3 & H5).
  split; [exact H3 | exact H5].
Defined.

(** C8.  On statistics with non-negative counters and non-negative daily
    minutes each of the four components of the productivity score is
    [min(25, round(value / cap * 25))], with the caps 120, 7, 30 and 50 and
    the quotient and the product computed in binary64, and lies between 0
    and 25; the score is their sum and lies between 0 and 100. *)
Theorem productivity_score_range (stats : Stats) (dailyStats : list DayStat) :
  0 <= streak stats → 0 <= totalSessions stats →
  0 <= totalCompletedTasks stats →
  Forall (λ day, 0 <= day_minutes day) dailyStats →
  let sum := fold_left (λ sum day, sum + day_minutes day) dailyStats 0 in
  let share value cap := fmul (fdiv value (ofZ cap)) (ofZ 25) in
  activeScore dailyStats = capped (share (fdiv (ofZ sum) (ofZ 7)) 120)
  ∧ streakScore stats = capped (share (ofZ (streak stats)) 7)
  ∧ sessionScore stats = capped (share (ofZ (totalSessions stats)) 30)
  ∧ taskScore stats = capped (share (ofZ (totalCompletedTasks stats)) 50)
  ∧ (∀ s m e,
       capped (S754_finite s m e)
       = Some (Z.min 25 (Math_round (valueOf (S754_finite s m e)))))
  ∧ ∃ active streaks sessions tasks,
      activeScore dailyStats = Some active ∧ 0 <= active <= 25
      ∧ streakScore stats = Some streaks ∧ 0 <= streaks <= 25
      ∧ sessionScore stats = Some sessions ∧ 0 <= sessions <= 25
      ∧ taskScore stats = Some tasks ∧ 0 <= tasks <= 25
      ∧ calculateProductivityScore stats dailyStats
        = Some (active + streaks + sessions + tasks)
      ∧ 0 <= active + streaks + sessions + tasks <= 100.
Proof.
  intros Hs Hn Ht Hd sum share.
  split; [done|]. split; [done|]. split; [done|]. split; [done|].
  split; [done|].
  destruct (Score.activeScore_range dailyStats Hd) as (a & Ha & Hra).
  destruct (Score.component_range (ofZ (streak stats)) maxStreak)
    as (b & Hb & Hrb); [by apply Binary64.ofZ_signed|done|].
  destruct (Score.component_range (ofZ (totalSessions stats)) maxSessions)
    as (c & Hc & Hrc); [by apply Binary64.ofZ_signed|done|].
  destruct (Score.component_range (ofZ (totalCompletedTasks stats))
              maxCompletedTasks)
    as (d & Hd' & Hrd); [by apply Binary64.ofZ_signed|done|].
  exists a, b, c, d. unfold calculateProductivityScore.
  fold (streakScore stats) in Hb. fold (sessionScore stats) in Hc.
  fold (taskScore stats) in Hd'.
  rewrite Ha, Hb, Hc, Hd'. cbn [mbind option_bind].
  repeat split; try done; lia.
Qed.

(** C8 at a streak of 3, 12 sessions, 29 tasks and the last seven days of
    a daily map with an hour on each of the days 1 to 7.  The product for
    the tasks is just below 14.5 in binary64, so their component is 14. *)
Lemma productivity_score_range_witness :
  let daily : gmap Z Z :=
    list_to_map [(1, 60); (2, 60); (3, 60); (4, 60); (5, 60); (6, 60); (7, 60)] in
  let stats :=
    {| totalStudyTime := 420; totalSessions := 12; longestSession := 60;
       totalCompletedTasks := 29; streak := 3; lastStudyDate := Some 0;
       dailyStudyTime := daily |} in
  let week := getDailyStudyStats daily 7 7 in
  Forall (λ day, 0 <= day_minutes day) week
  ∧ taskScore stats = Some 14
  ∧ calculateProductivityScore stats week = Some 48
  ∧ ∃ active streaks sessions tasks,
      calculateProductivityScore stats week
      = Some (active + streaks + sessions + tasks)
      ∧ 0 <= active + streaks + sessions + tasks <= 100.
Proof.
  assert (Forall (λ day, 0 <= day_minutes day)
            (getDailyStudyStats
               (list_to_map
                  [(1, 60); (2, 60); (3, 60); (4, 60); (5, 60); (6, 60); (7, 60)])
               7 7)) as Hweek
    by (repeat constructor; vm_compute; discriminate).
  split; [exact Hweek|]. split; [vm_compute; reflexivity|].
  split; [vm_compute; reflexivity|].
  destruct (productivity_score_range
              {| totalStudyTime := 420; totalSessions := 12;
                 longestSession := 60; totalCompletedTasks := 29;
                 streak := 3; lastStudyDate := Some 0;
                 dailyStudyTime :=
                   list_to_map
                     [(1, 60); (2, 60); (3, 60); (4, 60); (5, 60); (6, 60);
                      (7, 60)] |}
              _ ltac:(cbn; lia) ltac:(cbn; lia) ltac:(cbn; lia) Hweek)
    as (_ & _ & _ & _ & _ & a & b & c & d & _ & _ & _ & _ & _ & _ & _ & _
        & Hsum & Hrange).
  exists a, b, c, d. split; [exact Hsum | exact Hrange].
Defined.

(** C9.  [pauseFocusTimer] answers [false] exactly when the session is not
    Running and [resumeFocusTimer] answers [false] exactly when it is not
    Paused; a refused call leaves every session, the statistics, the timer
    store and the scheduler as they were. *)
Theorem pause_resume_refusals c now w :
  ((pauseFocusTimer c now w).2 = false ↔ stateOf (sessionOf c w) ≠ Running)
  ∧ ((resumeFocusTimer c now w).2 = false ↔ stateOf (sessionOf c w) ≠ Paused)
  ∧ ((pauseFocusTimer c now w).2 = false →
       (pauseFocusTimer c now w).1 = initializeUserData c w
       ∧ ∀ u, sessionOf u (pauseFocusTimer c now w).1 = sessionOf u w)
  ∧ ((resumeFocusTimer c now w).2 = false →
       (resumeFocusTimer c now w).1 = initializeUserData c w
       ∧ ∀ u, sessionOf u (resumeFocusTimer c now w).1 = sessionOf u w).
Proof.
  rewrite Effect.pause_result, Effect.resume_result.
  unfold pauseFocusTimer, resumeFocusTimer, getUserSession, stateOf.
  rewrite Frame.sessionOf_initialize.
  destruct (isStudying (sessionOf c w)), (pauseStartTime (sessionOf c w));
    cbn; repeat split; try done; intros;
    try apply Frame.sessionOf_initialize.
Qed.

(** C9 at a pause request on a session that was never started. *)
Lemma pause_resume_refusals_witness :
  stateOf (sessionOf 1 (emptyWorld 0)) ≠ Running
  ∧ (pauseFocusTimer 1 60000 (emptyWorld 0)).2 = false
  ∧ sessionOf 1 (pauseFocusTimer 1 60000 (emptyWorld 0)).1
    = sessionOf 1 (emptyWorld 0).
Proof.
  assert (stateOf (sessionOf 1 (emptyWorld 0)) ≠ Running) as Hidle
    by (vm_compute; discriminate).
  pose proof (pause_resume_refusals 1 60000 (emptyWorld 0))
    as (Hpause & _ & Hsame & _).
  split; [exact Hidle|].
  split; [exact (proj2 Hpause Hidle)|].
  exact (proj2 (Hsame (proj2 Hpause Hidle)) 1).
Defined.




(** * Further properties: the data of a user *)

Module Data.

Lemma userDataOf_eta ud :
  ud = {| tasks := tasks ud; session := session ud; stats := stats ud |}.
Proof. by destruct ud. Qed.

Lemma userDataOf_set u c ud w :
  userDataOf u
    (setUserStore (<[c := ud]> (userStore (initializeUserData c w)))
       (initializeUserData c w)) =
  if decide (u = c) then ud else userDataOf u w.
Proof.
  unfold userDataOf at 1. cbn [setUserStore userStore].
  case_decide as Hu.
  - subst. by rewrite lookup_insert_eq.
  - rewrite lookup_insert_ne by done.
    fold (userDataOf u (initializeUserData c w)).
    apply Frame.userDataOf_initialize.
Qed.

Lemma tasksOf_ext u w1 w2 :
  userStore w1 = userStore w2 → tasksOf u w1 = tasksOf u w2.
Proof. unfold tasksOf. by intros ->%(Frame.userDataOf_ext u). Qed.

Lemma tasksOf_initialize u c w :
  tasksOf u (initializeUserData c w) = tasksOf u w.
Proof. unfold tasksOf. by rewrite Frame.userDataOf_initialize. Qed.

Lemma tasksOf_update u c p w :
  tasksOf u (updateUserSession c p w) = tasksOf u w.
Proof. unfold tasksOf. rewrite Frame.userDataOf_update. by case_decide. Qed.

Lemma tasksOf_commit u c m now w :
  tasksOf u (addCompletedSession c m now w) = tasksOf u w.
Proof.
  unfold tasksOf, addCompletedSession. cbv zeta. rewrite userDataOf_set.
  case_decide; subst; cbn [tasks]; by rewrite ?Frame.userDataOf_initialize.
Qed.

Lemma tasksOf_cancelStored u c t k w :
  tasksOf u (cancelStored c t k w) = tasksOf u w.
Proof. apply tasksOf_ext, Frame.userStore_cancelStored. Qed.

Lemma tasksOf_storeTimer u c k j w :
  tasksOf u (storeTimer c k j w) = tasksOf u w.
Proof. done. Qed.

Lemma tasksOf_scheduleJob u cb w :
  tasksOf u (scheduleJob cb w).2 = tasksOf u w.
Proof. done. Qed.

End Data.

#[export] Hint Rewrite
  Data.tasksOf_initialize Data.tasksOf_update Data.tasksOf_commit
  Data.tasksOf_cancelStored Data.tasksOf_storeTimer
  Data.tasksOf_scheduleJob : frame.

Module TimerData.

Lemma tasksOf_stop u c now w : tasksOf u (stopFocusTimer c now w) = tasksOf u w.
Proof.
  unfold stopFocusTimer, getUserSession.
  set (s := sessionOf c (initializeUserData c w)).
  destruct (isStudying s), (studyStartTime s) as [startTime|];
    try by autorewrite with frame.
  destruct (Qgtb (studyDuration s startTime now) 1);
    by autorewrite with frame.
Qed.

Lemma tasksOf_start u c d now sent w :
  tasksOf u (startFocusTimer c d now sent w).1 = tasksOf u w.
Proof.
  destruct ((c =? 0) || (d =? 0) || (d <=? 0)) eqn:G.
  - by rewrite Effect.start_rejected.
  - apply orb_false_iff in G as [G Hd]. apply orb_false_iff in G as [Hc _].
    apply Z.eqb_neq in Hc. apply Z.leb_gt in Hd.
    rewrite Effect.start_world by done. cbv zeta.
    transitivity (tasksOf u (startedWorld c d now sent w)).
    + destruct sent; [|done].
      by rewrite !Data.tasksOf_storeTimer, !Data.tasksOf_scheduleJob.
    + unfold startedWorld.
      destruct sent; cbv zeta; autorewrite with frame; apply tasksOf_stop.
Qed.

Lemma tasksOf_pause u c now w :
  tasksOf u (pauseFocusTimer c now w).1 = tasksOf u w.
Proof.
  unfold pauseFocusTimer, getUserSession.
  destruct (negb _ || _); cbn [fst snd]; by autorewrite with frame.
Qed.

Lemma tasksOf_resume u c now w :
  tasksOf u (resumeFocusTimer c now w).1 = tasksOf u w.
Proof.
  unfold resumeFocusTimer, getUserSession.
  set (s := sessionOf c (initializeUserData c w)).
  destruct (isStudying s), (pauseStartTime s); cbn [fst snd];
    by autorewrite with frame.
Qed.

Lemma tasksOf_complete u c d now delivered w :
  tasksOf u (handleTimerComplete c d now delivered w) = tasksOf u w.
Proof.
  destruct (isStudying (sessionOf c w)) eqn:Hs.
  - rewrite Effect.complete_studying by done. cbv zeta.
    transitivity (tasksOf u (completedWorld c d now w)).
    + destruct delivered; [|done].
      by rewrite Data.tasksOf_storeTimer, Data.tasksOf_scheduleJob.
    + unfold completedWorld. rewrite tasksOf_stop. by autorewrite with frame.
  - rewrite Effect.complete_idle by done. by autorewrite with frame.
Qed.

Lemma tasksOf_step e w u : tasksOf u (step e w) = tasksOf u w.
Proof.
  destruct e; cbn [step].
  - apply tasksOf_start.
  - apply tasksOf_pause.
  - apply tasksOf_resume.
  - apply tasksOf_stop.
  - rewrite Effect.tick_world. by autorewrite with frame.
  - apply tasksOf_complete.
Qed.

Lemma commits_one w st m now : commits st (completedStats w st m now).
Proof. apply rtc_once. eauto. Qed.

Lemma commits_stopped w s st now : commits st (stoppedStats w s st now).
Proof.
  unfold stoppedStats.
  destruct (isStudying s), (studyStartTime s); try apply rtc_refl.
  destruct (Qgtb _ _); [apply commits_one | apply rtc_refl].
Qed.

Lemma statsOf_step e w u : commits (statsOf u w) (statsOf u (step e w)).
Proof.
  destruct e as [c d now sent|c now|c now|c now|c t0 t1 now|c d now dl];
    cbn [step].
  - destruct ((c =? 0) || (d =? 0) || (d <=? 0)) eqn:G.
    + rewrite Effect.start_rejected by done. apply rtc_refl.
    + apply orb_false_iff in G as [G Hd]. apply orb_false_iff in G as [Hc _].
      apply Z.eqb_neq in Hc. apply Z.leb_gt in Hd.
      rewrite Effect.statsOf_start, Effect.statsOf_stop by done.
      case_decide; [subst; apply commits_stopped | apply rtc_refl].
  - rewrite Effect.statsOf_pause. apply rtc_refl.
  - rewrite Effect.statsOf_resume. apply rtc_refl.
  - rewrite Effect.statsOf_stop.
    case_decide; [subst; apply commits_stopped | apply rtc_refl].
  - rewrite Effect.tick_world, Frame.statsOf_initialize. apply rtc_refl.
  - rewrite Effect.statsOf_complete.
    case_decide; [subst|apply rtc_refl].
    destruct (isStudying (sessionOf c w)); [|apply rtc_refl].
    etrans; [apply commits_one | apply commits_stopped].
Qed.

Lemma data_commits ud st' :
  commits (stats ud) st' →
  rtc data_step ud {| tasks := tasks ud; session := session ud; stats := st' |}.
Proof.
  intros H. remember (stats ud) as st eqn:E. revert ud E.
  induction H as [st|st st1 st2 (w & m & now & ->) _ IH]; intros ud ->.
  - rewrite <- Data.userDataOf_eta. apply rtc_refl.
  - eapply rtc_l; [apply (data_commit ud w m now)|].
    by apply (IH {| tasks := tasks ud; session := session ud;
                    stats := completedStats w (stats ud) m now |}).
Qed.

Lemma data_step_timer e w u :
  rtc data_step (userDataOf u w) (userDataOf u (step e w)).
Proof.
  rewrite (Data.userDataOf_eta (userDataOf u (step e w))).
  fold (tasksOf u (step e w)) (sessionOf u (step e w)) (statsOf u (step e w)).
  rewrite tasksOf_step.
  eapply rtc_l; [apply (data_session _ (sessionOf u (step e w)))|].
  apply (data_commits
    {| tasks := tasks (userDataOf u w); session := sessionOf u (step e w);
       stats := stats (userDataOf u w) |}).
  apply statsOf_step.
Qed.

End TimerData.

Module Tasks.

(** ** The three task operations on the data of a user *)

Lemma userDataOf_addTask u c text now w :
  userDataOf u (addUserTask c text now w).1 =
  if decide (u = c)
  then {| tasks :=
            tasksOf c w ++
            [{| task_id := nextTaskId (tasksOf c w); task_text := text;
                task_completed := false; task_createdAt := now |}];
          session := sessionOf c w; stats := statsOf c w |}
  else userDataOf u w.
Proof.
  unfold addUserTask. cbv zeta. cbn [fst]. rewrite Data.userDataOf_set.
  case_decide; [|done].
  unfold tasksOf, sessionOf, statsOf.
  by rewrite Frame.userDataOf_initialize.
Qed.

Lemma tasksOf_addTask c text now w :
  tasksOf c (addUserTask c text now w).1 =
  tasksOf c w ++
  [{| task_id := nextTaskId (tasksOf c w); task_text := text;
      task_completed := false; task_createdAt := now |}].
Proof. unfold tasksOf at 1. by rewrite userDataOf_addTask, decide_True. Qed.

Lemma statsOf_addTask c text now w :
  statsOf c (addUserTask c text now w).1 = statsOf c w.
Proof. unfold statsOf at 1. by rewrite userDataOf_addTask, decide_True. Qed.

Lemma sessionOf_addTask c text now w :
  sessionOf c (addUserTask c text now w).1 = sessionOf c w.
Proof. unfold sessionOf at 1. by rewrite userDataOf_addTask, decide_True. Qed.

Lemma add_result c text now w :
  (addUserTask c text now w).2 =
  {| task_id := nextTaskId (tasksOf c w); task_text := text;
     task_completed := false; task_createdAt := now |}.
Proof.
  unfold addUserTask, tasksOf. cbv zeta. cbn [snd].
  by rewrite Frame.userDataOf_initialize.
Qed.

Lemma toggle_found c taskId w i t :
  findTask taskId (tasksOf c w) = Some (i, t) →
  (toggleTaskComplete c taskId w).2 = Some (toggled t)
  ∧ ∀ u, userDataOf u (toggleTaskComplete c taskId w).1 =
         if decide (u = c)
         then {| tasks := <[i := toggled t]> (tasksOf c w);
                 session := sessionOf c w;
                 stats :=
                   setCompletedTasks
                     (if negb (task_completed t)
                      then totalCompletedTasks (statsOf c w) + 1
                      else Z.max 0 (totalCompletedTasks (statsOf c w) - 1))
                     (statsOf c w) |}
         else userDataOf u w.
Proof.
  intros H. unfold toggleTaskComplete. cbv zeta.
  unfold tasksOf, sessionOf, statsOf in *.
  rewrite Frame.userDataOf_initialize, H. cbn [fst snd].
  split; [done|]. intros u. by rewrite Data.userDataOf_set.
Qed.

Lemma toggle_missing c taskId w :
  findTask taskId (tasksOf c w) = None →
  toggleTaskComplete c taskId w = (initializeUserData c w, None).
Proof.
  intros H. unfold toggleTaskComplete. cbv zeta. unfold tasksOf in H.
  by rewrite Frame.userDataOf_initialize, H.
Qed.

Lemma delete_found c taskId w i t :
  findTask taskId (tasksOf c w) = Some (i, t) →
  (deleteUserTask c taskId w).2 = true
  ∧ ∀ u, userDataOf u (deleteUserTask c taskId w).1 =
         if decide (u = c)
         then {| tasks := delete i (tasksOf c w);
                 session := sessionOf c w;
                 stats :=
                   if task_completed t
                   then setCompletedTasks
                          (Z.max 0 (totalCompletedTasks (statsOf c w) - 1))
                          (statsOf c w)
                   else statsOf c w |}
         else userDataOf u w.
Proof.
  intros H. unfold deleteUserTask. cbv zeta.
  unfold tasksOf, sessionOf, statsOf in *.
  rewrite Frame.userDataOf_initialize, H. cbn [fst snd].
  split; [done|]. intros u. by rewrite Data.userDataOf_set.
Qed.

Lemma delete_missing c taskId w :
  findTask taskId (tasksOf c w) = None →
  deleteUserTask c taskId w = (initializeUserData c w, false).
Proof.
  intros H. unfold deleteUserTask. cbv zeta. unfold tasksOf in H.
  by rewrite Frame.userDataOf_initialize, H.
Qed.

(** ** Identifiers *)

Lemma fold_max_le (ids : list Z) (a : Z) : a <= fold_left Z.max ids a.
Proof.
  revert a. induction ids as [|i ids IH]; intros a; cbn; [lia|].
  specialize (IH (Z.max a i)). lia.
Qed.

Lemma fold_max_ge (ids : list Z) (a i : Z) :
  i ∈ ids → i <= fold_left Z.max ids a.
Proof.
  revert a. induction ids as [|j ids IH]; intros a Hi; cbn.
  - by apply elem_of_nil in Hi.
  - apply elem_of_cons in Hi as [->|Hi]; [|by apply IH].
    pose proof (fold_max_le ids (Z.max a j)). lia.
Qed.

(** The next identifier is above every identifier in use. *)
Lemma nextTaskId_above (ts : list Task) (t : Task) :
  t ∈ ts → task_id t < nextTaskId ts.
Proof.
  intros Ht. unfold nextTaskId.
  assert (task_id t ∈ task_id <$> ts) as Hid by by apply list_elem_of_fmap_2.
  destruct (task_id <$> ts) as [|i ids]; [by apply elem_of_nil in Hid|].
  apply elem_of_cons in Hid as [->|Hid].
  - pose proof (fold_max_le ids i). lia.
  - pose proof (fold_max_ge ids i _ Hid). lia.
Qed.

Lemma nextTaskId_first : nextTaskId [] = 1.
Proof. done. Qed.

Lemma findTask_Some taskId (ts : list Task) i t :
  findTask taskId ts = Some (i, t) →
  ts !! i = Some t ∧ task_id t = taskId.
Proof. intros H. apply list_find_Some in H as (? & ? & _). done. Qed.

Lemma findTask_None taskId (ts : list Task) :
  findTask taskId ts = None ↔ ∀ t, t ∈ ts → task_id t ≠ taskId.
Proof.
  unfold findTask. rewrite list_find_None, Forall_forall. done.
Qed.

Lemma findTask_elem taskId (ts : list Task) t :
  t ∈ ts → task_id t = taskId → is_Some (findTask taskId ts).
Proof.
  intros Ht Hid. destruct (findTask taskId ts) eqn:E; [eauto|].
  by apply (proj1 (findTask_None _ _) E t) in Ht.
Qed.

End Tasks.

Module Cleanup.

(** [removeTimer] in closed form: deleting a missing key changes nothing. *)
Lemma removeTimer_closed c k w :
  removeTimer c k w =
  match timerStore w !! c with
  | Some t => setTimerStore (<[c := delete k t]> (timerStore w)) w
  | None => w
  end.
Proof.
  unfold removeTimer. destruct (timerStore w !! c) as [t|] eqn:E; [|done].
  destruct (t !! k) eqn:Ek; [done|].
  rewrite delete_id by done. rewrite insert_id by done.
  by destruct w.
Qed.

Lemma userStore_cancelAll c entries w :
  userStore (cancelAll c entries w) = userStore w.
Proof.
  unfold cancelAll. revert w.
  induction entries as [|e entries IH]; intros w; cbn [fold_left]; [done|].
  rewrite IH. by rewrite Frame.userStore_removeTimer.
Qed.

Lemma utcOffset_cancelAll c entries w :
  utcOffset (cancelAll c entries w) = utcOffset w.
Proof.
  unfold cancelAll. revert w.
  induction entries as [|e entries IH]; intros w; cbn [fold_left]; [done|].
  rewrite IH. by rewrite Frame.utcOffset_removeTimer.
Qed.

Lemma nextJob_cancelAll c entries w :
  nextJob (cancelAll c entries w) = nextJob w.
Proof.
  unfold cancelAll. revert w.
  induction entries as [|e entries IH]; intros w; cbn [fold_left]; [done|].
  rewrite IH. by rewrite Frame.nextJob_removeTimer.
Qed.

Lemma userDataOf_cleanupEntry u w entry :
  userDataOf u (cleanupEntry w entry) = userDataOf u w.
Proof.
  unfold cleanupEntry, getUserSession. cbv beta iota zeta.
  destruct (negb _).
  - etrans; [apply Frame.userDataOf_ext, userStore_cancelAll|].
    apply Frame.userDataOf_initialize.
  - apply Frame.userDataOf_initialize.
Qed.

Lemma userDataOf_cleanupOver u entries w :
  userDataOf u (cleanupOver entries w) = userDataOf u w.
Proof.
  unfold cleanupOver. revert w.
  induction entries as [|e entries IH]; intros w; cbn [fold_left]; [done|].
  by rewrite IH, userDataOf_cleanupEntry.
Qed.

Lemma userDataOf_cleanup u w : userDataOf u (cleanupTimers w) = userDataOf u w.
Proof. apply userDataOf_cleanupOver. Qed.

End Cleanup.

Module History.

Lemma runAll_snoc actions a w :
  runAll (actions ++ [a]) w = act a (runAll actions w).
Proof. unfold runAll. by rewrite fold_left_app. Qed.

(** Every action is a sequence of data steps on every user. *)
Lemma act_data a w u : rtc data_step (userDataOf u w) (userDataOf u (act a w)).
Proof.
  destruct a as [e|c|c text now|c taskId|c taskId|]; cbn [act].
  - apply TimerData.data_step_timer.
  - erewrite Frame.userDataOf_ext; [apply rtc_refl|].
    by rewrite Frame.userStore_removeTimer.
  - rewrite Tasks.userDataOf_addTask. case_decide; [subst|apply rtc_refl].
    apply rtc_once. apply (data_add (userDataOf c w)).
  - destruct (findTask taskId (tasksOf c w)) as [[i t]|] eqn:E.
    + rewrite (proj2 (Tasks.toggle_found _ _ _ _ _ E)).
      case_decide; [subst|apply rtc_refl].
      apply rtc_once. by apply (data_toggle (userDataOf c w) taskId).
    + rewrite Tasks.toggle_missing by done. cbn [fst].
      rewrite Frame.userDataOf_initialize. apply rtc_refl.
  - destruct (findTask taskId (tasksOf c w)) as [[i t]|] eqn:E.
    + rewrite (proj2 (Tasks.delete_found _ _ _ _ _ E)).
      case_decide; [subst|apply rtc_refl].
      apply rtc_once. by apply (data_delete (userDataOf c w) taskId).
    + rewrite Tasks.delete_missing by done. cbn [fst].
      rewrite Frame.userDataOf_initialize. apply rtc_refl.
  - rewrite Cleanup.userDataOf_cleanup. apply rtc_refl.
Qed.

Section DataInvariant.
Variable P : UserData → Prop.
Hypothesis P_new : P newUserData.
Hypothesis P_step : ∀ ud ud', data_step ud ud' → P ud → P ud'.

Lemma data_invariant_rtc ud ud' : rtc data_step ud ud' → P ud → P ud'.
Proof. induction 1; eauto. Qed.

Lemma data_invariant_act a w :
  (∀ u, P (userDataOf u w)) → ∀ u, P (userDataOf u (act a w)).
Proof. intros H u. eapply data_invariant_rtc; [apply act_data | apply H]. Qed.

Lemma data_invariant_reachable w :
  reachableAll w → ∀ u, P (userDataOf u w).
Proof.
  intros (tz & actions & ->).
  induction actions as [|a actions IH] using rev_ind.
  - intros u. unfold userDataOf. cbn. by rewrite lookup_empty.
  - rewrite runAll_snoc. by apply data_invariant_act.
Qed.
End DataInvariant.

(** A timer history is a history. *)
Lemma reachable_all w : reachable w → reachableAll w.
Proof.
  intros (tz & events & ->). exists tz, (Timer <$> events).
  unfold run, runAll. generalize (emptyWorld tz).
  induction events as [|e events IH]; intros w; cbn; [done|]. apply IH.
Qed.

End History.

Module TaskInvariants.

Lemma count_cons t (l : list Task) :
  completedCount (t :: l) =
  (if task_completed t then 1 else 0) + completedCount l.
Proof.
  unfold completedCount. rewrite filter_cons.
  destruct (task_completed t); cbn [decide_rel]; case_decide; try done;
    cbn [length]; lia.
Qed.

Lemma count_nonneg (l : list Task) : 0 <= completedCount l.
Proof. unfold completedCount. lia. Qed.

Lemma count_le_length (l : list Task) : completedCount l <= Z.of_nat (length l).
Proof. unfold completedCount. pose proof (length_filter (λ t, task_completed t = true) l). lia. Qed.

Lemma count_snoc (l : list Task) t :
  completedCount (l ++ [t]) =
  completedCount l + (if task_completed t then 1 else 0).
Proof.
  induction l as [|x l IH]; [rewrite app_nil_l, count_cons; cbn; lia|].
  rewrite <- app_comm_cons, !count_cons, IH. lia.
Qed.

Lemma count_insert (l : list Task) i t t' :
  l !! i = Some t →
  completedCount (<[i := t']> l) =
  completedCount l - (if task_completed t then 1 else 0)
  + (if task_completed t' then 1 else 0).
Proof.
  revert i. induction l as [|x l IH]; intros [|i] H; try done.
  - injection H as ->. simpl. rewrite !count_cons. lia.
  - simpl. rewrite !count_cons. rewrite (IH i) by done. lia.
Qed.

Lemma count_delete (l : list Task) i t :
  l !! i = Some t →
  completedCount (delete i l) =
  completedCount l - (if task_completed t then 1 else 0).
Proof.
  revert i. induction l as [|x l IH]; intros [|i] H; try done.
  - injection H as ->. simpl. rewrite count_cons. lia.
  - simpl. rewrite !count_cons. rewrite (IH i) by done. lia.
Qed.

Lemma count_member (l : list Task) t :
  t ∈ l → task_completed t = true → 1 <= completedCount l.
Proof.
  intros Ht Hc. induction l as [|x l IH]; [by apply elem_of_nil in Ht|].
  rewrite count_cons. apply elem_of_cons in Ht as [<-|Ht].
  - rewrite Hc. pose proof (count_nonneg l). lia.
  - specialize (IH Ht). destruct (task_completed x); lia.
Qed.

Lemma setCompletedTasks_same st :
  setCompletedTasks (totalCompletedTasks st) st = st.
Proof. by destruct st. Qed.

Lemma setCompletedTasks_twice n m st :
  setCompletedTasks n (setCompletedTasks m st) = setCompletedTasks n st.
Proof. done. Qed.

Lemma toggled_twice t : toggled (toggled t) = t.
Proof. destruct t as [i x c d]. unfold toggled. cbn. by rewrite negb_involutive. Qed.

Lemma count_inv_step ud ud' : data_step ud ud' → count_inv ud → count_inv ud'.
Proof.
  unfold count_inv.
  destruct 1 as [ud s|ud w m now|ud text now|ud taskId i t Hf|ud taskId i t Hf];
    cbn [tasks stats]; intros Hc.
  - done.
  - done.
  - rewrite count_snoc. cbn. lia.
  - apply Tasks.findTask_Some in Hf as [Hi _].
    rewrite (count_insert _ _ t) by done.
    pose proof (count_member _ _ (list_elem_of_lookup_2 _ _ _ Hi)).
    cbn [setCompletedTasks totalCompletedTasks toggled task_completed].
    destruct (task_completed t); cbn [negb]; lia.
  - apply Tasks.findTask_Some in Hf as [Hi _].
    rewrite (count_delete _ _ t) by done.
    pose proof (count_member _ _ (list_elem_of_lookup_2 _ _ _ Hi)).
    destruct (task_completed t);
      cbn [setCompletedTasks totalCompletedTasks]; lia.
Qed.

Lemma nextTaskId_positive (ts : list Task) :
  Forall (λ t, 1 <= task_id t) ts → 1 <= nextTaskId ts.
Proof.
  intros H. destruct ts as [|t ts]; [done|].
  pose proof (Tasks.nextTaskId_above (t :: ts) t (list_elem_of_here _ _)).
  apply Forall_cons_1 in H as [H _]. lia.
Qed.

Lemma ids_inv_step ud ud' : data_step ud ud' → ids_inv ud → ids_inv ud'.
Proof.
  unfold ids_inv.
  destruct 1 as [ud s|ud w m now|ud text now|ud taskId i t Hf|ud taskId i t Hf];
    cbn [tasks stats]; intros [Hnd Hpos]; try done.
  - split.
    + rewrite fmap_app. apply NoDup_app. split; [done|]. split; [|apply NoDup_singleton].
      intros x Hx Hin. apply list_elem_of_singleton in Hin. cbn in Hin. subst x.
      apply list_elem_of_fmap in Hx as (t & Heq & Ht).
      pose proof (Tasks.nextTaskId_above _ _ Ht). lia.
    + apply Forall_app. split; [done|]. apply Forall_singleton. cbn.
      by apply nextTaskId_positive.
  - apply Tasks.findTask_Some in Hf as [Hi _]. split.
    + rewrite list_fmap_insert. cbn [toggled task_id].
      rewrite list_insert_id; [done|]. by rewrite list_lookup_fmap, Hi.
    + apply Forall_insert; [done|]. cbn.
      by apply (Forall_lookup_1 _ _ _ _ Hpos Hi).
  - split.
    + rewrite list_fmap_delete. eapply sublist_NoDup; [done|apply sublist_delete].
    + by apply Forall_delete.
Qed.

Lemma findTask_toggled taskId (l : list Task) i t :
  findTask taskId l = Some (i, t) →
  findTask taskId (<[i := toggled t]> l) = Some (i, toggled t).
Proof.
  unfold findTask. intros H. apply list_find_Some in H as (Hi & Hid & Hlt).
  apply list_find_Some. split; [|split; [done|]].
  - apply list_lookup_insert_eq. by apply lookup_lt_Some in Hi.
  - intros j y Hj Hji. rewrite list_lookup_insert_ne in Hj by lia. eauto.
Qed.

Lemma filter_others taskId (l : list Task) :
  taskId ∉ task_id <$> l → filter (λ t', task_id t' ≠ taskId) l = l.
Proof.
  induction l as [|x l IH]; intros H; [done|].
  rewrite fmap_cons in H. apply not_elem_of_cons in H as [Hx Hl].
  rewrite filter_cons, decide_True by done. by rewrite IH.
Qed.

(** With distinct identifiers, removing the task found is removing every
    task with that identifier. *)
Lemma delete_filter taskId (l : list Task) i t :
  NoDup (task_id <$> l) → findTask taskId l = Some (i, t) →
  delete i l = filter (λ t', task_id t' ≠ taskId) l.
Proof.
  unfold findTask. revert i. induction l as [|x l IH]; intros i Hnd H; [done|].
  rewrite fmap_cons in Hnd. apply NoDup_cons in Hnd as [Hx Hnd].
  rewrite filter_cons. cbn [list_find] in H. case_decide as Hid.
  - injection H as <- <-. simpl.
    rewrite decide_False by (intros Hne; by apply Hne).
    subst taskId. by rewrite filter_others.
  - rewrite decide_True by done.
    destruct (list_find (λ t0, task_id t0 = taskId) l) as [[i' t']|] eqn:E;
      [|done].
    injection H as <- <-. simpl. by rewrite (IH i').
Qed.

Lemma ids_inv_reachable w u : reachableAll w → ids_inv (userDataOf u w).
Proof.
  intros Hw. apply (History.data_invariant_reachable ids_inv);
    [|apply ids_inv_step|done].
  split; [apply NoDup_nil_2 | apply Forall_nil_2].
Qed.

Lemma count_inv_reachable w u :
  reachableAll w → count_inv (userDataOf u w).
Proof.
  intros Hw. apply (History.data_invariant_reachable count_inv);
    [done | apply count_inv_step | done].
Qed.

End TaskInvariants.

(** * Further properties *)



(** X2.  In every world the process can reach, the identifiers of a user's
    tasks are positive and pairwise distinct, also after deletions. *)
Theorem task_ids_are_distinct w u :
  reachableAll w →
  NoDup (task_id <$> tasksOf u w) ∧ ∀ t, t ∈ tasksOf u w → 1 <= task_id t.
Proof.
  intros Hw.
  destruct (TaskInvariants.ids_inv_reachable w u Hw) as [Hnd Hpos].
  split; [done|]. by apply Forall_forall.
Qed.

(** X2 after two additions, a deletion and a third addition. *)
Lemma task_ids_are_distinct_witness :
  let w :=
    runAll [AddTask 1 "read" 0; AddTask 1 "write" 1; DeleteTask 1 1;
            AddTask 1 "revise" 2] (emptyWorld 0) in
  reachableAll w
  ∧ task_id <$> tasksOf 1 w = [2; 3]
  ∧ NoDup (task_id <$> tasksOf 1 w).
Proof.
  split; [eexists 0, _; reflexivity|]. split; [vm_compute; reflexivity|].
  apply task_ids_are_distinct. eexists 0, _; reflexivity.
Defined.

(** X3.  In every world the process can reach, [totalCompletedTasks] is
    the number of the user's tasks that are completed: it is never
    negative and never above the number of tasks, whatever was toggled or
    deleted. *)
Theorem completed_counter_counts w u :
  reachableAll w →
  totalCompletedTasks (statsOf u w) = completedCount (tasksOf u w)
  ∧ 0 <= totalCompletedTasks (statsOf u w) <= Z.of_nat (length (tasksOf u w)).
Proof.
  intros Hw.
  pose proof (TaskInvariants.count_inv_reachable w u Hw) as H.
  unfold count_inv in H. unfold statsOf, tasksOf. rewrite H.
  pose proof (TaskInvariants.count_nonneg (tasks (userDataOf u w))).
  pose proof (TaskInvariants.count_le_length (tasks (userDataOf u w))).
  lia.
Qed.

(** X3 after completing two tasks and deleting one of them. *)
Lemma completed_counter_counts_witness :
  let w :=
    runAll [AddTask 1 "read" 0; AddTask 1 "write" 1; ToggleTask 1 1;
            ToggleTask 1 2; DeleteTask 1 1] (emptyWorld 0) in
  reachableAll w
  ∧ totalCompletedTasks (statsOf 1 w) = 1
  ∧ totalCompletedTasks (statsOf 1 w) = completedCount (tasksOf 1 w).
Proof.
  split; [eexists 0, _; reflexivity|]. split; [vm_compute; reflexivity|].
  apply completed_counter_counts. eexists 0, _; reflexivity.
Defined.

(** X4.  In every reachable world, toggling a task twice gives back the
    tasks, the statistics and the session of every user. *)
Theorem toggle_twice_restores w c taskId :
  reachableAll w →
  let w' :=
    (toggleTaskComplete c taskId (toggleTaskComplete c taskId w).1).1 in
  ∀ u, userDataOf u w' = userDataOf u w.
Proof.
  intros Hw w' u. subst w'.
  destruct (findTask taskId (tasksOf c w)) as [[i t]|] eqn:E.
  - destruct (Tasks.toggle_found _ _ _ _ _ E) as [_ H1].
    set (w1 := (toggleTaskComplete c taskId w).1) in *.
    assert (tasksOf c w1 = <[i := toggled t]> (tasksOf c w)) as Hl1
      by (unfold tasksOf at 1; by rewrite H1, decide_True).
    assert (sessionOf c w1 = sessionOf c w) as He1
      by (unfold sessionOf at 1; by rewrite H1, decide_True).
    assert (statsOf c w1 =
            setCompletedTasks
              (if negb (task_completed t)
               then totalCompletedTasks (statsOf c w) + 1
               else Z.max 0 (totalCompletedTasks (statsOf c w) - 1))
              (statsOf c w)) as Hs1
      by (unfold statsOf at 1; by rewrite H1, decide_True).
    assert (findTask taskId (tasksOf c w1) = Some (i, toggled t)) as E2
      by (rewrite Hl1; by apply TaskInvariants.findTask_toggled).
    destruct (Tasks.toggle_found _ _ _ _ _ E2) as [_ H2].
    rewrite H2. case_decide as Hu; [subst u|by rewrite H1, decide_False].
    rewrite Hl1, He1, Hs1.
    rewrite list_insert_insert_eq, TaskInvariants.toggled_twice.
    apply Tasks.findTask_Some in E as [Hi _].
    rewrite list_insert_id by done.
    rewrite TaskInvariants.setCompletedTasks_twice.
    pose proof (TaskInvariants.count_inv_reachable w c Hw) as Hcount.
    unfold count_inv in Hcount.
    fold (tasksOf c w) (statsOf c w) in Hcount.
    pose proof (TaskInvariants.count_nonneg (tasksOf c w)).
    pose proof (TaskInvariants.count_member _ _
                  (list_elem_of_lookup_2 _ _ _ Hi)) as Hmem.
    cbn [toggled task_completed setCompletedTasks totalCompletedTasks].
    rewrite negb_involutive.
    symmetry. etrans; [apply Data.userDataOf_eta|]. symmetry.
    fold (tasksOf c w) (sessionOf c w) (statsOf c w). f_equal.
    etrans; [|apply TaskInvariants.setCompletedTasks_same]. f_equal.
    destruct (task_completed t); cbn [negb]; lia.
  - rewrite (Tasks.toggle_missing c taskId w) by done. cbn [fst].
    rewrite Tasks.toggle_missing
      by (unfold tasksOf; by rewrite Frame.userDataOf_initialize).
    cbn [fst]. by rewrite !Frame.userDataOf_initialize.
Qed.

(** X4 at a completed task between two others. *)
Lemma toggle_twice_restores_witness :
  let w :=
    runAll [AddTask 1 "read" 0; AddTask 1 "write" 1; AddTask 1 "revise" 2;
            ToggleTask 1 2] (emptyWorld 0) in
  reachableAll w
  ∧ task_completed <$> tasksOf 1 (toggleTaskComplete 1 2 w).1
    = [false; false; false]
  ∧ userDataOf 1 (toggleTaskComplete 1 2 (toggleTaskComplete 1 2 w).1).1
    = userDataOf 1 w.
Proof.
  split; [eexists 0, _; reflexivity|]. split; [vm_compute; reflexivity|].
  apply toggle_twice_restores. eexists 0, _; reflexivity.
Defined.

(** X5.  [toggleTaskComplete] answers [null] and [deleteUserTask] answers
    [false] exactly when the user has no task with the identifier; they
    then only initialise the user, so every user's tasks, statistics and
    session are as before. *)
Theorem unknown_task_changes_nothing c taskId w :
  ((toggleTaskComplete c taskId w).2 = None
   ↔ ∀ t, t ∈ tasksOf c w → task_id t ≠ taskId)
  ∧ ((deleteUserTask c taskId w).2 = false
     ↔ ∀ t, t ∈ tasksOf c w → task_id t ≠ taskId)
  ∧ ((∀ t, t ∈ tasksOf c w → task_id t ≠ taskId) →
     (toggleTaskComplete c taskId w).1 = initializeUserData c w
     ∧ (deleteUserTask c taskId w).1 = initializeUserData c w
     ∧ ∀ u, userDataOf u (toggleTaskComplete c taskId w).1 = userDataOf u w
            ∧ userDataOf u (deleteUserTask c taskId w).1 = userDataOf u w).
Proof.
  rewrite <- !Tasks.findTask_None.
  destruct (findTask taskId (tasksOf c w)) as [[i t]|] eqn:E.
  - destruct (Tasks.toggle_found _ _ _ _ _ E) as [-> _].
    destruct (Tasks.delete_found _ _ _ _ _ E) as [-> _].
    repeat split; done.
  - rewrite Tasks.toggle_missing, Tasks.delete_missing by done. cbn [fst snd].
    repeat split; try done; intros; apply Frame.userDataOf_initialize.
Qed.

(** X5 at a user with the tasks 1 and 2 and the identifier 5. *)
Lemma unknown_task_changes_nothing_witness :
  let w := runAll [AddTask 1 "read" 0; AddTask 1 "write" 1] (emptyWorld 0) in
  (∀ t, t ∈ tasksOf 1 w → task_id t ≠ 5)
  ∧ (toggleTaskComplete 1 5 w).2 = None
  ∧ (deleteUserTask 1 5 w).1 = w.
Proof.
  assert (∀ t,
            t ∈ tasksOf 1
                  (runAll [AddTask 1 "read" 0; AddTask 1 "write" 1]
                     (emptyWorld 0)) →
            task_id t ≠ 5) as Hnone.
  { intros t Ht. vm_compute in Ht.
    repeat (apply elem_of_cons in Ht as [->|Ht]; [cbn; lia|]).
    by apply elem_of_nil in Ht. }
  split; [exact Hnone|].
  split; [exact (proj2 (proj1 (unknown_task_changes_nothing 1 5 _)) Hnone)|].
  rewrite (proj1 (proj2 (proj2 (proj2 (unknown_task_changes_nothing 1 5 _))
                           Hnone))).
  vm_compute. reflexivity.
Defined.

(** X6.  In every reachable world, deleting a task that the user has
    answers [true] and leaves exactly the tasks with another identifier,
    in their order; the counter of completed tasks goes down by one if the
    task was completed and stays otherwise. *)
Theorem delete_removes_the_task w c taskId t :
  reachableAll w → t ∈ tasksOf c w → task_id t = taskId →
  let w' := (deleteUserTask c taskId w).1 in
  (deleteUserTask c taskId w).2 = true
  ∧ tasksOf c w' = filter (λ t', task_id t' ≠ taskId) (tasksOf c w)
  ∧ length (tasksOf c w') = (length (tasksOf c w) - 1)%nat
  ∧ totalCompletedTasks (statsOf c w') =
    totalCompletedTasks (statsOf c w) - (if task_completed t then 1 else 0).
Proof.
  intros Hw Ht Hid w'. subst w'.
  destruct (Tasks.findTask_elem taskId _ t Ht Hid) as [[i t'] E].
  destruct (Tasks.delete_found _ _ _ _ _ E) as [-> H].
  destruct (TaskInvariants.ids_inv_reachable w c Hw) as [Hnd _].
  fold (tasksOf c w) in Hnd.
  pose proof (TaskInvariants.count_inv_reachable w c Hw) as Hcount.
  unfold count_inv in Hcount.
  fold (tasksOf c w) (statsOf c w) in Hcount.
  unfold tasksOf at 1 3, statsOf at 1.
  rewrite !H, decide_True by done. cbn [tasks stats].
  pose proof (Tasks.findTask_Some _ _ _ _ E) as [Hi Hid'].
  assert (t' = t) as ->.
  { apply list_elem_of_lookup_1 in Ht as [j Hj].
    assert (i = j); [|congruence].
    apply (NoDup_lookup (task_id <$> tasksOf c w) i j taskId); [done|..];
      rewrite list_lookup_fmap; [by rewrite Hi; cbn; f_equal
                               | by rewrite Hj; cbn; f_equal]. }
  repeat split.
  - by apply (TaskInvariants.delete_filter _ _ _ t).
  - rewrite length_delete; [done|]. eauto.
  - pose proof (TaskInvariants.count_member _ _
                  (list_elem_of_lookup_2 _ _ _ Hi)) as Hmem.
    unfold statsOf in *.
    destruct (task_completed t);
      cbn [setCompletedTasks totalCompletedTasks]; lia.
Qed.

(** X6 at the first of three tasks, completed before. *)
Lemma delete_removes_the_task_witness :
  let w :=
    runAll [AddTask 1 "read" 0; AddTask 1 "write" 1; AddTask 1 "revise" 2;
            ToggleTask 1 1] (emptyWorld 0) in
  reachableAll w
  ∧ task_id <$> tasksOf 1 (deleteUserTask 1 1 w).1 = [2; 3]
  ∧ (deleteUserTask 1 1 w).2 = true.
Proof.
  split; [eexists 0, _; reflexivity|]. split; [vm_compute; reflexivity|].
  refine (proj1 (delete_removes_the_task _ 1 1
    {| task_id := 1; task_text := "read"; task_completed := true;
       task_createdAt := 0 |} _ _ _)).
  - eexists 0, _; reflexivity.
  - vm_compute. apply list_elem_of_here.
  - reflexivity.
Defined.

Module TimerStore.

Lemma default_Some {A} (d x : A) : default d (Some x) = x.
Proof. done. Qed.

Lemma default_None {A} (d : A) : default d None = d.
Proof. done. Qed.

Lemma storedTimer_ext u k w1 w2 :
  timerStore w1 = timerStore w2 → storedTimer u k w1 = storedTimer u k w2.
Proof. unfold storedTimer. by intros ->. Qed.

Lemma storedTimer_store u k c k0 j w :
  storedTimer u k (storeTimer c k0 j w) =
  if decide (u = c ∧ k = k0) then Some j else storedTimer u k w.
Proof.
  unfold storedTimer, storeTimer. cbn [timerStore setTimerStore].
  destruct (decide (u = c)) as [->|Hu].
  - rewrite lookup_insert_eq, default_Some.
    destruct (decide (k = k0)) as [->|Hk].
    + rewrite lookup_insert_eq. by rewrite decide_True.
    + rewrite lookup_insert_ne by done. rewrite decide_False by (intros [_ ?]; done).
      done.
  - rewrite lookup_insert_ne by done. by rewrite decide_False by (intros [? ?]; done).
Qed.

Lemma storedTimer_remove u k c k0 w :
  storedTimer u k (removeTimer c k0 w) =
  if decide (u = c ∧ k = k0) then None else storedTimer u k w.
Proof.
  rewrite Cleanup.removeTimer_closed. unfold storedTimer.
  destruct (timerStore w !! c) as [t|] eqn:E.
  - cbn [timerStore setTimerStore].
    destruct (decide (u = c)) as [->|Hu].
    + rewrite lookup_insert_eq, E, !default_Some.
      destruct (decide (k = k0)) as [->|Hk].
      * rewrite lookup_delete_eq. by rewrite decide_True.
      * rewrite lookup_delete_ne by done. by rewrite decide_False by (intros [? ?]; done).
    + rewrite lookup_insert_ne by done. by rewrite decide_False by (intros [? ?]; done).
  - case_decide as H; [|done]. destruct H as [-> ->].
    by rewrite E, default_None, lookup_empty.
Qed.

Lemma storedTimer_cancel u k j w :
  storedTimer u k (cancel j w) = storedTimer u k w.
Proof. done. Qed.

Lemma storedTimer_scheduleJob u k cb w :
  storedTimer u k (scheduleJob cb w).2 = storedTimer u k w.
Proof. done. Qed.

Lemma storedTimer_initialize u k c w :
  storedTimer u k (initializeUserData c w) = storedTimer u k w.
Proof. apply storedTimer_ext, Frame.timerStore_initialize. Qed.

Lemma storedTimer_update u k c p w :
  storedTimer u k (updateUserSession c p w) = storedTimer u k w.
Proof. apply storedTimer_ext, Frame.timerStore_update. Qed.

Lemma storedTimer_commit u k c m now w :
  storedTimer u k (addCompletedSession c m now w) = storedTimer u k w.
Proof. apply storedTimer_ext, Frame.timerStore_add. Qed.

Lemma scheduled_storeTimer c k j w :
  scheduled (storeTimer c k j w) = scheduled w.
Proof. done. Qed.

Lemma nextJob_storeTimer c k j w : nextJob (storeTimer c k j w) = nextJob w.
Proof. done. Qed.

Lemma scheduled_cancel j w : scheduled (cancel j w) = delete j (scheduled w).
Proof. done. Qed.

Lemma nextJob_cancel j w : nextJob (cancel j w) = nextJob w.
Proof. done. Qed.

Lemma scheduled_scheduleJob cb w :
  scheduled (scheduleJob cb w).2 = <[nextJob w := cb]> (scheduled w).
Proof. done. Qed.

Lemma nextJob_scheduleJob cb w :
  nextJob (scheduleJob cb w).2 = S (nextJob w).
Proof. done. Qed.

(** [cancelStored] in terms of the handle it is given. *)
Lemma storedTimer_cancelStored u k c t k0 w :
  storedTimer u k (cancelStored c t k0 w) =
  if decide (u = c ∧ k = k0)
  then match t !! k0 with Some _ => None | None => storedTimer u k w end
  else storedTimer u k w.
Proof.
  unfold cancelStored. destruct (t !! k0) as [j|].
  - by rewrite storedTimer_remove, storedTimer_cancel.
  - by case_decide.
Qed.

Lemma scheduled_cancelStored c t k0 w :
  scheduled (cancelStored c t k0 w) = cancelOpt (t !! k0) (scheduled w).
Proof.
  unfold cancelStored, cancelOpt. destruct (t !! k0) as [j|]; [|done].
  by rewrite Frame.scheduled_removeTimer, scheduled_cancel.
Qed.

End TimerStore.

Create Rewrite HintDb timers.

#[export] Hint Rewrite
  TimerStore.storedTimer_store TimerStore.storedTimer_remove
  TimerStore.storedTimer_cancel TimerStore.storedTimer_scheduleJob
  TimerStore.storedTimer_initialize TimerStore.storedTimer_update
  TimerStore.storedTimer_commit Frame.scheduled_removeTimer
  TimerStore.scheduled_storeTimer TimerStore.nextJob_storeTimer
  TimerStore.scheduled_cancel TimerStore.nextJob_cancel
  TimerStore.scheduled_scheduleJob TimerStore.nextJob_scheduleJob
  Frame.nextJob_removeTimer : timers.

Module Stop.

(** The timer store and the scheduler after [stopFocusTimer]. *)
Lemma storedTimer_stop u k c now w :
  storedTimer u k (stopFocusTimer c now w) =
  if decide (u = c ∧ (k = "update" ∨ k = "end")) then None
  else storedTimer u k w.
Proof.
  unfold stopFocusTimer, getUserSession.
  rewrite TimerStore.storedTimer_update.
  set (s := sessionOf c (initializeUserData c w)).
  set (t := default ∅ (timerStore (initializeUserData c w) !! c)).
  assert (∀ w', storedTimer u k
    (match isStudying s, studyStartTime s with
     | true, Some startTime =>
         if Qgtb (studyDuration s startTime now) 1
         then addCompletedSession c
                (Math_round (studyDuration s startTime now)) now w'
         else w'
     | _, _ => w'
     end) = storedTimer u k w') as ->.
  { intros w'. destruct (isStudying s), (studyStartTime s); try done.
    destruct (Qgtb _ _); [apply TimerStore.storedTimer_commit|done]. }
  rewrite !TimerStore.storedTimer_cancelStored, TimerStore.storedTimer_initialize.
  assert (∀ k0, t !! k0 = storedTimer c k0 w) as Ht.
  { intros k0. subst t. unfold storedTimer.
    by rewrite Frame.timerStore_initialize. }
  rewrite !Ht.
  destruct (storedTimer c "update" w) eqn:E1, (storedTimer c "end" w) eqn:E2;
    repeat case_decide; destruct_and?; subst; rewrite ?E1, ?E2;
    intuition congruence.
Qed.

Lemma scheduled_stop c now w :
  scheduled (stopFocusTimer c now w) =
  cancelOpt (storedTimer c "end" w)
    (cancelOpt (storedTimer c "update" w) (scheduled w)).
Proof.
  unfold stopFocusTimer, getUserSession.
  rewrite Frame.scheduled_update.
  set (s := sessionOf c (initializeUserData c w)).
  set (t := default ∅ (timerStore (initializeUserData c w) !! c)).
  assert (∀ w', scheduled
    (match isStudying s, studyStartTime s with
     | true, Some startTime =>
         if Qgtb (studyDuration s startTime now) 1
         then addCompletedSession c
                (Math_round (studyDuration s startTime now)) now w'
         else w'
     | _, _ => w'
     end) = scheduled w') as ->.
  { intros w'. destruct (isStudying s), (studyStartTime s); try done.
    destruct (Qgtb _ _); [apply Frame.scheduled_add|done]. }
  rewrite !TimerStore.scheduled_cancelStored, Frame.scheduled_initialize.
  subst t. unfold storedTimer. by rewrite Frame.timerStore_initialize.
Qed.

Lemma nextJob_stop c now w : nextJob (stopFocusTimer c now w) = nextJob w.
Proof.
  unfold stopFocusTimer, getUserSession.
  rewrite Frame.nextJob_update.
  set (s := sessionOf c (initializeUserData c w)).
  destruct (isStudying s), (studyStartTime s) as [startTime|];
    try (by rewrite !Frame.nextJob_cancelStored, Frame.nextJob_initialize).
  destruct (Qgtb (studyDuration s startTime now) 1);
    rewrite ?Frame.nextJob_add;
    by rewrite !Frame.nextJob_cancelStored, Frame.nextJob_initialize.
Qed.

End Stop.

Module Handles.

Lemma inv_neutral w w' :
  timerStore w' = timerStore w → scheduled w' = scheduled w →
  nextJob w' = nextJob w → handles_inv w → handles_inv w'.
Proof.
  unfold handles_inv, storedTimer. by intros -> -> ->.
Qed.

Lemma inv_cancel j w : handles_inv w → handles_inv (cancel j w).
Proof.
  intros (Hlt & Hinj & Hjobs). split; [done|]. split; [done|].
  intros j' cb. rewrite TimerStore.scheduled_cancel, TimerStore.nextJob_cancel.
  intros [_ H]%lookup_delete_Some. eauto.
Qed.

Lemma inv_remove c k w : handles_inv w → handles_inv (removeTimer c k w).
Proof.
  intros (Hlt & Hinj & Hjobs). unfold handles_inv.
  rewrite Frame.nextJob_removeTimer, Frame.scheduled_removeTimer.
  split; [|split; [|done]].
  - intros u k' j. rewrite TimerStore.storedTimer_remove.
    case_decide; [done|]. apply Hlt.
  - intros u1 k1 u2 k2 j. rewrite !TimerStore.storedTimer_remove.
    repeat case_decide; try done. apply Hinj.
Qed.

Lemma inv_schedule cb w : handles_inv w → handles_inv (scheduleJob cb w).2.
Proof.
  intros (Hlt & Hinj & Hjobs). unfold handles_inv.
  rewrite TimerStore.nextJob_scheduleJob, TimerStore.scheduled_scheduleJob.
  split; [|split; [done|]].
  - intros u k j H. apply Hlt in H. lia.
  - intros j cb' [[<- _]|[_ H]]%lookup_insert_Some; [lia|].
    apply Hjobs in H. lia.
Qed.

Lemma inv_store c k j w :
  handles_inv w → (j < nextJob w)%nat →
  (∀ u k', storedTimer u k' w ≠ Some j) →
  handles_inv (storeTimer c k j w).
Proof.
  intros (Hlt & Hinj & Hjobs) Hj Hfresh. unfold handles_inv.
  split; [|split; [|done]].
  - intros u k' j'. rewrite TimerStore.storedTimer_store.
    case_decide; [by intros [= <-]|]. apply Hlt.
  - intros u1 k1 u2 k2 j'. rewrite !TimerStore.storedTimer_store.
    repeat case_decide; destruct_and?; subst.
    + done.
    + intros [= <-] Hst. by apply Hfresh in Hst.
    + intros Hst [= <-]. by apply Hfresh in Hst.
    + apply Hinj.
Qed.

Lemma inv_stop c now w : handles_inv w → handles_inv (stopFocusTimer c now w).
Proof.
  intros (Hlt & Hinj & Hjobs). unfold handles_inv.
  rewrite Stop.nextJob_stop, Stop.scheduled_stop.
  split; [|split].
  - intros u k j. rewrite Stop.storedTimer_stop.
    case_decide; [done|]. apply Hlt.
  - intros u1 k1 u2 k2 j. rewrite !Stop.storedTimer_stop.
    repeat case_decide; try done. apply Hinj.
  - intros j cb H. apply (Hjobs j cb). unfold cancelOpt in H.
    destruct (storedTimer c "end" w), (storedTimer c "update" w);
      repeat apply lookup_delete_Some in H as [_ H]; done.
Qed.

Lemma timers_startedWorld c d now sent w :
  timerStore (startedWorld c d now sent w) = timerStore (stopFocusTimer c now w)
  ∧ scheduled (startedWorld c d now sent w) = scheduled (stopFocusTimer c now w)
  ∧ nextJob (startedWorld c d now sent w) = nextJob (stopFocusTimer c now w).
Proof.
  unfold startedWorld. destruct sent; cbv zeta; by autorewrite with frame.
Qed.

Lemma inv_start c d now sent w :
  handles_inv w → handles_inv (startFocusTimer c d now sent w).1.
Proof.
  intros Hw. destruct ((c =? 0) || (d =? 0) || (d <=? 0)) eqn:G.
  { by rewrite Effect.start_rejected. }
  apply orb_false_iff in G as [G Hd]. apply orb_false_iff in G as [Hc _].
  apply Z.eqb_neq in Hc. apply Z.leb_gt in Hd.
  rewrite Effect.start_world by done. cbv zeta.
  destruct (timers_startedWorld c d now sent w) as (Ht & Hs & Hn).
  assert (handles_inv (startedWorld c d now sent w)) as H1
    by (eapply inv_neutral; [done..|by apply inv_stop]).
  destruct sent as [mid|]; [|done].
  set (w1 := startedWorld c d now (Some mid) w) in *.
  pose proof H1 as (Hlt & _ & _).
  apply inv_store.
  - apply inv_store; [by do 2 apply inv_schedule|..].
    + rewrite !TimerStore.nextJob_scheduleJob. lia.
    + intros u k Hst. rewrite !TimerStore.storedTimer_scheduleJob in Hst.
      apply Hlt in Hst. lia.
  - rewrite TimerStore.nextJob_storeTimer, !TimerStore.nextJob_scheduleJob.
    lia.
  - intros u k. rewrite TimerStore.storedTimer_store.
    rewrite !TimerStore.storedTimer_scheduleJob.
    destruct (decide (u = c ∧ k = "update")) as [_|_].
    + generalize (nextJob w1). intros n [= Heq]. lia.
    + intros Hst. apply Hlt in Hst. lia.
Qed.

Lemma inv_complete c d now delivered w :
  handles_inv w → handles_inv (handleTimerComplete c d now delivered w).
Proof.
  intros Hw. destruct (isStudying (sessionOf c w)) eqn:Hs.
  - rewrite Effect.complete_studying by done. cbv zeta.
    assert (handles_inv (completedWorld c d now w)) as H1.
    { unfold completedWorld. apply inv_stop.
      eapply inv_neutral; [| | |exact Hw]; by autorewrite with frame. }
    destruct delivered as [later|]; [|done].
    pose proof H1 as (Hlt & _ & _).
    apply inv_store; [by apply inv_schedule|..].
    + rewrite TimerStore.nextJob_scheduleJob. lia.
    + intros u k Hst. rewrite TimerStore.storedTimer_scheduleJob in Hst.
      apply Hlt in Hst. lia.
  - rewrite Effect.complete_idle by done.
    eapply inv_neutral; [| | |exact Hw]; by autorewrite with frame.
Qed.

Lemma inv_step e w : handles_inv w → handles_inv (step e w).
Proof.
  intros Hw. destruct e as [c d now sent|c now|c now|c now|c t0 t1 now|c d now dl];
    cbn [step].
  - by apply inv_start.
  - destruct (Effect.timers_pause c now w) as (? & ? & ?).
    by eapply inv_neutral.
  - destruct (Effect.timers_resume c now w) as (? & ? & ?).
    by eapply inv_neutral.
  - by apply inv_stop.
  - rewrite Effect.tick_world.
    eapply inv_neutral; [| | |exact Hw]; by autorewrite with frame.
  - by apply inv_complete.
Qed.

Lemma inv_cancelAll c entries w :
  handles_inv w → handles_inv (cancelAll c entries w).
Proof.
  unfold cancelAll. revert w.
  induction entries as [|e entries IH]; intros w Hw; cbn [fold_left]; [done|].
  by apply IH, inv_remove, inv_cancel.
Qed.

Lemma inv_cleanupOver entries w :
  handles_inv w → handles_inv (cleanupOver entries w).
Proof.
  unfold cleanupOver. revert w.
  induction entries as [|e entries IH]; intros w Hw; cbn [fold_left]; [done|].
  apply IH. unfold cleanupEntry, getUserSession. cbv beta iota zeta.
  assert (handles_inv (initializeUserData e.1 w)) as Hi
    by (eapply inv_neutral; [| | |exact Hw]; by autorewrite with frame).
  destruct (negb _); [by apply inv_cancelAll|done].
Qed.

Lemma timers_set c ud w :
  let w' :=
    setUserStore (<[c := ud]> (userStore (initializeUserData c w)))
      (initializeUserData c w) in
  timerStore w' = timerStore w ∧ scheduled w' = scheduled w
  ∧ nextJob w' = nextJob w.
Proof. cbn. by autorewrite with frame. Qed.

Lemma timers_toggle c taskId w :
  let w' := (toggleTaskComplete c taskId w).1 in
  timerStore w' = timerStore w ∧ scheduled w' = scheduled w
  ∧ nextJob w' = nextJob w.
Proof.
  unfold toggleTaskComplete. cbv zeta.
  destruct (findTask _ _) as [[i t]|]; cbn [fst].
  - apply timers_set.
  - by autorewrite with frame.
Qed.

Lemma timers_delete c taskId w :
  let w' := (deleteUserTask c taskId w).1 in
  timerStore w' = timerStore w ∧ scheduled w' = scheduled w
  ∧ nextJob w' = nextJob w.
Proof.
  unfold deleteUserTask. cbv zeta.
  destruct (findTask _ _) as [[i t]|]; cbn [fst].
  - apply timers_set.
  - by autorewrite with frame.
Qed.

Lemma inv_act a w : handles_inv w → handles_inv (act a w).
Proof.
  intros Hw. destruct a as [e|c|c text now|c taskId|c taskId|]; cbn [act].
  - by apply inv_step.
  - by apply inv_remove.
  - destruct (timers_set c
      {| tasks :=
           tasks (userDataOf c (initializeUserData c w)) ++
           [{| task_id := nextTaskId (tasks (userDataOf c (initializeUserData c w)));
               task_text := text; task_completed := false;
               task_createdAt := now |}];
         session := session (userDataOf c (initializeUserData c w));
         stats := stats (userDataOf c (initializeUserData c w)) |} w)
      as (? & ? & ?).
    by eapply inv_neutral.
  - destruct (timers_toggle c taskId w) as (? & ? & ?). by eapply inv_neutral.
  - destruct (timers_delete c taskId w) as (? & ? & ?). by eapply inv_neutral.
  - by apply inv_cleanupOver.
Qed.

Lemma inv_empty tz : handles_inv (emptyWorld tz).
Proof.
  unfold handles_inv, storedTimer. cbn [emptyWorld timerStore scheduled].
  split; [|split]; intros *; rewrite ?lookup_empty; cbn;
    rewrite ?lookup_empty; done.
Qed.

Lemma inv_reachable w : reachableAll w → handles_inv w.
Proof.
  intros (tz & actions & ->).
  induction actions as [|a actions IH] using rev_ind; [apply inv_empty|].
  rewrite History.runAll_snoc. by apply inv_act.
Qed.

End Handles.

Module Sweep.

Lemma none_or {A} (P Q R : Prop) `{Decision P, Decision Q, Decision R}
    (x : option A) :
  (R ↔ P ∨ Q) →
  (if decide P then None else if decide Q then None else x) =
  if decide R then None else x.
Proof. intros HR. repeat case_decide; tauto. Qed.

Lemma cancelAll_cons c e entries w :
  cancelAll c (e :: entries) w =
  cancelAll c entries (removeTimer c e.1 (cancel e.2 w)).
Proof. done. Qed.

Lemma storedTimer_cancelAll u k c (entries : list (string * nat)) w :
  storedTimer u k (cancelAll c entries w) =
  if decide (u = c ∧ k ∈ entries.*1) then None else storedTimer u k w.
Proof.
  revert w. induction entries as [|e entries IH]; intros w.
  - rewrite decide_False; [done|]. intros [_ H]. by apply elem_of_nil in H.
  - rewrite cancelAll_cons, IH.
    rewrite TimerStore.storedTimer_remove, TimerStore.storedTimer_cancel.
    apply none_or. rewrite fmap_cons, elem_of_cons. tauto.
Qed.

Lemma scheduled_cancelAll j c (entries : list (string * nat)) w :
  scheduled (cancelAll c entries w) !! j =
  if decide (j ∈ entries.*2) then None else scheduled w !! j.
Proof.
  revert w. induction entries as [|e entries IH]; intros w.
  - rewrite decide_False; [done|]. intros H. by apply elem_of_nil in H.
  - rewrite cancelAll_cons, IH.
    rewrite Frame.scheduled_removeTimer, TimerStore.scheduled_cancel.
    rewrite fmap_cons.
    destruct (decide (j = e.2)) as [->|Hj].
    + rewrite lookup_delete_eq.
      rewrite (decide_True (P := e.2 ∈ e.2 :: entries.*2))
        by apply list_elem_of_here.
      by case_decide.
    + rewrite lookup_delete_ne by done.
      apply decide_ext. rewrite elem_of_cons. tauto.
Qed.

Lemma keys_of (t : gmap string nat) k :
  k ∈ (map_to_list t).*1 ↔ is_Some (t !! k).
Proof.
  rewrite list_elem_of_fmap. split.
  - intros ([k' j] & -> & H). apply elem_of_map_to_list in H. eauto.
  - intros [j H]. exists (k, j). split; [done|]. by apply elem_of_map_to_list.
Qed.

Lemma handles_of (t : gmap string nat) j :
  j ∈ (map_to_list t).*2 ↔ ∃ k, t !! k = Some j.
Proof.
  rewrite list_elem_of_fmap. split.
  - intros ([k j'] & -> & H). apply elem_of_map_to_list in H. eauto.
  - intros [k H]. exists (k, j). split; [done|]. by apply elem_of_map_to_list.
Qed.

Lemma cleanupEntry_unfold w e :
  cleanupEntry w e =
  if negb (isStudying (sessionOf e.1 w))
  then cancelAll e.1 (map_to_list e.2) (initializeUserData e.1 w)
  else initializeUserData e.1 w.
Proof.
  unfold cleanupEntry, getUserSession. cbv beta iota zeta.
  by rewrite Frame.sessionOf_initialize.
Qed.

Lemma storedTimer_cleanupEntry u k w e :
  storedTimer u k (cleanupEntry w e) =
  if decide (isStudying (sessionOf u w) = false
             ∧ e.1 = u ∧ is_Some (e.2 !! k))
  then None else storedTimer u k w.
Proof.
  rewrite cleanupEntry_unfold.
  destruct (isStudying (sessionOf e.1 w)) eqn:Hs; cbn [negb].
  - rewrite TimerStore.storedTimer_initialize.
    rewrite decide_False; [done|]. intros (Hu & <- & _). congruence.
  - rewrite storedTimer_cancelAll, TimerStore.storedTimer_initialize.
    apply decide_ext. rewrite keys_of. split.
    + intros [-> ?]. done.
    + intros (_ & <- & ?). done.
Qed.

Lemma scheduled_cleanupEntry j w e :
  scheduled (cleanupEntry w e) !! j =
  if decide (isStudying (sessionOf e.1 w) = false
             ∧ j ∈ (map_to_list e.2).*2)
  then None else scheduled w !! j.
Proof.
  rewrite cleanupEntry_unfold.
  destruct (isStudying (sessionOf e.1 w)) eqn:Hs; cbn [negb].
  - rewrite Frame.scheduled_initialize.
    rewrite decide_False; [done|]. by intros [? _].
  - rewrite scheduled_cancelAll, Frame.scheduled_initialize.
    apply decide_ext. tauto.
Qed.

Lemma cleanupOver_cons e entries w :
  cleanupOver (e :: entries) w = cleanupOver entries (cleanupEntry w e).
Proof. done. Qed.

Lemma sessionOf_cleanupEntry u w e :
  sessionOf u (cleanupEntry w e) = sessionOf u w.
Proof. unfold sessionOf. by rewrite Cleanup.userDataOf_cleanupEntry. Qed.

(** The stored timers after the entries were visited in any order. *)
Lemma storedTimer_cleanupOver u k entries w :
  storedTimer u k (cleanupOver entries w) =
  if decide (isStudying (sessionOf u w) = false
             ∧ Exists (λ e, e.1 = u ∧ is_Some (e.2 !! k)) entries)
  then None else storedTimer u k w.
Proof.
  revert w. induction entries as [|e entries IH]; intros w.
  - rewrite decide_False; [done|]. intros [_ H]. by apply Exists_nil in H.
  - rewrite cleanupOver_cons, IH, sessionOf_cleanupEntry.
    rewrite storedTimer_cleanupEntry.
    apply none_or. rewrite Exists_cons. tauto.
Qed.

Lemma scheduled_cleanupOver j entries w :
  scheduled (cleanupOver entries w) !! j =
  if decide (Exists (λ e, isStudying (sessionOf e.1 w) = false
                          ∧ j ∈ (map_to_list e.2).*2) entries)
  then None else scheduled w !! j.
Proof.
  revert w. induction entries as [|e entries IH]; intros w.
  - rewrite decide_False; [done|]. intros H. by apply Exists_nil in H.
  - rewrite cleanupOver_cons, IH, scheduled_cleanupEntry.
    rewrite <- (none_or _ _ _ _
      (Exists_cons (λ e0, isStudying (sessionOf e0.1 w) = false
                          ∧ j ∈ (map_to_list e0.2).*2) e entries)).
    assert (Exists (λ e0, isStudying (sessionOf e0.1 (cleanupEntry w e)) = false
                          ∧ j ∈ (map_to_list e0.2).*2) entries
            ↔ Exists (λ e0, isStudying (sessionOf e0.1 w) = false
                            ∧ j ∈ (map_to_list e0.2).*2) entries) as Hiff.
    { apply Exists_proper; [|done]. intros e0.
      by rewrite sessionOf_cleanupEntry. }
    rewrite (decide_ext _ _ _ _ Hiff).
    repeat case_decide; done.
Qed.

Lemma nextJob_cleanupOver entries w :
  nextJob (cleanupOver entries w) = nextJob w.
Proof.
  revert w. induction entries as [|e entries IH]; intros w; [done|].
  rewrite cleanupOver_cons, IH, cleanupEntry_unfold.
  destruct (negb _); rewrite ?Cleanup.nextJob_cancelAll;
    apply Frame.nextJob_initialize.
Qed.

Lemma utcOffset_cleanupOver entries w :
  utcOffset (cleanupOver entries w) = utcOffset w.
Proof.
  revert w. induction entries as [|e entries IH]; intros w; [done|].
  rewrite cleanupOver_cons, IH, cleanupEntry_unfold.
  destruct (negb _); rewrite ?Cleanup.utcOffset_cancelAll;
    apply Frame.utcOffset_initialize.
Qed.

Lemma stored_entry u k w :
  Exists (λ e, e.1 = u ∧ is_Some (e.2 !! k)) (map_to_list (timerStore w))
  ↔ is_Some (storedTimer u k w).
Proof.
  rewrite Exists_exists. unfold storedTimer. split.
  - intros ([c t] & Hin & Hu & Hk). cbn in Hu, Hk. subst c.
    apply elem_of_map_to_list in Hin. by rewrite Hin.
  - intros [j Hj]. destruct (timerStore w !! u) as [t|] eqn:E.
    + exists (u, t). rewrite elem_of_map_to_list. cbn. eauto.
    + cbn in Hj. by rewrite lookup_empty in Hj.
Qed.

Lemma stored_handle j w :
  Exists (λ e, isStudying (sessionOf e.1 w) = false
               ∧ j ∈ (map_to_list e.2).*2) (map_to_list (timerStore w))
  ↔ ∃ u k, storedTimer u k w = Some j ∧ isStudying (sessionOf u w) = false.
Proof.
  rewrite Exists_exists. unfold storedTimer. split.
  - intros ([c t] & Hin & Hs & Hj). cbn in Hs, Hj.
    apply elem_of_map_to_list in Hin. apply handles_of in Hj as [k Hk].
    exists c, k. by rewrite Hin.
  - intros (u & k & Hj & Hs). destruct (timerStore w !! u) as [t|] eqn:E.
    + exists (u, t). rewrite elem_of_map_to_list. cbn.
      split; [done|]. split; [done|]. apply handles_of. eauto.
    + cbn in Hj. by rewrite lookup_empty in Hj.
Qed.

(** The stored timers after [cleanupTimers]. *)
Lemma storedTimer_cleanup u k w :
  storedTimer u k (cleanupTimers w) =
  if isStudying (sessionOf u w) then storedTimer u k w else None.
Proof.
  unfold cleanupTimers. rewrite storedTimer_cleanupOver.
  destruct (isStudying (sessionOf u w)).
  - rewrite decide_False; [done|]. by intros [? _].
  - case_decide as H; [done|].
    destruct (storedTimer u k w) as [j|] eqn:E; [|done].
    exfalso. apply H. split; [done|]. apply stored_entry. by rewrite E.
Qed.

Lemma scheduled_cleanup_cancelled u k j w :
  storedTimer u k w = Some j → isStudying (sessionOf u w) = false →
  scheduled (cleanupTimers w) !! j = None.
Proof.
  intros Hj Hs. unfold cleanupTimers. rewrite scheduled_cleanupOver.
  rewrite decide_True; [done|]. apply stored_handle. eauto.
Qed.

Lemma scheduled_cleanup_kept j w :
  (∀ u k, storedTimer u k w = Some j → isStudying (sessionOf u w) = true) →
  scheduled (cleanupTimers w) !! j = scheduled w !! j.
Proof.
  intros H. unfold cleanupTimers. rewrite scheduled_cleanupOver.
  rewrite decide_False; [done|].
  intros (u & k & Hj & Hs)%stored_handle. apply H in Hj. congruence.
Qed.

Lemma scheduled_cleanup_sub j cb w :
  scheduled (cleanupTimers w) !! j = Some cb → scheduled w !! j = Some cb.
Proof.
  unfold cleanupTimers. rewrite scheduled_cleanupOver. by case_decide.
Qed.

End Sweep.

Module Jobs.

Lemma storedJob_alt u k w :
  storedJob u k w =
  match storedTimer u k w with
  | Some j => scheduled w !! j
  | None => None
  end.
Proof. done. Qed.

Lemma lookup_cancelOpt (o : option nat) (m : gmap nat Callback) j :
  o ≠ Some j → cancelOpt o m !! j = m !! j.
Proof.
  intros H. destruct o as [j'|]; [|done]. cbn.
  apply lookup_delete_ne. congruence.
Qed.

Lemma lookup_cancelOpt_eq (m : gmap nat Callback) j :
  cancelOpt (Some j) m !! j = None.
Proof. apply lookup_delete_eq. Qed.

Lemma cancelOpt_sub (o : option nat) (m : gmap nat Callback) j cb :
  cancelOpt o m !! j = Some cb → m !! j = Some cb.
Proof.
  destruct o as [j'|]; [|done]. cbn. by intros [_ H]%lookup_delete_Some.
Qed.

(** The timer store and the scheduler after a start that is accepted. *)
Lemma storedTimer_start u k c d now sent w :
  c ≠ 0 → 0 < d →
  storedTimer u k (startFocusTimer c d now sent w).1 =
  match sent with
  | Some _ =>
      if decide (u = c ∧ k = "end") then Some (S (nextJob w))
      else if decide (u = c ∧ k = "update") then Some (nextJob w)
      else storedTimer u k w
  | None => storedTimer u k (stopFocusTimer c now w)
  end.
Proof.
  intros Hc Hd. rewrite Effect.start_world by done. cbv zeta.
  destruct (Handles.timers_startedWorld c d now sent w) as (Ht & Hs & Hn).
  destruct sent as [mid|].
  - rewrite !TimerStore.storedTimer_store, !TimerStore.storedTimer_scheduleJob.
    rewrite (TimerStore.storedTimer_ext _ _ _ _ Ht), Hn, Stop.nextJob_stop.
    rewrite Stop.storedTimer_stop.
    repeat case_decide; destruct_and?; subst; intuition congruence.
  - by apply TimerStore.storedTimer_ext.
Qed.

Lemma scheduled_start c d now mid w :
  c ≠ 0 → 0 < d →
  scheduled (startFocusTimer c d now (Some mid) w).1 =
  <[S (nextJob w) := TimerEnd (now + d * 60000) c d]>
    (<[nextJob w := UpdateTick c now (now + d * 60000)]>
       (scheduled (stopFocusTimer c now w))).
Proof.
  intros Hc Hd. rewrite Effect.start_world by done. cbv zeta.
  destruct (Handles.timers_startedWorld c d now (Some mid) w) as (Ht & Hs & Hn).
  rewrite !TimerStore.scheduled_storeTimer, !TimerStore.scheduled_scheduleJob.
  by rewrite TimerStore.nextJob_scheduleJob, Hs, Hn, Stop.nextJob_stop.
Qed.

Lemma scheduled_start_failed c d now w :
  c ≠ 0 → 0 < d →
  scheduled (startFocusTimer c d now None w).1 =
  scheduled (stopFocusTimer c now w)
  ∧ nextJob (startFocusTimer c d now None w).1 = nextJob w.
Proof.
  intros Hc Hd. rewrite Effect.start_world by done. cbv zeta.
  destruct (Handles.timers_startedWorld c d now None w) as (Ht & Hs & Hn).
  by rewrite Hs, Hn, Stop.nextJob_stop.
Qed.

(** The timer store and the scheduler after a completion. *)
Lemma timers_completedWorld c d now w :
  (∀ u k, storedTimer u k (completedWorld c d now w) =
          storedTimer u k (stopFocusTimer c now w))
  ∧ scheduled (completedWorld c d now w) = scheduled (stopFocusTimer c now w)
  ∧ nextJob (completedWorld c d now w) = nextJob w.
Proof.
  unfold completedWorld. split; [|split].
  - intros u k. rewrite !Stop.storedTimer_stop.
    by rewrite TimerStore.storedTimer_commit, TimerStore.storedTimer_initialize.
  - rewrite !Stop.scheduled_stop. autorewrite with frame.
    by rewrite !TimerStore.storedTimer_commit,
      !TimerStore.storedTimer_initialize.
  - rewrite Stop.nextJob_stop. by autorewrite with frame.
Qed.

(** What another user's stop leaves of a stored job. *)
Lemma storedJob_stop_other u k c now w :
  handles_inv w → u ≠ c ∨ (k ≠ "update" ∧ k ≠ "end") →
  storedJob u k (stopFocusTimer c now w) = storedJob u k w.
Proof.
  intros (_ & Hinj & _) Hne. rewrite !storedJob_alt.
  rewrite Stop.storedTimer_stop, decide_False by intuition congruence.
  destruct (storedTimer u k w) as [j|] eqn:E; [|done].
  rewrite Stop.scheduled_stop.
  rewrite !lookup_cancelOpt; [done|..]; intros H;
    destruct (Hinj _ _ _ _ _ E H) as [-> ->]; intuition congruence.
Qed.

(** [stopFocusTimer] schedules nothing. *)
Lemma scheduled_stop_sub c now w j cb :
  scheduled (stopFocusTimer c now w) !! j = Some cb →
  scheduled w !! j = Some cb.
Proof.
  intros H. rewrite Stop.scheduled_stop in H.
  by do 2 apply cancelOpt_sub in H.
Qed.

End Jobs.



(** X8.  After [stopFocusTimer] the user has no update and no end timer
    stored, and the handles that were stored for them are no longer
    scheduled.  The break timer of the user and every timer of another
    user stay stored; no job is added and no handle is consumed. *)
Theorem stop_cancels_its_timers c now w :
  let w' := stopFocusTimer c now w in
  storedTimer c "update" w' = None ∧ storedTimer c "end" w' = None
  ∧ (∀ j, storedTimer c "update" w = Some j ∨ storedTimer c "end" w = Some j →
          scheduled w' !! j = None)
  ∧ storedTimer c "break" w' = storedTimer c "break" w
  ∧ (∀ u k, u ≠ c → storedTimer u k w' = storedTimer u k w)
  ∧ (∀ j cb, scheduled w' !! j = Some cb → scheduled w !! j = Some cb)
  ∧ nextJob w' = nextJob w.
Proof.
  intros w'. subst w'. rewrite Stop.nextJob_stop.
  repeat split.
  - by rewrite Stop.storedTimer_stop, decide_True by auto.
  - by rewrite Stop.storedTimer_stop, decide_True by auto.
  - intros j Hj. rewrite Stop.scheduled_stop.
    destruct (decide (storedTimer c "end" w = Some j)) as [->|Hne].
    + apply Jobs.lookup_cancelOpt_eq.
    + rewrite Jobs.lookup_cancelOpt by done.
      destruct Hj as [->|Hj]; [apply Jobs.lookup_cancelOpt_eq|done].
  - by rewrite Stop.storedTimer_stop, decide_False by intuition congruence.
  - intros u k Hu.
    by rewrite Stop.storedTimer_stop, decide_False by intuition congruence.
  - apply Jobs.scheduled_stop_sub.
Qed.

(** X8 at a session that was just started. *)
Lemma stop_cancels_its_timers_witness :
  let w := (startFocusTimer 1 25 0 (Some 7) (emptyWorld 0)).1 in
  storedTimer 1 "end" w = Some 1%nat
  ∧ scheduled w !! 1%nat = Some (TimerEnd 1500000 1 25)
  ∧ scheduled (stopFocusTimer 1 30000 w) !! 1%nat = None.
Proof.
  assert (storedTimer 1 "end"
            (startFocusTimer 1 25 0 (Some 7) (emptyWorld 0)).1 = Some 1%nat)
    as Hend by (vm_compute; reflexivity).
  split; [exact Hend|]. split; [vm_compute; reflexivity|].
  exact (proj1 (proj2 (proj2 (stop_cancels_its_timers 1 30000 _)))
           1%nat (or_intror Hend)).
Defined.

(** X9.  [stopFocusTimer] on a user whose session is already reset and
    who has no update or end timer returns the world unchanged; so a
    second stop right after a stop changes nothing and commits nothing. *)
Theorem stop_is_idempotent c t1 t2 w :
  stopFocusTimer c t2 (stopFocusTimer c t1 w) = stopFocusTimer c t1 w.
Proof.
  set (w1 := stopFocusTimer c t1 w).
  assert (is_Some (userStore w1 !! c)) as Hin by apply Completion.stop_present.
  assert (sessionOf c w1 = spread (sessionOf c w) resetPatch) as Hs
    by (subst w1; by rewrite Effect.sessionOf_stop, decide_True).
  assert (storedTimer c "update" w1 = None) as Hu
    by (subst w1; by rewrite Stop.storedTimer_stop, decide_True by auto).
  assert (storedTimer c "end" w1 = None) as He
    by (subst w1; by rewrite Stop.storedTimer_stop, decide_True by auto).
  clearbody w1. unfold stopFocusTimer, getUserSession.
  rewrite (Completion.initialize_present c w1) by done.
  unfold cancelStored. fold (storedTimer c "update" w1).
  fold (storedTimer c "end" w1). rewrite Hu, He, Hs. cbn [spread resetPatch
    isStudying p_isStudying default from_option id].
  unfold updateUserSession. rewrite (Completion.initialize_present c w1) by done.
  destruct Hin as [ud Hud].
  assert (userDataOf c w1 = ud) as Hud' by (unfold userDataOf; by rewrite Hud).
  unfold sessionOf in Hs. rewrite Hud' in *.
  assert ({| tasks := tasks ud; session := spread (session ud) resetPatch;
             stats := stats ud |} = ud) as ->.
  { destruct ud as [ts s st]. cbn [tasks session stats] in *. by subst s. }
  rewrite insert_id by done. by destruct w1.
Qed.

(** X10.  A start that is accepted while a session is studying commits
    that session as [stopFocusTimer] does: the rounded elapsed minutes if
    they exceed one minute, nothing otherwise; the new session starts with
    empty pause accumulators. *)
Theorem restart_commits_the_running_session c d now sent w startTime :
  c ≠ 0 → 0 < d →
  isStudying (sessionOf c w) = true →
  studyStartTime (sessionOf c w) = Some startTime →
  let elapsed := now - startTime - totalPausedTime (sessionOf c w) in
  let w' := (startFocusTimer c d now sent w).1 in
  statsOf c w' =
    (if decide (60000 < elapsed)
     then statsOf c
            (addCompletedSession c ((elapsed + 30000) / 60000) now w)
     else statsOf c w)
  ∧ sessionOf c w' = startedSession d now sent.
Proof.
  intros Hc Hd Hs Ht elapsed w'. subst elapsed w'.
  rewrite Effect.statsOf_start, Effect.statsOf_stop by done.
  rewrite Effect.sessionOf_start by done.
  rewrite !(decide_True (P := c = c)) by done.
  split; [|done]. case_decide as Hlt.
  - rewrite (Stopping.stoppedStats_over _ _ _ _ startTime) by done.
    by rewrite Frame.statsOf_add.
  - apply (Stopping.stoppedStats_under _ _ _ _ startTime); [done|lia].
Qed.

(** X10 at a 25-minute session restarted after ten minutes. *)
Lemma restart_commits_the_running_session_witness :
  let w := (startFocusTimer 1 25 0 (Some 7) (emptyWorld 0)).1 in
  let w' := (startFocusTimer 1 45 600000 (Some 8) w).1 in
  isStudying (sessionOf 1 w) = true
  ∧ totalSessions (statsOf 1 w') = 1 ∧ totalStudyTime (statsOf 1 w') = 10.
Proof.
  split; [vm_compute; reflexivity|].
  rewrite (proj1 (restart_commits_the_running_session 1 45 600000 (Some 8)
                    (startFocusTimer 1 25 0 (Some 7) (emptyWorld 0)).1 0
                    ltac:(done) ltac:(lia) eq_refl eq_refl)).
  vm_compute. split; reflexivity.
Defined.

(** X11.  [startFocusTimer] throws, which is the result [None], exactly
    when the chat id is 0, the duration is not positive or the timer
    message could not be sent.  With invalid arguments the world is
    unchanged.  With valid arguments and a failed send the session is left
    studying, but no job is scheduled and no update or end timer is stored
    for it. *)
Theorem start_failures c d now sent w :
  ((startFocusTimer c d now sent w).2 = None
   ↔ c = 0 ∨ d <= 0 ∨ sent = None)
  ∧ (c = 0 ∨ d <= 0 → (startFocusTimer c d now sent w).1 = w)
  ∧ (c ≠ 0 → 0 < d →
     let w' := (startFocusTimer c d now None w).1 in
     stateOf (sessionOf c w') = Running
     ∧ storedTimer c "update" w' = None ∧ storedTimer c "end" w' = None
     ∧ nextJob w' = nextJob w
     ∧ ∀ j cb, scheduled w' !! j = Some cb → scheduled w !! j = Some cb).
Proof.
  split; [|split].
  - unfold startFocusTimer.
    destruct ((c =? 0) || (d =? 0) || (d <=? 0)) eqn:G.
    + split; [intros _|done].
      apply orb_true_iff in G as [G|G]; [apply orb_true_iff in G as [G|G]|].
      * apply Z.eqb_eq in G. auto.
      * apply Z.eqb_eq in G. right; left. lia.
      * apply Z.leb_le in G. auto.
    + apply orb_false_iff in G as [G Hd]. apply orb_false_iff in G as [Hc _].
      apply Z.eqb_neq in Hc. apply Z.leb_gt in Hd.
      destruct sent as [mid|]; cbn [snd];
        (split; [try done; intros _; auto|intros [?|[?|?]]; try done; lia]).
  - intros H. rewrite Effect.start_rejected; [done|].
    rewrite !orb_true_iff, !Z.eqb_eq, Z.leb_le. tauto.
  - intros Hc Hd w'. subst w'.
    destruct (Jobs.scheduled_start_failed c d now w Hc Hd) as [Hs Hn].
    rewrite Effect.sessionOf_start, decide_True by done.
    rewrite !Jobs.storedTimer_start by done.
    assert (storedTimer c "update" (stopFocusTimer c now w) = None) as Hu
      by (by rewrite Stop.storedTimer_stop, decide_True by auto).
    assert (storedTimer c "end" (stopFocusTimer c now w) = None) as He
      by (by rewrite Stop.storedTimer_stop, decide_True by auto).
    repeat split; try done. intros j cb. rewrite Hs.
    apply Jobs.scheduled_stop_sub.
Qed.

(** X11 at a first start whose timer message is not delivered. *)
Lemma start_failures_witness :
  let w' := (startFocusTimer 1 25 0 None (emptyWorld 0)).1 in
  stateOf (sessionOf 1 w') = Running
  ∧ storedJob 1 "end" w' = None
  ∧ (startFocusTimer 1 25 0 None (emptyWorld 0)).2 = None.
Proof.
  split.
  - apply (proj2 (proj2 (start_failures 1 25 0 None (emptyWorld 0))));
      [done|lia].
  - split; vm_compute; reflexivity.
Defined.

(** X12.  In every world the process can reach, every stored timer handle
    and every scheduled job is below the next handle, and no handle is
    stored for two timers.  So a job that [scheduleJob] adds never
    replaces a job that is still scheduled or stored. *)
Theorem handles_are_fresh w :
  reachableAll w →
  (∀ u k j, storedTimer u k w = Some j → (j < nextJob w)%nat)
  ∧ (∀ u1 k1 u2 k2 j,
       storedTimer u1 k1 w = Some j → storedTimer u2 k2 w = Some j →
       u1 = u2 ∧ k1 = k2)
  ∧ (∀ j cb, scheduled w !! j = Some cb → (j < nextJob w)%nat)
  ∧ scheduled w !! nextJob w = None
  ∧ (∀ cb j, j ≠ nextJob w →
       scheduled (scheduleJob cb w).2 !! j = scheduled w !! j).
Proof.
  intros Hw. destruct (Handles.inv_reachable w Hw) as (Hlt & Hinj & Hjobs).
  repeat split; try done.
  - by eapply Hinj.
  - by eapply Hinj.
  - destruct (scheduled w !! nextJob w) as [cb|] eqn:E; [|done].
    apply Hjobs in E. lia.
  - intros cb j Hj. rewrite TimerStore.scheduled_scheduleJob.
    by apply lookup_insert_ne.
Qed.

(** X12 after two sessions of two users and a completion. *)
Lemma handles_are_fresh_witness :
  let w :=
    runAll [Timer (Start 1 25 0 (Some 7)); Timer (Start 2 45 1000 (Some 8));
            Timer (Complete 1 25 1500000 (Some 1501000))] (emptyWorld 0) in
  reachableAll w ∧ nextJob w = 5%nat ∧ scheduled w !! nextJob w = None.
Proof.
  assert (reachableAll
            (runAll [Timer (Start 1 25 0 (Some 7));
                     Timer (Start 2 45 1000 (Some 8));
                     Timer (Complete 1 25 1500000 (Some 1501000))]
               (emptyWorld 0)))
    as Hw by (eexists 0, _; reflexivity).
  split; [exact Hw|]. split; [vm_compute; reflexivity|].
  exact (proj1 (proj2 (proj2 (proj2 (handles_are_fresh _ Hw))))).
Defined.



(** X14.  In every reachable world, after [cleanupTimers] a user who is
    studying has the stored jobs they had, and a user who is not studying
    has none: their handles are cancelled and removed.  The cleanup leaves
    the tasks, sessions and statistics of every user alone and schedules
    nothing. *)
Theorem cleanup_removes_idle_timers w u k :
  reachableAll w →
  let w' := cleanupTimers w in
  storedJob u k w' =
    (if isStudying (sessionOf u w) then storedJob u k w else None)
  ∧ storedTimer u k w' =
    (if isStudying (sessionOf u w) then storedTimer u k w else None)
  ∧ (∀ j, storedTimer u k w = Some j → isStudying (sessionOf u w) = false →
          scheduled w' !! j = None)
  ∧ userDataOf u w' = userDataOf u w
  ∧ (∀ j cb, scheduled w' !! j = Some cb → scheduled w !! j = Some cb)
  ∧ nextJob w' = nextJob w.
Proof.
  intros Hw w'. subst w'.
  destruct (Handles.inv_reachable w Hw) as (_ & Hinj & _).
  split; [|repeat split].
  - rewrite !Jobs.storedJob_alt, Sweep.storedTimer_cleanup.
    destruct (isStudying (sessionOf u w)) eqn:Hs; [|done].
    destruct (storedTimer u k w) as [j|] eqn:E; [|done].
    apply Sweep.scheduled_cleanup_kept. intros u' k' E'.
    by destruct (Hinj _ _ _ _ _ E E') as [-> ->].
  - apply Sweep.storedTimer_cleanup.
  - intros j. apply Sweep.scheduled_cleanup_cancelled.
  - apply Cleanup.userDataOf_cleanup.
  - intros j cb. apply Sweep.scheduled_cleanup_sub.
  - apply Sweep.nextJob_cleanupOver.
Qed.

(** X14 at a studying user and a user whose break reminder is pending. *)
Lemma cleanup_removes_idle_timers_witness :
  let w :=
    runAll [Timer (Start 1 25 0 (Some 7));
            Timer (Complete 1 25 1500000 (Some 1501000));
            Timer (Start 2 45 1600000 (Some 8))] (emptyWorld 0) in
  reachableAll w
  ∧ storedJob 1 "break" w = Some (BreakReminder 1801000 1)
  ∧ storedJob 1 "break" (cleanupTimers w) = None
  ∧ storedJob 2 "end" (cleanupTimers w) = storedJob 2 "end" w.
Proof.
  assert (reachableAll
            (runAll [Timer (Start 1 25 0 (Some 7));
                     Timer (Complete 1 25 1500000 (Some 1501000));
                     Timer (Start 2 45 1600000 (Some 8))] (emptyWorld 0)))
    as Hw by (eexists 0, _; reflexivity).
  split; [exact Hw|]. split; [vm_compute; reflexivity|]. split.
  - rewrite (proj1 (cleanup_removes_idle_timers _ 1 "break" Hw)).
    vm_compute. reflexivity.
  - rewrite (proj1 (cleanup_removes_idle_timers _ 2 "end" Hw)).
    vm_compute. reflexivity.
Defined.

(** X15.  The result of the cleanup does not depend on the order in which
    the entries of the timer store are visited: for every enumeration of
    the store, the stored timers, the scheduled jobs, the data of every
    user and the next handle are those of [cleanupTimers]. *)
Theorem cleanup_any_order entries w :
  entries ≡ₚ map_to_list (timerStore w) →
  (∀ u k, storedTimer u k (cleanupOver entries w)
          = storedTimer u k (cleanupTimers w))
  ∧ (∀ j, scheduled (cleanupOver entries w) !! j
          = scheduled (cleanupTimers w) !! j)
  ∧ (∀ u, userDataOf u (cleanupOver entries w)
          = userDataOf u (cleanupTimers w))
  ∧ nextJob (cleanupOver entries w) = nextJob (cleanupTimers w)
  ∧ utcOffset (cleanupOver entries w) = utcOffset (cleanupTimers w).
Proof.
  intros Hperm. unfold cleanupTimers. repeat split.
  - intros u k. rewrite !Sweep.storedTimer_cleanupOver.
    apply decide_ext. by rewrite Hperm.
  - intros j. rewrite !Sweep.scheduled_cleanupOver.
    apply decide_ext. by rewrite Hperm.
  - intros u. by rewrite !Cleanup.userDataOf_cleanupOver.
  - by rewrite !Sweep.nextJob_cleanupOver.
  - by rewrite !Sweep.utcOffset_cleanupOver.
Qed.

(** X15 at a store of two users, visited in the other order. *)
Lemma cleanup_any_order_witness :
  let w :=
    runAll [Timer (Start 1 25 0 (Some 7));
            Timer (Complete 1 25 1500000 (Some 1501000));
            Timer (Start 2 45 1600000 (Some 8))] (emptyWorld 0) in
  reverse (map_to_list (timerStore w)) ≡ₚ map_to_list (timerStore w)
  ∧ ∀ j, scheduled (cleanupOver (reverse (map_to_list (timerStore w))) w) !! j
         = scheduled (cleanupTimers w) !! j.
Proof.
  split; [apply reverse_Permutation|].
  apply (cleanup_any_order _ _ (reverse_Permutation _)).
Defined.

Module StatsInvariants.

Lemma dailyTotal_insert_new (daily : gmap Z Z) day minutes :
  daily !! day = None →
  dailyTotal (<[day := minutes]> daily) = minutes + dailyTotal daily.
Proof.
  intros H. unfold dailyTotal.
  rewrite map_fold_insert_L; [done| |done]. intros. lia.
Qed.

Lemma dailyTotal_delete (daily : gmap Z Z) day minutes :
  daily !! day = Some minutes →
  dailyTotal daily = minutes + dailyTotal (delete day daily).
Proof.
  intros H. unfold dailyTotal.
  rewrite (map_fold_delete_L _ _ day minutes); [done| |done]. intros. lia.
Qed.

(** Adding minutes to a day adds them to the total. *)
Lemma dailyTotal_add (daily : gmap Z Z) day minutes :
  dailyTotal (<[day := default 0 (daily !! day) + minutes]> daily) =
  dailyTotal daily + minutes.
Proof.
  destruct (daily !! day) as [old|] eqn:E; cbn.
  - rewrite <- insert_delete_eq.
    rewrite dailyTotal_insert_new by apply lookup_delete_eq.
    rewrite (dailyTotal_delete daily day old) by done. lia.
  - rewrite dailyTotal_insert_new by done. lia.
Qed.

Lemma stats_inv_step ud ud' : data_step ud ud' → stats_inv ud → stats_inv ud'.
Proof.
  unfold stats_inv.
  destruct 1 as [ud s|ud w m now|ud text now|ud taskId i t Hf|ud taskId i t Hf];
    cbn [tasks stats]; intros (Hsum & Hstreak & Hpos & Hlast); try done.
  - unfold completedStats.
    cbn [totalStudyTime totalSessions streak lastStudyDate dailyStudyTime].
    rewrite dailyTotal_add. split; [lia|].
    assert (1 <= match formatDay w <$> lastStudyDate (stats ud) with
                 | Some lastDay =>
                     if diffDays (formatDay w now) lastDay =? 1
                     then streak (stats ud) + 1
                     else if formatDay w now =? lastDay
                          then streak (stats ud) else 1
                 | None => 1
                 end <= totalSessions (stats ud) + 1) as Hnew.
    { destruct (lastStudyDate (stats ud)) as [last|] eqn:E; cbn; [|lia].
      assert (totalSessions (stats ud) ≠ 0) by (intros H0; apply Hlast in H0; done).
      repeat case_match; lia. }
    repeat split; try lia; done.
  - destruct (task_completed t); done.
Qed.

Lemma stats_inv_new : stats_inv newUserData.
Proof.
  unfold stats_inv. cbn. repeat split; try lia; done.
Qed.

End StatsInvariants.

(** X16.  In every world the process can reach, the statistics of a user
    are consistent: the minutes of the days of [dailyStudyTime] add up to
    [totalStudyTime]; the streak is at most the number of sessions, and at
    least 1 once a session was committed; and [lastStudyDate] is set
    exactly when a session was committed. *)
Theorem statistics_are_consistent w u :
  reachableAll w →
  let st := statsOf u w in
  totalStudyTime st = dailyTotal (dailyStudyTime st)
  ∧ 0 <= streak st <= totalSessions st
  ∧ (0 < totalSessions st → 1 <= streak st)
  ∧ (lastStudyDate st = None ↔ totalSessions st = 0).
Proof.
  intros Hw.
  apply (History.data_invariant_reachable stats_inv);
    [apply StatsInvariants.stats_inv_new
    |apply StatsInvariants.stats_inv_step|done].
Qed.

(** X16 after two sessions on two days. *)
Lemma statistics_are_consistent_witness :
  let w :=
    runAll [Timer (Start 1 25 0 (Some 7)); Timer (Stop 1 1200000);
            Timer (Start 1 30 86400000 (Some 8)); Timer (Stop 1 88200000)]
      (emptyWorld 0) in
  reachableAll w
  ∧ totalStudyTime (statsOf 1 w) = 50
  ∧ totalStudyTime (statsOf 1 w) = dailyTotal (dailyStudyTime (statsOf 1 w)).
Proof.
  assert (reachableAll
            (runAll [Timer (Start 1 25 0 (Some 7)); Timer (Stop 1 1200000);
                     Timer (Start 1 30 86400000 (Some 8));
                     Timer (Stop 1 88200000)] (emptyWorld 0)))
    as Hw by (eexists 0, _; reflexivity).
  split; [exact Hw|]. split; [vm_compute; reflexivity|].
  exact (proj1 (statistics_are_consistent _ 1 Hw)).
Defined.

(** * The last days *)

Module Week.

Lemma weeklyTotal_acc (dailyStats : list DayStat) (acc : Z) :
  fold_left (λ sum day, sum + day_minutes day) dailyStats acc
  = acc + weeklyTotal dailyStats.
Proof.
  unfold weeklyTotal. revert acc.
  induction dailyStats as [|day rest IH]; intros acc; cbn [fold_left]; [lia|].
  rewrite (IH (acc + _)), (IH (0 + _)). lia.
Qed.

Lemma weeklyTotal_cons (day : DayStat) (rest : list DayStat) :
  weeklyTotal (day :: rest) = day_minutes day + weeklyTotal rest.
Proof.
  unfold weeklyTotal at 1. cbn [fold_left]. rewrite weeklyTotal_acc. lia.
Qed.

Lemma dailyStats_length (dailyData : gmap Z Z) (today : Z) (days : nat) :
  length (getDailyStudyStats dailyData today days) = days.
Proof.
  induction days as [|i IH]; cbn [getDailyStudyStats length]; congruence.
Qed.

(** The entry at a position: the oldest day comes first. *)
Lemma dailyStats_lookup (dailyData : gmap Z Z) (today : Z) (days i : nat) :
  (i < days)%nat →
  getDailyStudyStats dailyData today days !! i
  = Some {| day_date := today - Z.of_nat (days - 1 - i);
            day_minutes :=
              default 0 (dailyData !! (today - Z.of_nat (days - 1 - i))) |}.
Proof.
  revert i. induction days as [|n IH]; intros i Hi; [lia|].
  cbn [getDailyStudyStats]. destruct i as [|i].
  - cbn [lookup list_lookup]. by replace (S n - 1 - 0)%nat with n by lia.
  - rewrite lookup_cons. rewrite IH by lia.
    by replace (S n - 1 - S i)%nat with (n - 1 - i)%nat by lia.
Qed.

(** A day that is not among the last [days] days does not show. *)
Lemma dailyStats_delete (dailyData : gmap Z Z) (today day : Z) (days : nat) :
  day <= today - Z.of_nat days →
  getDailyStudyStats (delete day dailyData) today days
  = getDailyStudyStats dailyData today days.
Proof.
  induction days as [|i IH]; intros Hday; cbn [getDailyStudyStats]; [done|].
  rewrite lookup_delete_ne by lia. rewrite IH by lia. done.
Qed.

Lemma dailyTotal_nonneg (daily : gmap Z Z) :
  map_Forall (λ _ minutes, 0 <= minutes) daily → 0 <= dailyTotal daily.
Proof.
  unfold dailyTotal. induction daily as [|day minutes daily Hnew Hfold IH]
    using map_first_key_ind; intros Hall.
  - by rewrite map_fold_empty.
  - rewrite map_fold_insert_first_key by done.
    apply map_Forall_insert in Hall as [Hm Hrest]; [|done].
    specialize (IH Hrest). lia.
Qed.

(** The minutes of the last days are at most the minutes of all days. *)
Lemma weeklyTotal_le (dailyData : gmap Z Z) (today : Z) (days : nat) :
  map_Forall (λ _ minutes, 0 <= minutes) dailyData →
  weeklyTotal (getDailyStudyStats dailyData today days)
  <= dailyTotal dailyData.
Proof.
  revert dailyData. induction days as [|i IH]; intros dailyData Hall.
  - cbn. by apply dailyTotal_nonneg.
  - cbn [getDailyStudyStats]. rewrite weeklyTotal_cons. cbn [day_minutes].
    destruct (dailyData !! (today - Z.of_nat i)) as [minutes|] eqn:E;
      cbn [from_option id].
    + rewrite (StatsInvariants.dailyTotal_delete _ _ _ E).
      rewrite <- (dailyStats_delete dailyData today (today - Z.of_nat i) i)
        by lia.
      specialize (IH (delete (today - Z.of_nat i) dailyData)
                    (map_Forall_delete _ _ _ Hall)).
      unfold id. lia.
    + specialize (IH dailyData Hall). lia.
Qed.

End Week.

(** * Bars and charts *)

Module Bars.

Lemma repeat_Some (c : Block) (count : Z) :
  0 <= count → String_repeat c count = Some (replicate (Z.to_nat count) c).
Proof.
  intros H. unfold String_repeat.
  by destruct (Z.ltb_spec count 0); [lia|].
Qed.

(** The two bars drawn for a percentage, for each of the 101 percentages. *)
Lemma progressBar_table :
  forallb
    (λ percent,
       bool_decide (generateAnimatedProgressBar percent 20
                    = Some (progressCells percent)))
    (seqZ 0 101) = true.
Proof. vm_compute. reflexivity. Qed.

Lemma productivityBar_table :
  forallb
    (λ score,
       bool_decide (generateProductivityBar score
                    = Some (productivityCells score)))
    (seqZ 0 101) = true.
Proof. vm_compute. reflexivity. Qed.

Lemma progressBar_cells (percent : Z) :
  0 <= percent <= 100 →
  generateAnimatedProgressBar percent 20 = Some (progressCells percent).
Proof.
  intros H. pose proof progressBar_table as T.
  rewrite forallb_forall in T.
  specialize (T percent). rewrite <- list_elem_of_In, elem_of_seqZ in T.
  apply bool_decide_eq_true in T; [done|lia].
Qed.

Lemma productivityBar_cells (score : Z) :
  0 <= score <= 100 →
  generateProductivityBar score = Some (productivityCells score).
Proof.
  intros H. pose proof productivityBar_table as T.
  rewrite forallb_forall in T.
  specialize (T score). rewrite <- list_elem_of_In, elem_of_seqZ in T.
  apply bool_decide_eq_true in T; [done|lia].
Qed.

Lemma filled_range (x : Z) :
  0 <= x <= 100 → 0 <= (2 * x + 5) / 10 <= 20.
Proof.
  intros H. split; [apply Z.div_pos; lia|].
  assert ((2 * x + 5) / 10 < 21); [|lia].
  apply Z.div_lt_upper_bound; lia.
Qed.

Lemma productivityCells_length (score : Z) :
  0 <= score <= 100 → length (productivityCells score) = 20%nat.
Proof.
  intros H. unfold productivityCells. cbv zeta.
  pose proof (filled_range score H).
  rewrite length_app, !length_replicate. lia.
Qed.

Lemma fifth_range (percent : Z) :
  0 <= percent <= 100 →
  0 <= percent / 5 <= 20
  ∧ 0 <= (4 * (percent / 5) + 4) / 5 <= percent / 5.
Proof.
  intros H.
  assert (0 <= percent / 5 <= 20) as Hf.
  { split; [apply Z.div_pos; lia|]. apply Z.div_le_upper_bound; lia. }
  split; [done|]. split; [apply Z.div_pos; lia|].
  assert ((4 * (percent / 5) + 4) / 5 < percent / 5 + 1); [|lia].
  apply Z.div_lt_upper_bound; lia.
Qed.

Lemma progressCells_length (percent : Z) :
  0 <= percent <= 100 → length (progressCells percent) = 20%nat.
Proof.
  intros H. unfold progressCells. cbv zeta.
  pose proof (fifth_range percent H).
  rewrite !length_app, !length_replicate. lia.
Qed.

Lemma filter_replicate (c : Block) (n : nat) :
  filter (λ cell, cell ≠ Light) (replicate n c)
  = if decide (c = Light) then [] else replicate n c.
Proof.
  induction n as [|n IH]; cbn [replicate]; [by case_decide|].
  rewrite filter_cons, IH. by repeat case_decide.
Qed.

(** The cells of the animated bar that are not light are the filled
    ones. *)
Lemma progressCells_filled (percent : Z) :
  0 <= percent <= 100 →
  length (filter (λ cell, cell ≠ Light) (progressCells percent))
  = Z.to_nat (percent / 5).
Proof.
  intros H. destruct (fifth_range percent H) as [Hf Hfull].
  unfold progressCells. cbv zeta.
  rewrite !filter_app, !filter_replicate.
  rewrite !decide_False, decide_True by done.
  rewrite !length_app, !length_replicate. cbn [length]. lia.
Qed.

Lemma progressCells_light (percent : Z) :
  0 <= percent <= 100 → Light ∉ progressCells percent ↔ percent = 100.
Proof.
  intros H. destruct (fifth_range percent H) as [Hf Hfull].
  unfold progressCells. cbv zeta.
  rewrite !elem_of_app, !elem_of_replicate.
  pose proof (Z.div_mod percent 5 ltac:(lia)).
  pose proof (Z.mod_pos_bound percent 5 ltac:(lia)).
  split.
  - intros Hn. destruct (decide (percent = 100)) as [|Hne]; [done|].
    exfalso. apply Hn. right; right. split; [done|lia].
  - intros -> Hin. destruct Hin as [[? _]|[[? _]|[_ Hz]]]; try done.
Qed.

End Bars.

(** * The statistics message *)

Module Chart.

(** A line of the chart is always drawn: the length of its bar is never
    negative. *)
Lemma chartLine_Some (mx : Z) (day : DayStat) :
  ∃ line,
    chartLine mx day = Some line
    ∧ line_day line = day_date day
    ∧ line_minutes line = day_minutes day
    ∧ (line_bar line = [] ↔ day_minutes day <= 0).
Proof.
  unfold chartLine. cbv zeta.
  set (barChar := if fge _ _ then _ else _).
  set (rounded := Math_round _).
  destruct (Z.ltb_spec 0 (day_minutes day)) as [Hpos|Hneg].
  - rewrite Bars.repeat_Some by lia. cbn [mbind option_bind].
    eexists. split; [done|].
    cbn [line_day line_minutes line_bar]. split; [done|]. split; [done|].
    split; [|lia]. intros E. apply (f_equal length) in E.
    rewrite length_replicate in E. cbn in E. lia.
  - rewrite Bars.repeat_Some by lia. cbn [mbind option_bind].
    eexists. split; [done|].
    cbn [line_day line_minutes line_bar]. done.
Qed.

Lemma chart_Some (dailyStats : list DayStat) :
  ∃ lines,
    generateStudyChart dailyStats = Some lines
    ∧ Forall2
        (λ day line,
           line_day line = day_date day
           ∧ line_minutes line = day_minutes day
           ∧ (line_bar line = [] ↔ day_minutes day <= 0))
        dailyStats lines.
Proof.
  unfold generateStudyChart. generalize (maxMinutes dailyStats). intros mx.
  induction dailyStats as [|day rest (lines & Hlines & Hall)].
  - exists []. split; [done|constructor].
  - destruct (chartLine_Some mx day) as (line & Hline & Hfacts).
    exists (line :: lines). split.
    + cbn [mapM]. rewrite Hline, Hlines. done.
    + by constructor.
Qed.

End Chart.

Module Message.

(** [getFormattedStats] reads the statistics of the user and creates the
    data of a user who has none. *)
Lemma stats_unfold (userId now : Z) (w : World) :
  let stats := statsOf userId w in
  let dailyStats :=
    getDailyStudyStats (dailyStudyTime stats) (formatDay w now) 7 in
  getFormattedStats userId now w
  = (initializeUserData userId w,
     generateStudyChart dailyStats ≫= λ chart,
     calculateProductivityScore stats dailyStats ≫= λ productivityScore,
     generateProductivityBar productivityScore ≫= λ productivityBar,
     Some {| sm_totalHours :=
               Math_floor
                 (valueOf (fdiv (ofZ (totalStudyTime stats)) (ofZ 60)));
             sm_totalMinutes := Z.rem (totalStudyTime stats) 60;
             sm_avgSessionTime :=
               if 0 <? totalSessions stats
               then Math_round
                      (valueOf (fdiv (ofZ (totalStudyTime stats))
                                  (ofZ (totalSessions stats))))
               else 0;
             sm_weeklyTotal := weeklyTotal dailyStats;
             sm_chart := chart;
             sm_achievements := generateAchievements stats;
             sm_productivityScore := productivityScore;
             sm_productivityBar := productivityBar;
             sm_streak :=
               if 1 <? streak stats then Some (streak stats) else None |}).
Proof.
  unfold getFormattedStats, getUserStats. cbv zeta.
  rewrite Frame.statsOf_initialize.
  unfold formatDay. rewrite Frame.utcOffset_initialize. done.
Qed.

(** The score of statistics without negative numbers. *)
Lemma score_range (stats : Stats) (dailyStats : list DayStat) :
  0 <= streak stats → 0 <= totalSessions stats →
  0 <= totalCompletedTasks stats →
  Forall (λ day, 0 <= day_minutes day) dailyStats →
  ∃ score,
    calculateProductivityScore stats dailyStats = Some score
    ∧ 0 <= score <= 100.
Proof.
  intros Hs Hn Ht Hd.
  destruct (Score.activeScore_range dailyStats Hd) as (a & Ha & Hra).
  destruct (Score.component_range (ofZ (streak stats)) maxStreak)
    as (b & Hb & Hrb); [by apply Binary64.ofZ_signed|done|].
  destruct (Score.component_range (ofZ (totalSessions stats)) maxSessions)
    as (c & Hc & Hrc); [by apply Binary64.ofZ_signed|done|].
  destruct (Score.component_range (ofZ (totalCompletedTasks stats))
              maxCompletedTasks)
    as (d & Hd' & Hrd); [by apply Binary64.ofZ_signed|done|].
  exists (a + b + c + d). unfold calculateProductivityScore.
  fold (streakScore stats) in Hb. fold (sessionScore stats) in Hc.
  fold (taskScore stats) in Hd'.
  rewrite Ha, Hb, Hc, Hd'. cbn [mbind option_bind]. split; [done|lia].
Qed.

End Message.


(** X18.  [getDailyStudyStats] returns one entry for each of the last
    [days] calendar days, the oldest first and today last.  A day without
    an entry in the daily map counts zero minutes.  When no day of the map
    has negative minutes, the minutes of the list add up to at most the
    minutes of all the days of the map. *)
Theorem daily_stats_cover_the_last_days (dailyData : gmap Z Z)
    (today : Z) (days : nat) :
  let week := getDailyStudyStats dailyData today days in
  length week = days
  ∧ (∀ i, (i < days)%nat →
       ∃ day, week !! i = Some day
         ∧ day_date day = today - Z.of_nat (days - 1 - i)
         ∧ day_minutes day = default 0 (dailyData !! day_date day))
  ∧ (map_Forall (λ _ minutes, 0 <= minutes) dailyData →
     0 <= weeklyTotal week <= dailyTotal dailyData).
Proof.
  intros week. split; [apply Week.dailyStats_length|]. split.
  - intros i Hi. eexists. split; [by apply Week.dailyStats_lookup|]. done.
  - intros Hall. split.
    + by apply Score.weeklyTotal_nonneg, Score.dailyStats_nonneg.
    + by apply Week.weeklyTotal_le.
Qed.

(** X19.  For a user whose streak, session count, task count and daily
    minutes are not negative the statistics message is always drawn: the
    score is an integer between 0 and 100, its bar has 20 cells, the chart
    has a line for each of the last seven days with the minutes of the
    day, with an empty bar exactly for a day without minutes, and the
    minutes of the week are at most the minutes of all days.  Asking for
    the message changes nobody's data. *)
Theorem stats_message_is_drawn (userId now : Z) (w : World) :
  0 <= streak (statsOf userId w) →
  0 <= totalSessions (statsOf userId w) →
  0 <= totalCompletedTasks (statsOf userId w) →
  map_Forall (λ _ minutes, 0 <= minutes)
    (dailyStudyTime (statsOf userId w)) →
  let week :=
    getDailyStudyStats (dailyStudyTime (statsOf userId w))
      (formatDay w now) 7 in
  ∃ msg,
    (getFormattedStats userId now w).2 = Some msg
    ∧ calculateProductivityScore (statsOf userId w) week
      = Some (sm_productivityScore msg)
    ∧ 0 <= sm_productivityScore msg <= 100
    ∧ sm_productivityBar msg = productivityCells (sm_productivityScore msg)
    ∧ length (sm_productivityBar msg) = 20%nat
    ∧ Forall2
        (λ day line,
           line_day line = day_date day
           ∧ line_minutes line = day_minutes day
           ∧ (line_bar line = [] ↔ day_minutes day <= 0))
        week (sm_chart msg)
    ∧ length (sm_chart msg) = 7%nat
    ∧ 0 <= sm_weeklyTotal msg
      <= dailyTotal (dailyStudyTime (statsOf userId w))
    ∧ ∀ u, userDataOf u (getFormattedStats userId now w).1 = userDataOf u w.
Proof.
  intros Hs Hn Ht Hd week. rewrite Message.stats_unfold. cbn [fst snd].
  fold week.
  assert (Forall (λ day, 0 <= day_minutes day) week) as Hdays
    by by apply Score.dailyStats_nonneg.
  destruct (Message.score_range (statsOf userId w) week Hs Hn Ht Hdays)
    as (score & Hscore & Hrange).
  destruct (Chart.chart_Some week) as (lines & -> & Hlines).
  rewrite Hscore. cbn [mbind option_bind].
  rewrite Bars.productivityBar_cells by done. cbn [mbind option_bind].
  eexists. split; [done|].
  cbn [sm_productivityScore sm_productivityBar sm_chart sm_weeklyTotal].
  split; [done|]. split; [done|]. split; [done|].
  split; [by apply Bars.productivityCells_length|].
  split; [done|]. split.
  { rewrite <- (Forall2_length _ _ _ Hlines). apply Week.dailyStats_length. }
  split.
  { split; [by apply Score.weeklyTotal_nonneg|by apply Week.weeklyTotal_le]. }
  intros u. apply Frame.userDataOf_initialize.
Qed.

(** X19 after two sessions on two days. *)
Lemma stats_message_is_drawn_witness :
  let w :=
    runAll [Timer (Start 1 25 0 (Some 7)); Timer (Stop 1 1200000);
            Timer (Start 1 30 86400000 (Some 8)); Timer (Stop 1 88200000)]
      (emptyWorld 0) in
  ∃ msg,
    (getFormattedStats 1 90000000 w).2 = Some msg
    ∧ sm_productivityScore msg = 10
    ∧ length (sm_productivityBar msg) = 20%nat
    ∧ length (sm_chart msg) = 7%nat.
Proof.
  intros w.
  assert (map_Forall (λ _ minutes, 0 <= minutes)
            (dailyStudyTime (statsOf 1 w))) as Hd.
  { apply map_Forall_to_list. vm_compute. repeat constructor; discriminate. }
  destruct (stats_message_is_drawn 1 90000000 w
              ltac:(vm_compute; discriminate) ltac:(vm_compute; discriminate)
              ltac:(vm_compute; discriminate) Hd)
    as (msg & Hm & Hsc & _ & _ & Hb & _ & Hc & _).
  exists msg. split; [exact Hm|]. split; [|split; [exact Hb|exact Hc]].
  vm_compute in Hsc. injection Hsc as Hsc. symmetry. exact Hsc.
Defined.

(** X20.  For a score between 0 and 100 [generateProductivityBar] never
    throws.  The bar has 20 cells: the score divided by five and rounded,
    in cells of the character of the score, then light cells.  That
    character is the light one below a score of 20, so such a bar has
    light cells only, and it is the full one from 80 on. *)
Theorem productivity_bar_cells (score : Z) :
  0 <= score <= 100 →
  ∃ barChar,
    generateProductivityBar score
    = Some (replicate (Z.to_nat ((2 * score + 5) / 10)) barChar
            ++ replicate (Z.to_nat (20 - (2 * score + 5) / 10)) Light)
    ∧ length (replicate (Z.to_nat ((2 * score + 5) / 10)) barChar
              ++ replicate (Z.to_nat (20 - (2 * score + 5) / 10)) Light)
      = 20%nat
    ∧ (barChar = Light ↔ score < 20)
    ∧ (barChar = Full ↔ 80 <= score)
    ∧ (score < 20 → generateProductivityBar score = Some (replicate 20 Light)).
Proof.
  intros H. rewrite Bars.productivityBar_cells by done.
  pose proof (Bars.productivityCells_length score H) as Hlen.
  pose proof (Bars.filled_range score H) as Hf.
  unfold productivityCells in *. cbv zeta in *.
  eexists. split; [done|]. split; [done|].
  split; [repeat case_match; split; try done; lia|].
  split; [repeat case_match; split; try done; lia|].
  intros Hlow.
  destruct (Z.leb_spec 80 score); [lia|].
  destruct (Z.leb_spec 50 score); [lia|].
  destruct (Z.leb_spec 20 score); [lia|].
  rewrite <- replicate_add. do 2 f_equal. lia.
Qed.

(** X20 at the score 19: four cells are counted as filled, and all twenty
    are light. *)
Lemma productivity_bar_cells_witness :
  (2 * 19 + 5) / 10 = 4
  ∧ generateProductivityBar 19 = Some (replicate 20 Light).
Proof.
  split; [reflexivity|].
  destruct (productivity_bar_cells 19 ltac:(lia)) as (c & _ & _ & _ & _ & Hl).
  apply Hl. lia.
Defined.
